(** * pywinprint: a shallow embedding of [printer.py] and [driver.py]

    The development follows the two source files.  Python integers are
    [Z]; Python floats are IEEE 754 binary64 values, taken from the
    Standard Library's executable specification [SpecFloat] at
    precision 53 and maximal exponent 1024; exceptions are an error
    result; calls to the operating system (device context, shell,
    console) are recorded in a trace that is threaded through a small
    state-and-exception monad. *)

From Stdlib Require Import ZArith List Bool String Ascii Lia Znumtheory.
From Stdlib Require Import DecimalString.
From Stdlib Require DecimalNat.
From Stdlib Require Import Floats.SpecFloat.
Import ListNotations.

Local Open Scope string_scope.
Local Open Scope list_scope.
Local Open Scope Z_scope.

(** ** Exceptions and results *)

Inductive exn : Type :=
| ZeroDivisionError
| OverflowError
| ValueError
| IndexError
| EOFError
| OSError (what : string).

Definition exn_eqb (a b : exn) : bool :=
  match a, b with
  | ZeroDivisionError, ZeroDivisionError
  | OverflowError, OverflowError
  | ValueError, ValueError
  | IndexError, IndexError
  | EOFError, EOFError => true
  | OSError x, OSError y => String.eqb x y
  | _, _ => false
  end.

Inductive result (A : Type) : Type :=
| Ok (a : A)
| Raise (e : exn).
Arguments Ok {A} a.
Arguments Raise {A} e.

Definition rbind {A B} (r : result A) (k : A -> result B) : result B :=
  match r with
  | Ok a => k a
  | Raise e => Raise e
  end.

Declare Scope result_scope.
Delimit Scope result_scope with result.
Notation "'let*' x ':=' r 'in' k" := (rbind r (fun x => k))
  (at level 10, x pattern, r at level 100, k at level 200) : result_scope.

(** ** Python numbers *)

Module Py.

Definition prec : Z := 53.
Definition emax : Z := 1024.

(** A Python [float]. *)
Definition float : Type := spec_float.

(** The integer [z] as an (unrounded) mantissa with exponent 0. *)
Definition raw_of_int (z : Z) : float :=
  match z with
  | Z0 => S754_zero false
  | Zpos p => S754_finite false p 0
  | Zneg p => S754_finite true p 0
  end.

(** [float(z)], as [int * float] applies it to its integer operand:
    correctly rounded, [OverflowError] beyond the largest float. *)
Definition float_of_int (z : Z) : result float :=
  match binary_normalize prec emax z 0 false with
  | S754_infinity _ => Raise OverflowError
  | f => Ok f
  end.

(** [a / b] on two integers: the correctly rounded quotient of the
    exact integers. *)
Definition int_truediv (a b : Z) : result float :=
  if b =? 0 then Raise ZeroDivisionError
  else match a with
       | Z0 => Ok (S754_zero (b <? 0))
       | _ =>
         match SFdiv prec emax (raw_of_int a) (raw_of_int b) with
         | S754_infinity _ => Raise OverflowError
         | f => Ok f
         end
       end.

(** [z * f] with [z] an integer and [f] a float. *)
Definition int_mul_float (z : Z) (f : float) : result float :=
  (let* fz := float_of_int z in Ok (SFmul prec emax fz f))%result.

(** [min([a, b])]: the first of the smallest items. *)
Definition min2 (a b : float) : float :=
  if SFltb b a then b else a.

(** [int(f)]: truncation toward zero. *)
Definition int_of_float (f : float) : result Z :=
  match f with
  | S754_zero _ => Ok 0
  | S754_infinity _ => Raise OverflowError
  | S754_nan => Raise ValueError
  | S754_finite s m e =>
    Ok (cond_Zopp s (match e with
                     | Zneg p => Zpos m / 2 ^ Zpos p
                     | _ => Zpos m * 2 ^ e
                     end))
  end.

(** A [str] is held as the UTF-8 bytes of its code points, which is
    also what a string literal of this file denotes. *)

(** What [int] skips around a number: C's [isspace] on ASCII
    ([Py_ISSPACE]), that is tab to carriage return and the space.  The
    separators U+001C to U+001F, which [str.strip] removes, are not
    among them. *)
Definition is_space (c : ascii) : bool :=
  let n := nat_of_ascii c in
  ((9 <=? n) && (n <=? 13) || (n =? 32))%nat.

Definition is_digit (c : ascii) : bool :=
  let n := nat_of_ascii c in ((48 <=? n) && (n <=? 57))%nat.

Definition digit_value (c : ascii) : Z := Z.of_nat (nat_of_ascii c) - 48.

(** The white space of Unicode beyond ASCII ([Py_UNICODE_ISSPACE]). *)
Definition unicode_space (cp : N) : bool :=
  ((cp =? 0x85) || (cp =? 0xA0) || (cp =? 0x1680) ||
   (0x2000 <=? cp) && (cp <=? 0x200A) ||
   (cp =? 0x2028) || (cp =? 0x2029) || (cp =? 0x202F) || (cp =? 0x205F) ||
   (cp =? 0x3000))%N.

(** The decimal digits of Unicode beyond ASCII (general category Nd,
    Unicode 14.0 as in CPython 3.11): the code point of each zero; the
    digits one to nine follow it. *)
Definition decimal_zeros : list N :=
  [0x660; 0x6F0; 0x7C0; 0x966; 0x9E6; 0xA66; 0xAE6; 0xB66; 0xBE6; 0xC66;
   0xCE6; 0xD66; 0xDE6; 0xE50; 0xED0; 0xF20; 0x1040; 0x1090; 0x17E0;
   0x1810; 0x1946; 0x19D0; 0x1A80; 0x1A90; 0x1B50; 0x1BB0; 0x1C40; 0x1C50;
   0xA620; 0xA8D0; 0xA900; 0xA9D0; 0xA9F0; 0xAA50; 0xABF0; 0xFF10; 0x104A0;
   0x10D30; 0x11066; 0x110F0; 0x11136; 0x111D0; 0x112F0; 0x11450; 0x114D0;
   0x11650; 0x116C0; 0x11730; 0x118E0; 0x11950; 0x11C50; 0x11D50; 0x11DA0;
   0x16A60; 0x16AC0; 0x16B50; 0x1D7CE; 0x1D7D8; 0x1D7E2; 0x1D7EC; 0x1D7F6;
   0x1E140; 0x1E2F0; 0x1E950; 0x1FBF0]%N.

(** [Py_UNICODE_TODECIMAL] beyond ASCII. *)
Definition unicode_decimal (cp : N) : option N :=
  match find (fun zero => (zero <=? cp) && (cp <? zero + 10))%N decimal_zeros with
  | Some zero => Some (cp - zero)%N
  | None => None
  end.

(** The payload of a UTF-8 continuation byte. *)
Definition continuation (c : ascii) : option N :=
  let n := N_of_ascii c in
  if ((128 <=? n) && (n <? 192))%N then Some (n - 128)%N else None.

(** The code point encoded by two, three or four bytes, when they are
    the UTF-8 encoding of one. *)
Definition two_bytes (b0 b1 : ascii) : option N :=
  let n0 := N_of_ascii b0 in
  match continuation b1 with
  | Some n1 =>
    let cp := ((n0 - 192) * 64 + n1)%N in
    if ((192 <=? n0) && (128 <=? cp))%N then Some cp else None
  | None => None
  end.

Definition three_bytes (b0 b1 b2 : ascii) : option N :=
  let n0 := N_of_ascii b0 in
  match continuation b1, continuation b2 with
  | Some n1, Some n2 =>
    let cp := (((n0 - 224) * 64 + n1) * 64 + n2)%N in
    if (2048 <=? cp)%N then Some cp else None
  | _, _ => None
  end.

Definition four_bytes (b0 b1 b2 b3 : ascii) : option N :=
  let n0 := N_of_ascii b0 in
  match continuation b1, continuation b2, continuation b3 with
  | Some n1, Some n2, Some n3 =>
    let cp := ((((n0 - 240) * 64 + n1) * 64 + n2) * 64 + n3)%N in
    if ((n0 <? 248) && (65536 <=? cp) && (cp <=? 1114111))%N then Some cp else None
  | _, _, _ => None
  end.

(** What a code point beyond ASCII becomes before [int] parses the
    line: white space a space, a decimal digit its ASCII digit; at
    anything else the line is cut after a question mark (which no
    integer contains). *)
Definition emit (cp : option N) (rest : list ascii) : list ascii :=
  match cp with
  | Some cp =>
    if unicode_space cp then " "%char :: rest
    else match unicode_decimal cp with
         | Some d => ascii_of_N (48 + d) :: rest
         | None => ["?"%char]
         end
  | None => ["?"%char]
  end.

(** [_PyUnicode_TransformDecimalAndSpaceToASCII], read off the UTF-8
    bytes of the line: ASCII is kept as it is. *)
Fixpoint ascii_form (s : list ascii) : list ascii :=
  match s with
  | [] => []
  | b0 :: r0 =>
    if (N_of_ascii b0 <? 128)%N then b0 :: ascii_form r0
    else
      match r0 with
      | [] => ["?"%char]
      | b1 :: r1 =>
        if (N_of_ascii b0 <? 224)%N then emit (two_bytes b0 b1) (ascii_form r1)
        else
          match r1 with
          | [] => ["?"%char]
          | b2 :: r2 =>
            if (N_of_ascii b0 <? 240)%N then emit (three_bytes b0 b1 b2) (ascii_form r2)
            else
              match r2 with
              | [] => ["?"%char]
              | b3 :: r3 => emit (four_bytes b0 b1 b2 b3) (ascii_form r3)
              end
          end
      end
  end.

Fixpoint lstrip (s : list ascii) : list ascii :=
  match s with
  | c :: r => if is_space c then lstrip r else s
  | [] => []
  end.

(** The line without the white space [int] skips at both ends. *)
Definition strip (s : string) : list ascii :=
  rev (lstrip (rev (lstrip (ascii_form (list_ascii_of_string s))))).

(** Decimal digits, single underscores allowed between digits.
    [after_digit] tells whether the previous character was a digit. *)
Fixpoint digits (acc : Z) (after_digit : bool) (s : list ascii) : option Z :=
  match s with
  | [] => if after_digit then Some acc else None
  | c :: r =>
    if is_digit c then digits (10 * acc + digit_value c) true r
    else if Ascii.eqb c "_" then
           if after_digit then digits acc false r else None
         else None
  end.

(** [sys.get_int_max_str_digits()]: a decimal literal with more digits
    (leading zeros count, underscores do not) is refused.  The same
    limit stops [str] on an integer of more digits. *)
Definition int_max_str_digits : nat := 4300.

Definition count_digits (s : list ascii) : nat :=
  List.length (filter is_digit s).

(** [int(s)] on a [str], base ten. *)
Definition int_of_str (s : string) : result Z :=
  let body sign r :=
    match r with
    | c :: _ =>
      if is_digit c then
        match digits 0 false r with
        | Some v =>
          if (count_digits r <=? int_max_str_digits)%nat
          then Ok (sign * v) else Raise ValueError
        | None => Raise ValueError
        end
      else Raise ValueError
    | [] => Raise ValueError
    end in
  match strip s with
  | c :: r =>
    if Ascii.eqb c "-" then body (-1) r
    else if Ascii.eqb c "+" then body 1 r
    else body 1 (c :: r)
  | [] => Raise ValueError
  end.

(** [l[i]], negative indices counting from the end. *)
Definition index {A} (l : list A) (i : Z) : result A :=
  let n := Z.of_nat (List.length l) in
  let j := if i <? 0 then i + n else i in
  if (0 <=? j) && (j <? n)
  then match nth_error l (Z.to_nat j) with
       | Some a => Ok a
       | None => Raise IndexError
       end
  else Raise IndexError.

(** [str(n)] for a natural number (of at most [int_max_str_digits]
    digits: beyond, [str] raises). *)
Definition str_of_nat (n : nat) : string :=
  NilEmpty.string_of_uint (Nat.to_uint n).

End Py.

(** ** pathlib *)

(** A relative path is the list of its components. *)
Definition Path : Type := list string.

Module Pathlib.

(** [path.name]: the final component. *)
Definition name (p : Path) : string := last p EmptyString.

(** Position of the last dot of a name. *)
Fixpoint rfind_dot (s : string) (pos : nat) (found : option nat) : option nat :=
  match s with
  | EmptyString => found
  | String c r => rfind_dot r (S pos) (if Ascii.eqb c "." then Some pos else found)
  end.

(** The index at which the suffix of a name starts, when it has one:
    the last dot, unless it is the first or the last character. *)
Definition suffix_start (nm : string) : option nat :=
  match rfind_dot nm 0 None with
  | Some i => if ((0 <? i) && (i <? String.length nm - 1))%nat then Some i else None
  | None => None
  end.

(** [path.suffix] *)
Definition suffix (p : Path) : string :=
  match suffix_start (name p) with
  | Some i => substring i (String.length (name p) - i) (name p)
  | None => EmptyString
  end.

(** [path.stem] *)
Definition stem (p : Path) : string :=
  match suffix_start (name p) with
  | Some i => substring 0 i (name p)
  | None => name p
  end.

(** [str(path)] on Windows. *)
Definition str (p : Path) : string := String.concat "\" p.

(** [Path(s)]: the components between separators, empty components
    and single dots dropped (drive letters are not modelled). *)
Fixpoint split (s : list ascii) (cur : list ascii) : list string :=
  let flush cur rest :=
    let c := string_of_list_ascii (rev cur) in
    if String.eqb c EmptyString || String.eqb c "." then rest else c :: rest in
  match s with
  | [] => flush cur []
  | c :: r =>
    if Ascii.eqb c "/" || Ascii.eqb c "\" then flush cur (split r [])
    else split r (c :: cur)
  end.

Definition of_str (s : string) : Path := split (list_ascii_of_string s) [].

(** A directory tree, as [rglob] walks it. *)
#[warnings="-register-all"]
Inductive entry : Type :=
| File (nm : string)
| Dir (nm : string) (children : list entry).

Definition entry_name (e : entry) : string :=
  match e with File n => n | Dir n _ => n end.

(** What [rglob("*")] yields inside the directory [e] found at [at_]:
    first every entry of the directory itself (files and directories
    alike), then the same for each of its sub-directories in turn. *)
Fixpoint rglob_below (at_ : Path) (e : entry) : list Path :=
  match e with
  | File _ => []
  | Dir n sub =>
    map (fun c => at_ ++ [n; entry_name c]) sub ++
    flat_map (rglob_below (at_ ++ [n])) sub
  end.

(** [Path(".").rglob("*")], with [root] the entries of the current
    directory. *)
Definition rglob (root : list entry) : list Path :=
  map (fun c => [entry_name c]) root ++ flat_map (rglob_below []) root.

End Pathlib.

(** ** printer.py: data *)

(** A PIL image as far as the program looks at it: its colour mode, its
    pixel size, how many quarter turns [rotate(90)] has applied to it
    and which page of which file it was decoded from. *)
Inductive mode : Type := RGB | RGBA | L | CMYK | P.

Record Image : Type := mkImage {
  im_mode : mode;
  im_size : Z * Z;
  im_turns : nat;
  im_origin : Path * nat
}.

(** [PIL.ImageWin.Dib]: wraps an image; [size] is the image's. *)
Record Dib : Type := mkDib { dib_image : Image }.

Definition size (d : Dib) : Z * Z := im_size (dib_image d).

(** What a [Printer] object holds once [__init__] has run; the device
    context itself is the one the trace below talks about. *)
Record Printer : Type := mkPrinter {
  name : string;
  paper_width : Z;
  paper_height : Z;
  handle : Z
}.

Record Document : Type := mkDocument {
  printer : Printer;
  document_name : string
}.

Record Page : Type := mkPage { document : Document }.

(** ** The outside world *)

(** Calls that leave the program, in the order they are made. *)
Inductive call : Type :=
| GetDefaultPrinter
| CreateDC
| CreatePrinterDC (printer_name : string)
| GetDeviceCaps (index : Z)
| GetHandleOutput
| DeleteDC
| StartDoc (doc_name : string)
| EndDoc
| StartPage
| EndPage
| Draw (dib : Dib) (hdl : Z) (rect : Z * Z * Z * Z)
| StartFile (path : Path) (verb : string)
| Print (line : string)
| Input (prompt : string).

(** What the program cannot decide: which call raises (given what was
    called before), what the system and the libraries answer and what
    the files contain. *)
Record World : Type := mkWorld {
  raises : list call -> call -> option exn;
  default_printer : string;
  device_caps : string -> Z -> Z;
  handle_output : string -> Z;
  EnumPrinters : Z -> list (Z * string * string * string);
  Image_open : Path -> result Image;
  convert_raises : Image -> mode -> option exn;
  Dib_raises : Image -> option exn;
  convert_from_path : Path -> result (list Image);
  safe_substitute : string -> list (string * string) -> string;
  current_directory : list Pathlib.entry
}.

(** The calls made so far and what is left on standard input: a line,
    or an end of file ([None]); an exhausted input is at end of file. *)
Record state : Type := mkState {
  trace : list call;
  stdin : list (option string)
}.

(** Computations: state passing with exceptions. *)
Definition M (A : Type) : Type := state -> state * result A.

Definition ret {A} (a : A) : M A := fun s => (s, Ok a).
Definition raise {A} (e : exn) : M A := fun s => (s, Raise e).
Definition lift {A} (r : result A) : M A := fun s => (s, r).

Definition bind {A B} (m : M A) (k : A -> M B) : M B :=
  fun s => match m s with
           | (s', Ok a) => k a s'
           | (s', Raise e) => (s', Raise e)
           end.

Declare Scope M_scope.
Delimit Scope M_scope with M.
Notation "'let*' x ':=' m 'in' k" := (bind m (fun x => k))
  (at level 10, x pattern, m at level 100, k at level 200) : M_scope.
Notation "m ';;' k" := (bind m (fun _ => k))
  (at level 61, right associativity) : M_scope.

(** [with mgr as r: body]: [mgr] builds the manager and enters it;
    once entered, [exit] runs however the body ends, and (returning
    [None]) lets the body's exception through; an exception of [exit]
    itself replaces it. *)
Definition with_ {R A} (mgr : M R) (exit : R -> M unit) (body : R -> M A) : M A :=
  fun s =>
    match mgr s with
    | (s1, Raise e) => (s1, Raise e)
    | (s1, Ok r) =>
      let '(s2, outcome) := body r s1 in
      match exit r s2 with
      | (s3, Ok _) => (s3, outcome)
      | (s3, Raise e) => (s3, Raise e)
      end
    end.

(** [try: m  except (...): handler], catching the listed exceptions. *)
Definition try_except {A} (m : M A) (caught : exn -> bool) (handler : M A) : M A :=
  fun s =>
    match m s with
    | (s', Raise e) => if caught e then handler s' else (s', Raise e)
    | ok => ok
    end.

(** [for x in xs: body x] *)
Fixpoint for_each {A} (xs : list A) (body : A -> M unit) : M unit :=
  match xs with
  | [] => ret tt
  | x :: rest => bind (body x) (fun _ => for_each rest body)
  end.

(** A call is recorded, then returns or raises as the world decides. *)
Definition do_call (w : World) (c : call) : M unit :=
  fun s =>
    (mkState (trace s ++ [c]) (stdin s),
     match raises w (trace s) c with
     | Some e => Raise e
     | None => Ok tt
     end).

(** [print(line)] *)
Definition print (line : string) : M unit :=
  fun s => (mkState (trace s ++ [Print line]) (stdin s), Ok tt).

(** [input(prompt)] *)
Definition input (prompt : string) : M string :=
  fun s =>
    let tr := trace s ++ [Input prompt] in
    match stdin s with
    | Some line :: rest => (mkState tr rest, Ok line)
    | None :: rest => (mkState tr rest, Raise EOFError)
    | [] => (mkState tr [], Raise EOFError)
    end.

(** [Dib(image)] *)
Definition Dib_new (w : World) (image : Image) : result Dib :=
  match Dib_raises w image with
  | Some e => Raise e
  | None => Ok (mkDib image)
  end.

(** [image.convert(m)] *)
Definition convert (w : World) (image : Image) (m : mode) : result Image :=
  match convert_raises w image m with
  | Some e => Raise e
  | None => Ok (mkImage m (im_size image) (im_turns image) (im_origin image))
  end.

(** [image.rotate(90)]: the canvas keeps its size. *)
Definition rotate90 (image : Image) : Image :=
  mkImage (im_mode image) (im_size image) (S (im_turns image)) (im_origin image).

(** ** printer.py: classes *)

Module Page.

(** [Page.__enter__] *)
Definition enter (w : World) (self : Page) : M Page :=
  (do_call w StartPage ;; ret self)%M.

(** [Page.__exit__] *)
Definition exit (w : World) (self : Page) : M unit :=
  do_call w EndPage.

(** [Page.fit_dib] *)
Definition fit_dib (printer : Printer) (dib : Dib) : result (Z * Z * Z * Z) :=
  (let* sx := Py.int_truediv (paper_width printer) (fst (size dib)) in
   let* sy := Py.int_truediv (paper_height printer) (snd (size dib)) in
   let scale := Py.min2 sx sy in
   let* fw := Py.int_mul_float (fst (size dib)) scale in
   let* width := Py.int_of_float fw in
   let* fh := Py.int_mul_float (snd (size dib)) scale in
   let* height := Py.int_of_float fh in
   let* hx := Py.int_truediv (paper_width printer - width) 2 in
   let* x1 := Py.int_of_float hx in
   let* hy := Py.int_truediv (paper_height printer - height) 2 in
   let* y1 := Py.int_of_float hy in
   let x2 := x1 + width in
   let y2 := y1 + height in
   Ok (x1, y1, x2, y2))%result.

(** [Page.send] *)
Definition send (w : World) (self : Page) (dib : Dib) : M unit :=
  (let* rect := lift (fit_dib (printer (document self)) dib) in
   do_call w (Draw dib (handle (printer (document self))) rect))%M.

(** [Page.get_dib] *)
Definition get_dib (w : World) (path : Path) : result Dib :=
  (let* opened := Image_open w path in
   let* bmp := convert w opened RGB in
   let bmp := if snd (im_size bmp) <? fst (im_size bmp) then rotate90 bmp else bmp in
   Dib_new w bmp)%result.

End Page.

Module Document.

(** [Document.__enter__] *)
Definition enter (w : World) (self : Document) : M Document :=
  (do_call w (StartDoc (document_name self)) ;; ret self)%M.

(** [Document.__exit__] *)
Definition exit (w : World) (self : Document) : M unit :=
  do_call w EndDoc.

(** [Document.send]; an item is a path or a bitmap. *)
Definition send (w : World) (self : Document) (items : list (Path + Dib)) : M unit :=
  for_each items (fun item =>
    (let* item := match item with
                  | inl path => lift (Page.get_dib w path)
                  | inr dib => ret dib
                  end in
     with_ (Page.enter w (mkPage self)) (Page.exit w)
           (fun page => Page.send w page item))%M).

End Document.

(** [Dib(page) for page in pages], all of them built before the call
    that receives them. *)
Fixpoint dibs_of (w : World) (pages : list Image) : result (list Dib) :=
  match pages with
  | [] => Ok []
  | page :: rest =>
    (let* d := Dib_new w page in
     let* ds := dibs_of w rest in
     Ok (d :: ds))%result
  end.

Module Printer.

Definition PAPER_WIDTH_IDX : Z := 110.
Definition PAPER_HEIGHT_IDX : Z := 111.

(** [Printer.__init__] *)
Definition init (w : World) (name : string) : M Printer :=
  (let* name := if String.eqb name EmptyString
                then (do_call w GetDefaultPrinter ;; ret (default_printer w))
                else ret name in
   do_call w CreateDC ;;
   do_call w (CreatePrinterDC name) ;;
   do_call w (GetDeviceCaps PAPER_WIDTH_IDX) ;;
   do_call w (GetDeviceCaps PAPER_HEIGHT_IDX) ;;
   do_call w GetHandleOutput ;;
   ret (mkPrinter name
                  (device_caps w name PAPER_WIDTH_IDX)
                  (device_caps w name PAPER_HEIGHT_IDX)
                  (handle_output w name)))%M.

(** [Printer.__enter__] *)
Definition enter (self : Printer) : M Printer := ret self.

(** [Printer.__exit__] *)
Definition exit (w : World) (self : Printer) : M unit :=
  do_call w DeleteDC.

(** [Printer.shell_print] *)
Definition shell_print (w : World) (path : Path) : M unit :=
  do_call w (StartFile path "print").

(** The body of the [with] block of [device_print]. *)
Definition device_print_body (w : World) (path : Path) (document : Document) : M unit :=
  if String.eqb (Pathlib.suffix path) ".pdf"
  then (let* pages := lift (convert_from_path w path) in
        let* dibs := lift (dibs_of w pages) in
        Document.send w document (map inr dibs))%M
  else Document.send w document [inl path].

(** [Printer.device_print] *)
Definition device_print (w : World) (self : Printer) (path : Path) : M unit :=
  with_ (Document.enter w (mkDocument self (Pathlib.name path))) (Document.exit w)
        (device_print_body w path).

(** [Printer.send]; a path is given as a string or as a [Path]. *)
Definition send (w : World) (self : Printer) (paths : list (string + Path))
           (msg : string) (shell : bool) : M unit :=
  let print_document := if shell then shell_print w else device_print w self in
  for_each paths (fun path =>
    let path := match path with
                | inl s => Pathlib.of_str s
                | inr p => p
                end in
    (print_document path ;;
     if String.eqb msg EmptyString then ret tt
     else print (safe_substitute w msg
                   [("printer", name self); ("path", Pathlib.str path);
                    ("document", Pathlib.name path); ("stem", Pathlib.stem path)]))%M).

End Printer.

(** The module-level [send]. *)
Definition send (w : World) (paths : list (string + Path))
           (printer_name : string) (msg : string) (shell : bool) : M unit :=
  with_ (bind (Printer.init w printer_name) Printer.enter) (Printer.exit w)
        (fun printer => Printer.send w printer paths msg shell).

(** ** driver.py *)

(** The constants at the top of the module. *)
Record Config : Type := mkConfig {
  EXPECTED_PRINTER : option string;
  PRINTABLE_EXTS : list string;
  MSG : string
}.

(** Their values in the source. *)
Definition shipped : Config := mkConfig None [".pdf"] "SENT $path TO $printer".

Definition PRINTER_NAME_IDX : Z := 2.

(** [PRINTERS]: the third field of every installed printer. *)
Definition PRINTERS (w : World) : list string :=
  map (fun printer => snd (fst printer)) (EnumPrinters w PRINTER_NAME_IDX).

(** A configured name counts when it is given and not empty. *)
Definition truthy (o : option string) : bool :=
  match o with
  | Some s => negb (String.eqb s EmptyString)
  | None => false
  end.

Definition mem (s : string) (l : list string) : bool :=
  existsb (String.eqb s) l.

(** How an f-string shows [EXPECTED_PRINTER]. *)
Definition show (o : option string) : string :=
  match o with Some s => s | None => "None" end.

(** The numbered menu: the printers, then QUIT.  (A Python list holds
    fewer than [2^63] items, so a menu number has at most 19 digits
    and [str] never refuses it; the model does not bound the catalog,
    and a proof that needs the bound takes it as a hypothesis.) *)
Fixpoint menu (no : nat) (choices : list string) : M unit :=
  match choices with
  | [] => ret tt
  | choice :: rest =>
    (print (Py.str_of_nat no ++ ". " ++ choice) ;; menu (S no) rest)%M
  end.

Definition selection_errors (e : exn) : bool :=
  exn_eqb e EOFError || exn_eqb e ValueError || exn_eqb e IndexError.

(** [get_printer_name] *)
Definition get_printer_name (w : World) (c : Config) : M (option string) :=
  if truthy (EXPECTED_PRINTER c) &&
     match EXPECTED_PRINTER c with
     | Some expected => mem expected (PRINTERS w)
     | None => false
     end
  then ret (EXPECTED_PRINTER c)
  else
    ((if truthy (EXPECTED_PRINTER c)
      then print ("EXPECTED PRINTER NOT FOUND (" ++ show (EXPECTED_PRINTER c) ++ ")")
      else ret tt) ;;
     print "CHOOSE PRINTER OR QUIT" ;;
     menu 0 (PRINTERS w ++ ["QUIT"]) ;;
     try_except
       (let* line := input EmptyString in
        let* no := lift (Py.int_of_str line) in
        let* chosen := lift (Py.index (PRINTERS w) no) in
        ret (Some chosen))
       selection_errors
       (ret None))%M.

(** The paths [main] hands to [send]: what the recursive scan of the
    current directory yields, filtered by suffix. *)
Definition printable_paths (w : World) (c : Config) : list Path :=
  filter (fun path => mem (Pathlib.suffix path) (PRINTABLE_EXTS c))
         (Pathlib.rglob (current_directory w)).

Definition newline : string := String "010"%char EmptyString.

(** [main] *)
Definition main (w : World) (c : Config) : M unit :=
  (let* printer_name := get_printer_name w c in
   (if truthy printer_name
    then send w (map inr (printable_paths w c))
              (match printer_name with Some n => n | None => EmptyString end)
              (MSG c) false
    else print "NO PRINTER SELECTED") ;;
   print "WORK COMPLETE" ;;
   input ("PRESS ENTER TO QUIT" ++ newline) ;;
   ret tt)%M.

(** Running a computation on a fresh trace. *)
Definition run {A} (m : M A) (input_lines : list (option string)) : list call * result A :=
  let '(s, r) := m (mkState [] input_lines) in (trace s, r).

(** ** Notions used to state the properties *)

(** *** The page fitter in the words of the specification *)

Module Fit.

(** The binary64 quotient of two integers and the binary64 product
    of an integer and a float. *)
Definition quotient (a b : Z) : Py.float :=
  SFdiv Py.prec Py.emax (Py.raw_of_int a) (Py.raw_of_int b).

Definition product (z : Z) (f : Py.float) : Py.float :=
  SFmul Py.prec Py.emax (binary_normalize Py.prec Py.emax z 0 false) f.

(** [scale = min(W/w, H/h)] *)
Definition scale (W H w h : Z) : Py.float :=
  Py.min2 (quotient W w) (quotient H h).

(** The integer part of a float (toward zero). *)
Definition truncate (f : Py.float) : Z :=
  match f with
  | S754_finite s m (Zneg p) => cond_Zopp s (Zpos m / 2 ^ Zpos p)
  | S754_finite s m e => cond_Zopp s (Zpos m * 2 ^ e)
  | _ => 0
  end.

(** The integer nearest to a float, ties to the even one (Python's
    [round]). *)
Definition nearest (f : Py.float) : Z :=
  match f with
  | S754_finite s m (Zneg p) =>
    let q := Zpos m / 2 ^ Zpos p in
    let r := Zpos m mod 2 ^ Zpos p in
    cond_Zopp s (match 2 * r ?= 2 ^ Zpos p with
                 | Lt => q
                 | Gt => q + 1
                 | Eq => if Z.even q then q else q + 1
                 end)
  | S754_finite s m e => cond_Zopp s (Zpos m * 2 ^ e)
  | _ => 0
  end.

(** The algorithm as the specification words it, with [round]. *)
Definition rounded (W H w h : Z) : Z * Z * Z * Z :=
  let s := scale W H w h in
  let scaled_w := nearest (product w s) in
  let scaled_h := nearest (product h s) in
  let x1 := nearest (quotient (W - scaled_w) 2) in
  let y1 := nearest (quotient (H - scaled_h) 2) in
  (x1, y1, x1 + scaled_w, y1 + scaled_h).

(** The same algorithm with every [round] replaced by truncation
    toward zero; the halving is then the integer one. *)
Definition truncated (W H w h : Z) : Z * Z * Z * Z :=
  let s := scale W H w h in
  let scaled_w := truncate (product w s) in
  let scaled_h := truncate (product h s) in
  let x1 := Z.quot (W - scaled_w) 2 in
  let y1 := Z.quot (H - scaled_h) 2 in
  (x1, y1, x1 + scaled_w, y1 + scaled_h).

(** The rectangle lies within the paper. *)
Definition within (W H : Z) (rect : Z * Z * Z * Z) : Prop :=
  let '(x1, y1, x2, y2) := rect in
  0 <= x1 <= x2 /\ x2 <= W /\ 0 <= y1 <= y2 /\ y2 <= H.

(** Fitting a bitmap of the size of [rect] again. *)
Definition refit (printer : Printer) (rect : Z * Z * Z * Z) : result (Z * Z * Z * Z) :=
  let '(x1, y1, x2, y2) := rect in
  Page.fit_dib printer (mkDib (mkImage RGB (x2 - x1, y2 - y1) 0 ([], 0%nat))).

End Fit.

(** A printer with the given paper and a bitmap of the given size. *)
Definition paper (W H : Z) : Printer := mkPrinter EmptyString W H 0.
Definition bitmap (w h : Z) : Dib := mkDib (mkImage RGB (w, h) 0 ([], 0%nat)).

(** *** Binary64 rounding *)

(** [represents mrs num den]: the record holds the integer part of the
    fraction [num / den] and tells where the fraction lies between two
    integers (round bit: at or above the midpoint; sticky bit: neither
    on the integer nor on the midpoint). *)
Definition represents (mrs : shr_record) (num den : Z) : Prop :=
  0 < den /\ 0 <= num /\
  shr_m mrs = num / den /\
  shr_r mrs = (den <=? 2 * (num mod den)) /\
  shr_s mrs = negb (num mod den =? 0) && negb (2 * (num mod den) =? den).

(** The value of a positive float in units of [2 ^ -1074]. *)
Definition scaled (f : spec_float) : Z :=
  match f with
  | S754_finite false m e => Zpos m * 2 ^ (e + 1074)
  | _ => 0
  end.

(** The float 1.0. *)
Definition one : Py.float := S754_finite false 4503599627370496 (-52).

(** Positive normal binary64 numbers with exponent between [lo] and [hi]. *)
Definition normal_in (lo hi : Z) (f : spec_float) : Prop :=
  exists m e, f = S754_finite false m e /\
              2 ^ 52 <= Zpos m < 2 ^ 53 /\ lo <= e <= hi.

(** *** The print job protocol *)

Inductive job_state : Type := Idle | DocumentStarted | PageStarted.

(** One call seen by the device; [raised] tells whether it raised.  A
    start that raises opens nothing; an end counts as issued either
    way; anything out of order is refused. *)
Definition job_step (st : job_state) (c : call) (raised : bool) : option job_state :=
  match st, c with
  | Idle, StartDoc _ => Some (if raised then Idle else DocumentStarted)
  | DocumentStarted, StartPage => Some (if raised then DocumentStarted else PageStarted)
  | PageStarted, Draw _ _ _ => Some PageStarted
  | PageStarted, EndPage => Some DocumentStarted
  | DocumentStarted, EndDoc => Some Idle
  | _, _ => None
  end.

Definition raised (w : World) (before : list call) (c : call) : bool :=
  match raises w before c with Some _ => true | None => false end.

(** The protocol run over the calls made after [before]. *)
Fixpoint job_run (w : World) (before : list call) (st : job_state)
         (calls : list call) : option job_state :=
  match calls with
  | [] => Some st
  | c :: rest =>
    match job_step st c (raised w before c) with
    | Some st' => job_run w (before ++ [c]) st' rest
    | None => None
    end
  end.

Definition page_call (c : call) : Prop :=
  match c with StartPage | EndPage | Draw _ _ _ => True | _ => False end.

(** The calls of [Printer.__init__]. *)
Definition setup_call (c : call) : Prop :=
  match c with
  | GetDefaultPrinter | CreateDC | CreatePrinterDC _ | GetDeviceCaps _
  | GetHandleOutput => True
  | _ => False
  end.


(** *** The selection prompt *)

Fixpoint menu_lines (no : nat) (choices : list string) : list call :=
  match choices with
  | [] => []
  | choice :: rest => Print (Py.str_of_nat no ++ ". " ++ choice) :: menu_lines (S no) rest
  end.

(** Everything printed before the selection is read. *)
Definition prompt_lines (w : World) (c : Config) : list call :=
  (if truthy (EXPECTED_PRINTER c)
   then [Print ("EXPECTED PRINTER NOT FOUND (" ++ show (EXPECTED_PRINTER c) ++ ")")]
   else []) ++
  Print "CHOOSE PRINTER OR QUIT" :: menu_lines 0 (PRINTERS w ++ ["QUIT"]).

(** The configured target is usable: given, not empty and installed. *)
Definition target_installed (w : World) (c : Config) : Prop :=
  exists n, EXPECTED_PRINTER c = Some n /\ n <> EmptyString /\ In n (PRINTERS w).

(** What the prompt reads does not select a printer: end of file, a
    line that [int] does not accept, or an index outside the catalog. *)
Definition invalid_choice (w : World) (read : option string) : Prop :=
  match read with
  | None => True
  | Some line =>
    match Py.int_of_str line with
    | Raise _ => True
    | Ok i => i < - Z.of_nat (List.length (PRINTERS w)) \/
              Z.of_nat (List.length (PRINTERS w)) <= i
    end
  end.

(** *** Directory trees *)

(** [located root p e]: the entry [e] is found at the relative path [p]
    below a directory whose entries are [root]. *)
Inductive located : list Pathlib.entry -> Path -> Pathlib.entry -> Prop :=
| located_here root e :
    In e root -> located root [Pathlib.entry_name e] e
| located_below root n sub p e :
    In (Pathlib.Dir n sub) root -> located sub p e -> located root (n :: p) e.

Definition is_file (e : Pathlib.entry) : Prop :=
  match e with Pathlib.File _ => True | Pathlib.Dir _ _ => False end.

(** Induction over directory trees. *)
Fixpoint entry_induction (Q : Pathlib.entry -> Prop)
         (HF : forall n, Q (Pathlib.File n))
         (HD : forall n sub, Forall Q sub -> Q (Pathlib.Dir n sub))
         (e : Pathlib.entry) : Q e :=
  match e with
  | Pathlib.File n => HF n
  | Pathlib.Dir n sub =>
    HD n sub ((fix all (l : list Pathlib.entry) : Forall Q l :=
                 match l with
                 | [] => Forall_nil Q
                 | c :: r => Forall_cons c (entry_induction Q HF HD c) (all r)
                 end) sub)
  end.

(** *** Worlds used as examples *)

(** Nothing installed, nothing on disk, nothing raises. *)
Definition quiet : World :=
  mkWorld (fun _ _ => None) "default" (fun _ _ => 0) (fun _ => 0)
          (fun _ => []) (fun _ => Raise (OSError "no such file"))
          (fun _ _ => None) (fun _ => None)
          (fun _ => Raise (OSError "no such file"))
          (fun msg _ => msg) [].

Definition with_printers (names : list string) (w : World) : World :=
  mkWorld (raises w) (default_printer w) (device_caps w) (handle_output w)
          (fun _ => map (fun n => (0, EmptyString, n, EmptyString)) names)
          (Image_open w) (convert_raises w) (Dib_raises w)
          (convert_from_path w) (safe_substitute w) (current_directory w).

Definition with_directory (root : list Pathlib.entry) (w : World) : World :=
  mkWorld (raises w) (default_printer w) (device_caps w) (handle_output w)
          (EnumPrinters w) (Image_open w) (convert_raises w) (Dib_raises w)
          (convert_from_path w) (safe_substitute w) root.

Definition with_pdf (pages : list (Z * Z)) (w : World) : World :=
  mkWorld (raises w) (default_printer w) (device_caps w) (handle_output w)
          (EnumPrinters w) (Image_open w) (convert_raises w) (Dib_raises w)
          (fun p => Ok (map (fun '(k, sz) => mkImage RGB sz 0 (p, k))
                            (combine (seq 0 (List.length pages)) pages)))
          (safe_substitute w) (current_directory w).

Definition with_image (m : mode) (sz : Z * Z) (w : World) : World :=
  mkWorld (raises w) (default_printer w) (device_caps w) (handle_output w)
          (EnumPrinters w) (fun p => Ok (mkImage m sz 0 (p, 0%nat)))
          (convert_raises w) (Dib_raises w)
          (convert_from_path w) (safe_substitute w) (current_directory w).

(** Drawing the page numbered [k] of a document raises. *)
Definition with_failing_draw (k : nat) (w : World) : World :=
  mkWorld (fun before c =>
             match c with
             | Draw d _ _ =>
               if (snd (im_origin (dib_image d)) =? k)%nat
               then Some (OSError "draw") else raises w before c
             | _ => raises w before c
             end)
          (default_printer w) (device_caps w) (handle_output w)
          (EnumPrinters w) (Image_open w) (convert_raises w) (Dib_raises w)
          (convert_from_path w) (safe_substitute w) (current_directory w).

(** The device context cannot be created. *)
Definition with_failing_device (w : World) : World :=
  mkWorld (fun before c =>
             match c with
             | CreatePrinterDC _ => Some (OSError "CreatePrinterDC")
             | _ => raises w before c
             end)
          (default_printer w) (device_caps w) (handle_output w)
          (EnumPrinters w) (Image_open w) (convert_raises w) (Dib_raises w)
          (convert_from_path w) (safe_substitute w) (current_directory w).

(** The page numbered [k] of a document cannot be wrapped in a bitmap. *)
Definition with_failing_dib (k : nat) (w : World) : World :=
  mkWorld (raises w) (default_printer w) (device_caps w) (handle_output w)
          (EnumPrinters w) (Image_open w) (convert_raises w)
          (fun image =>
             if (snd (im_origin image) =? k)%nat
             then Some (OSError "Dib") else Dib_raises w image)
          (convert_from_path w) (safe_substitute w) (current_directory w).

(** A catalog of two printers, A and B, and a configuration whose
    target C is not among them. *)
Definition catalog_AB : World := with_printers ["A"; "B"] quiet.
Definition target_C : Config := mkConfig (Some "C") [".pdf"] "SENT $path TO $printer".

(** *** Whole batches *)

(** The calls of a print job. *)
Definition job_call (c : call) : Prop :=
  match c with
  | StartDoc _ | EndDoc | StartPage | EndPage | Draw _ _ _ => True
  | _ => False
  end.

(** What [Printer.send] may call, in either mode. *)
Definition batch_call (c : call) : Prop :=
  match c with
  | StartDoc _ | EndDoc | StartPage | EndPage | Draw _ _ _
  | StartFile _ _ | Print _ => True
  | _ => False
  end.

Definition not_print (c : call) : Prop :=
  match c with Print _ => False | _ => True end.

(** The job protocol over a batch: a status line printed on the
    console changes nothing on the device. *)
Definition session_step (st : job_state) (c : call) (r : bool) : option job_state :=
  match c with
  | Print _ => Some st
  | _ => job_step st c r
  end.

Fixpoint session_run (w : World) (before : list call) (st : job_state)
         (calls : list call) : option job_state :=
  match calls with
  | [] => Some st
  | c :: rest =>
    match session_step st c (raised w before c) with
    | Some st' => session_run w (before ++ [c]) st' rest
    | None => None
    end
  end.

(** No call ever raises. *)
Definition calm (w : World) : Prop := forall before c, raises w before c = None.

(** The rectangle a bitmap is drawn into (when it can be fitted). *)
Definition rect_of (printer : Printer) (dib : Dib) : Z * Z * Z * Z :=
  match Page.fit_dib printer dib with
  | Ok rect => rect
  | Raise _ => (0, 0, 0, 0)
  end.

(** The calls of one page that is drawn. *)
Definition drawn_page (printer : Printer) (image : Image) : list call :=
  [StartPage; Draw (mkDib image) (handle printer) (rect_of printer (mkDib image)); EndPage].

(** The status line of one file. *)
Definition status_line (w : World) (self : Printer) (msg : string) (path : Path) : string :=
  safe_substitute w msg
    [("printer", name self); ("path", Pathlib.str path);
     ("document", Pathlib.name path); ("stem", Pathlib.stem path)].

(** A path as [Printer.send] receives it. *)
Definition as_path (path : string + Path) : Path :=
  match path with
  | inl s => Pathlib.of_str s
  | inr p => p
  end.

(** * Properties *)

(** ** Binary64 rounding, from the definitions of [SpecFloat] *)

Lemma digits2_pos_bounds (p : positive) :
  2 ^ (Zpos (digits2_pos p) - 1) <= Zpos p < 2 ^ Zpos (digits2_pos p).
Proof.
  induction p as [p IH | p IH |]; cbn [digits2_pos].
  - rewrite Pos2Z.inj_succ.
    replace (Z.succ (Zpos (digits2_pos p)) - 1) with (Z.succ (Zpos (digits2_pos p) - 1)) by lia.
    rewrite !Z.pow_succ_r by lia. lia.
  - rewrite Pos2Z.inj_succ.
    replace (Z.succ (Zpos (digits2_pos p)) - 1) with (Z.succ (Zpos (digits2_pos p) - 1)) by lia.
    rewrite !Z.pow_succ_r by lia. lia.
  - cbn. lia.
Qed.

Lemma Zdigits2_unique (m d : Z) :
  0 < d -> 2 ^ (d - 1) <= m < 2 ^ d -> Zdigits2 m = d.
Proof.
  intros Hd [Hlo Hhi].
  assert (0 < m) by (pose proof (Z.pow_pos_nonneg 2 (d - 1)); lia).
  destruct m as [|p|p]; try lia. cbn [Zdigits2].
  pose proof (digits2_pos_bounds p) as [Hl Hh].
  set (k := Zpos (digits2_pos p)) in *.
  destruct (Z.lt_trichotomy k d) as [Hlt | [Heq | Hgt]]; auto.
  - assert (2 ^ k <= 2 ^ (d - 1)) by (apply Z.pow_le_mono_r; lia). lia.
  - assert (2 ^ d <= 2 ^ (k - 1)) by (apply Z.pow_le_mono_r; lia). lia.
Qed.


(** Iterating a step that advances an indexed invariant. *)
Lemma iter_pos_invariant {A} (f : A -> A) (Inv : Z -> A -> Prop) :
  (forall k x, 0 <= k -> Inv k x -> Inv (k + 1) (f x)) ->
  forall n k x, 0 <= k -> Inv k x -> Inv (k + Zpos n) (iter_pos f n x).
Proof.
  intros step. induction n as [n IH | n IH |]; intros k x Hk Hx; cbn [iter_pos].
  - replace (k + Zpos n~1) with (((k + 1) + Zpos n) + Zpos n) by lia.
    apply IH; [lia|]. apply IH; [lia|]. apply step; assumption.
  - replace (k + Zpos n~0) with ((k + Zpos n) + Zpos n) by lia.
    apply IH; [lia|]. apply IH; assumption.
  - apply step; assumption.
Qed.


Lemma shr_1_fields m r s :
  0 <= m ->
  shr_1 (Build_shr_record m r s) =
  Build_shr_record (m / 2) (m mod 2 =? 1) (r || s).
Proof.
  intros Hm. destruct m as [|[p|p|]|p]; try lia; cbn [shr_1]; try reflexivity.
  - rewrite Pos2Z.inj_xI.
    rewrite <- (Z.div_unique (2 * Zpos p + 1) 2 (Zpos p) 1) by lia.
    rewrite <- (Z.mod_unique (2 * Zpos p + 1) 2 (Zpos p) 1) by lia.
    reflexivity.
  - rewrite Pos2Z.inj_xO.
    rewrite <- (Z.div_unique (2 * Zpos p) 2 (Zpos p) 0) by lia.
    rewrite <- (Z.mod_unique (2 * Zpos p) 2 (Zpos p) 0) by lia.
    reflexivity.
Qed.

Lemma represents_shr_1 mrs num den :
  represents mrs num den -> represents (shr_1 mrs) num (2 * den).
Proof.
  destruct mrs as [m r s]. unfold represents. cbn [shr_m shr_r shr_s].
  intros (Hden & Hnum & Hm & Hr & Hs).
  pose proof (Z.div_mod num den ltac:(lia)) as Hdm.
  pose proof (Z.mod_pos_bound num den Hden) as Hrem.
  assert (Hm0 : 0 <= m) by (subst m; apply Z.div_pos; lia).
  rewrite shr_1_fields by assumption. cbn [shr_m shr_r shr_s].
  set (rem := num mod den) in *.
  assert (Hq : num / (2 * den) = m / 2).
  { rewrite Z.mul_comm, <- Z.div_div by lia. now rewrite <- Hm. }
  pose proof (Z.mod_pos_bound m 2 ltac:(lia)) as Hb.
  pose proof (Z.div_mod m 2 ltac:(lia)) as E2.
  assert (Hrem' : num mod (2 * den) = (m mod 2) * den + rem).
  { pose proof (Z.div_mod num (2 * den) ltac:(lia)) as E.
    rewrite Hq in E. rewrite <- Hm in Hdm. nia. }
  rewrite Hq, Hrem', Hr, Hs.
  set (b := m mod 2) in *.
  clearbody b rem.
  assert (Hb01 : b = 0 \/ b = 1) by lia.
  repeat split; try lia; destruct Hb01 as [-> | ->]; lia.
Qed.

Lemma represents_shr mrs num den (n : positive) :
  represents mrs num den ->
  represents (iter_pos shr_1 n mrs) num (den * 2 ^ Zpos n).
Proof.
  intros H.
  pose proof (iter_pos_invariant shr_1 (fun k x => represents x num (den * 2 ^ k))) as I.
  cbn beta in I. specialize (I ltac:(
    intros k x Hk Hx; rewrite Z.pow_add_r, Z.pow_1_r by lia;
    replace (den * (2 ^ k * 2)) with (2 * (den * 2 ^ k)) by lia;
    now apply represents_shr_1) n 0 mrs ltac:(lia)).
  rewrite Z.pow_0_r, Z.mul_1_r, Z.add_0_l in I. now apply I.
Qed.

(** The location computed by a division describes its remainder. *)
Lemma new_location_spec den k :
  0 < den ->
  new_location den k =
  if k =? 0 then loc_Exact else loc_Inexact (2 * k ?= den).
Proof.
  intros Hden. unfold new_location, new_location_even, new_location_odd.
  destruct (Z.even den) eqn:Hev; [reflexivity|].
  destruct (k =? 0); [reflexivity|]. f_equal.
  assert (Hodd : 2 * k <> den).
  { intros E. rewrite <- E, Z.even_mul in Hev. discriminate. }
  destruct (Z.compare_spec (2 * k + 1) den), (Z.compare_spec (2 * k) den);
    try reflexivity; lia.
Qed.

Lemma represents_new_location m k den :
  0 < den -> 0 <= m -> 0 <= k < den ->
  represents (shr_record_of_loc m (new_location den k)) (m * den + k) den.
Proof.
  intros Hden Hm Hk. unfold represents.
  assert (Hq : (m * den + k) / den = m).
  { symmetry. apply Z.div_unique with k; lia. }
  assert (Hr : (m * den + k) mod den = k).
  { symmetry. apply Z.mod_unique with m; lia. }
  rewrite Hq, Hr, new_location_spec by assumption.
  destruct (Z.eqb_spec k 0) as [-> | Hk0].
  - cbv [shr_record_of_loc shr_m shr_r shr_s]. repeat split; lia.
  - destruct (Z.compare_spec (2 * k) den);
      cbv [shr_record_of_loc shr_m shr_r shr_s]; repeat split; lia.
Qed.

Lemma represents_exact m :
  0 <= m -> represents (shr_record_of_loc m loc_Exact) m 1.
Proof.
  intros Hm. unfold represents. cbv [shr_record_of_loc shr_m shr_r shr_s].
  rewrite Z.div_1_r, Z.mod_1_r. repeat split; lia.
Qed.

(** Rounding to nearest moves by at most half a unit. *)
Lemma round_nearest_even_spec mrs num den :
  represents mrs num den ->
  let rv := round_nearest_even (shr_m mrs) (loc_of_shr_record mrs) in
  num / den <= rv <= num / den + 1 /\
  2 * rv * den <= 2 * num + den /\
  2 * num <= 2 * rv * den + den.
Proof.
  destruct mrs as [m r s]. unfold represents. cbn [shr_m shr_r shr_s].
  intros (Hden & Hnum & Hm & Hr & Hs).
  pose proof (Z.div_mod num den ltac:(lia)) as Hdm.
  pose proof (Z.mod_pos_bound num den Hden) as Hrem.
  rewrite <- Hm in *. set (rem := num mod den) in *. clearbody rem.
  destruct r, s; cbv [loc_of_shr_record round_nearest_even shr_m].
  - repeat split; nia.
  - destruct (Z.even m); repeat split; nia.
  - repeat split; nia.
  - assert (rem = 0) by lia. repeat split; nia.
Qed.

Lemma fexp_normal e : -1074 <= e - 53 -> fexp 53 1024 e = e - 53.
Proof. intros H. unfold fexp, emin. lia. Qed.

Lemma represents_shr_fexp m e l num den :
  represents (shr_record_of_loc m l) num den ->
  let n := Zdigits2 m - 53 in
  0 <= n -> -1074 <= e + n ->
  exists mrs, shr_fexp 53 1024 m e l = (mrs, e + n) /\
              represents mrs num (den * 2 ^ n).
Proof.
  intros Hrep n Hn He. unfold shr_fexp.
  rewrite fexp_normal by lia.
  replace (Zdigits2 m + e - 53 - e) with n by lia.
  destruct n as [|p|p] eqn:En; try lia.
  - exists (shr_record_of_loc m l). cbn [shr]. split.
    + f_equal. lia.
    + now rewrite Z.pow_0_r, Z.mul_1_r.
  - exists (iter_pos shr_1 p (shr_record_of_loc m l)). cbn [shr]. split.
    + reflexivity.
    + now apply represents_shr.
Qed.

Lemma shr_m_of_loc m l : shr_m (shr_record_of_loc m l) = m.
Proof. destruct l as [|[]]; reflexivity. Qed.

Lemma binary_round_aux_spec m e l num den :
  represents (shr_record_of_loc m l) num den ->
  let n := Zdigits2 m - 53 in
  0 <= n -> -1074 <= e + n -> e + n + 1 <= 971 ->
  exists mz ez rv,
    binary_round_aux 53 1024 false m e l = S754_finite false mz ez /\
    2 ^ 52 <= Zpos mz < 2 ^ 53 /\
    0 <= ez - (e + n) <= 1 /\
    Zpos mz * 2 ^ (ez - (e + n)) = rv /\
    2 ^ 52 <= rv <= 2 ^ 53 /\
    2 * rv * (den * 2 ^ n) <= 2 * num + den * 2 ^ n /\
    2 * num <= 2 * rv * (den * 2 ^ n) + den * 2 ^ n.
Proof.
  intros Hrep n Hn Hlo Hhi.
  destruct (represents_shr_fexp m e l num den Hrep Hn Hlo) as (mrs & Hshr & Hrep').
  fold n in Hshr, Hrep'.
  assert (En : Zdigits2 m = n + 53) by (subst n; lia).
  clearbody n.
  pose proof (round_nearest_even_spec _ _ _ Hrep') as (Hrv & Hup & Hdown).
  set (rv := round_nearest_even (shr_m mrs) (loc_of_shr_record mrs)) in *.
  (* the shifted mantissa has exactly 53 digits *)
  assert (Hm : m = num / den).
  { destruct Hrep as (_ & _ & E & _). now rewrite shr_m_of_loc in E. }
  assert (Hden : 0 < den) by apply Hrep.
  assert (Hnum : 0 <= num) by apply Hrep.
  assert (Hpow : 0 < 2 ^ n) by (apply Z.pow_pos_nonneg; lia).
  assert (Hm' : num / (den * 2 ^ n) = m / 2 ^ n).
  { rewrite Hm. now rewrite Z.div_div by lia. }
  assert (Hmpos : 0 < m).
  { destruct Hrep as (_ & _ & E & _). rewrite shr_m_of_loc in E.
    assert (0 <= m) by (rewrite E; apply Z.div_pos; lia).
    destruct m as [|p|p]; cbn in En; lia. }
  assert (Hdig : 2 ^ (n + 52) <= m < 2 ^ (n + 53)).
  { destruct m as [|p|p]; try lia. cbn [Zdigits2] in En.
    pose proof (digits2_pos_bounds p) as B.
    replace (n + 52) with (Zpos (digits2_pos p) - 1) by lia.
    replace (n + 53) with (Zpos (digits2_pos p)) by lia. exact B. }
  assert (Hshifted : 2 ^ 52 <= m / 2 ^ n < 2 ^ 53).
  { rewrite !(Z.add_comm n), !Z.pow_add_r in Hdig by lia. split.
    - apply Z.div_le_lower_bound; lia.
    - apply Z.div_lt_upper_bound; lia. }
  rewrite Hm' in Hrv.
  unfold binary_round_aux. rewrite Hshr. fold rv.
  destruct (Z.eq_dec rv (2 ^ 53)) as [Ecarry | Hnc].
  - (* the rounding carried into the next binade *)
    assert (Hs2 : shr_fexp 53 1024 rv (e + n) loc_Exact
                  = (Build_shr_record (2 ^ 52) false false, e + n + 1)).
    { rewrite Ecarry. unfold shr_fexp.
      replace (Zdigits2 (2 ^ 53)) with 54 by reflexivity.
      rewrite fexp_normal by lia.
      replace (54 + (e + n) - 53 - (e + n)) with 1 by lia.
      reflexivity. }
    rewrite Hs2. cbn [shr_m].
    change (2 ^ 52) with (Zpos (2 ^ 52)%positive) at 1.
    cbv iota. replace (e + n + 1 <=? 1024 - 53) with true by (symmetry; apply Z.leb_le; lia).
    exists (2 ^ 52)%positive, (e + n + 1), rv. repeat split; try lia.
    + replace (e + n + 1 - (e + n)) with 1 by lia. rewrite Ecarry. reflexivity.
  - assert (Hrvb : 2 ^ 52 <= rv < 2 ^ 53) by lia.
    assert (Hs2 : shr_fexp 53 1024 rv (e + n) loc_Exact
                  = (Build_shr_record rv false false, e + n)).
    { unfold shr_fexp. rewrite (Zdigits2_unique rv 53) by (cbn; lia).
      rewrite fexp_normal by lia.
      replace (53 + (e + n) - 53 - (e + n)) with 0 by lia. reflexivity. }
    rewrite Hs2. cbn [shr_m].
    destruct rv as [|q|q] eqn:Erv; try lia.
    replace (e + n <=? 1024 - 53) with true by (symmetry; apply Z.leb_le; lia).
    exists q, (e + n), (Zpos q). repeat split; try lia.
    replace (e + n - (e + n)) with 0 by lia. lia.
Qed.

Lemma round_scaled m e l num den :
  represents (shr_record_of_loc m l) num den ->
  let n := Zdigits2 m - 53 in
  0 <= n -> -1074 <= e -> e + n + 1 <= 971 ->
  exists f rv,
    binary_round_aux 53 1024 false m e l = f /\
    normal_in (e + n) (e + n + 1) f /\
    scaled f = rv * 2 ^ (e + n + 1074) /\
    2 ^ 52 <= rv <= 2 ^ 53 /\
    2 * scaled f * den <= 2 * num * 2 ^ (e + 1074) + den * 2 ^ (e + n + 1074) /\
    2 * num * 2 ^ (e + 1074) <= 2 * scaled f * den + den * 2 ^ (e + n + 1074).
Proof.
  intros Hrep n Hn He Hhi.
  destruct (binary_round_aux_spec m e l num den Hrep Hn ltac:(lia) Hhi)
    as (mz & ez & rv & Hres & Hmz & Hez & Hrv & Hrvb & Hup & Hdown).
  fold n in Hez, Hrv, Hup, Hdown. clearbody n.
  exists (S754_finite false mz ez), rv.
  assert (Hsc : scaled (S754_finite false mz ez) = rv * 2 ^ (e + n + 1074)).
  { cbn [scaled]. rewrite <- Hrv.
    replace (ez + 1074) with ((ez - (e + n)) + (e + n + 1074)) by lia.
    rewrite Z.pow_add_r by lia. ring. }
  split; [exact Hres|]. split.
  { exists mz, ez. repeat split; lia. }
  split; [exact Hsc|]. split; [exact Hrvb|].
  rewrite Hsc.
  replace (e + n + 1074) with (n + (e + 1074)) by lia.
  rewrite Z.pow_add_r by lia.
  assert (Hp : 0 < 2 ^ (e + 1074)) by (apply Z.pow_pos_nonneg; lia).
  set (p := 2 ^ (e + 1074)) in *. clearbody p.
  set (q := 2 ^ n) in *. clearbody q.
  split; nia.
Qed.

(** Relative form: the result is within a factor [1 +- 2^-53] of the
    exact value. *)
Lemma round_scaled_rel m e l num den :
  represents (shr_record_of_loc m l) num den ->
  let n := Zdigits2 m - 53 in
  0 <= n -> -1074 <= e -> e + n + 1 <= 971 ->
  exists f,
    binary_round_aux 53 1024 false m e l = f /\
    normal_in (e + n) (e + n + 1) f /\
    (2 ^ 53 - 1) * (scaled f * den) <= 2 ^ 53 * (num * 2 ^ (e + 1074)) /\
    2 ^ 53 * (num * 2 ^ (e + 1074)) <= (2 ^ 53 + 1) * (scaled f * den).
Proof.
  intros Hrep n Hn He Hhi.
  destruct (round_scaled m e l num den Hrep Hn He Hhi)
    as (f & rv & Hres & Hnorm & Hsc & Hrv & Hup & Hdown).
  fold n in Hsc, Hup, Hdown, Hnorm. clearbody n.
  exists f. split; [exact Hres|]. split; [exact Hnorm|].
  assert (Hden : 0 < den) by apply Hrep.
  assert (Hu : 0 < 2 ^ (e + n + 1074)) by (apply Z.pow_pos_nonneg; lia).
  set (u := 2 ^ (e + n + 1074)) in *. clearbody u.
  set (x := num * 2 ^ (e + 1074)) in *.
  replace (2 * num * 2 ^ (e + 1074)) with (2 * x) in * by (subst x; ring).
  clearbody x.
  set (S := scaled f) in *. clearbody S.
  change (2 ^ 52) with 4503599627370496 in *.
  change (2 ^ 53) with 9007199254740992 in *.
  assert (Hsu : 4503599627370496 * (u * den) <= S * den) by (subst S; nia).
  set (ud := u * den) in *. set (Sd := S * den) in *.
  replace (den * u) with ud in * by (subst ud; ring).
  replace (2 * S * den) with (2 * Sd) in * by (subst Sd; ring).
  clearbody ud Sd. lia.
Qed.

Lemma Zdigits2_bounds m :
  0 < m -> 0 < Zdigits2 m /\ 2 ^ (Zdigits2 m - 1) <= m < 2 ^ Zdigits2 m.
Proof.
  intros Hm. destruct m as [|p|p]; try lia. cbn [Zdigits2].
  split; [lia | apply digits2_pos_bounds].
Qed.

Lemma Zdigits2_le m k : 0 < m < 2 ^ k -> 0 <= k -> Zdigits2 m <= k.
Proof.
  intros Hm Hk. destruct (Zdigits2_bounds m ltac:(lia)) as (Hd & Hlo & _).
  destruct (Z.le_gt_cases (Zdigits2 m) k) as [|Hgt]; [assumption|].
  assert (2 ^ k <= 2 ^ (Zdigits2 m - 1)) by (apply Z.pow_le_mono_r; lia). lia.
Qed.

(** The quotient the division hands to the rounding step. *)
Lemma SFdiv_core_pos W w :
  0 < W < 2 ^ 52 -> 0 < w < 2 ^ 52 ->
  let s := 53 + Zdigits2 w - Zdigits2 W in
  SFdiv_core_binary 53 1024 W 0 w 0 =
    (W * 2 ^ s / w, - s, new_location w ((W * 2 ^ s) mod w)) /\
  2 <= s <= 104 /\
  2 ^ 52 <= W * 2 ^ s / w < 2 ^ 54.
Proof.
  intros HW Hw s.
  destruct (Zdigits2_bounds W ltac:(lia)) as (HdW & HWlo & HWhi).
  destruct (Zdigits2_bounds w ltac:(lia)) as (Hdw & Hwlo & Hwhi).
  pose proof (Zdigits2_le W 52 HW ltac:(lia)) as HdW52.
  pose proof (Zdigits2_le w 52 Hw ltac:(lia)) as Hdw52.
  assert (Hs : 2 <= s <= 104) by (subst s; lia).
  split; [|split; [exact Hs|]].
  - unfold SFdiv_core_binary.
    rewrite !Z.add_0_r, Z.sub_0_r, fexp_normal by lia.
    replace (Z.min (Zdigits2 W - Zdigits2 w - 53) 0) with (- s) by (subst s; lia).
    replace (0 - - s) with s by lia.
    destruct s as [|ps|ps] eqn:Es; try lia.
    rewrite Z.shiftl_mul_pow2 by lia.
    unfold Z.div, Z.modulo.
    destruct (Z.div_eucl (W * 2 ^ Z.pos ps) w) as [q r]. reflexivity.
  - assert (Hpow1 : 2 ^ (Zdigits2 W - 1) * 2 ^ s = 2 ^ 52 * 2 ^ Zdigits2 w).
    { rewrite <- !Z.pow_add_r by lia. f_equal. subst s. lia. }
    assert (Hpow2 : 2 ^ Zdigits2 W * 2 ^ s = 2 ^ 54 * 2 ^ (Zdigits2 w - 1)).
    { rewrite <- !Z.pow_add_r by lia. f_equal. subst s. lia. }
    assert (Hps : 0 < 2 ^ s) by (apply Z.pow_pos_nonneg; lia).
    split.
    + apply Z.div_le_lower_bound; [lia|]. nia.
    + apply Z.div_lt_upper_bound; [lia|]. nia.
Qed.

Lemma int_truediv_pos W w :
  0 < W < 2 ^ 52 -> 0 < w < 2 ^ 52 ->
  exists f, Py.int_truediv W w = Ok f /\ normal_in (-104) 0 f /\
    (2 ^ 53 - 1) * (scaled f * w) <= 2 ^ 53 * (W * 2 ^ 1074) /\
    2 ^ 53 * (W * 2 ^ 1074) <= (2 ^ 53 + 1) * (scaled f * w).
Proof.
  intros HW Hw.
  destruct (SFdiv_core_pos W w HW Hw) as (Hcore & Hs & Hq).
  set (s := 53 + Zdigits2 w - Zdigits2 W) in *. clearbody s.
  set (q := W * 2 ^ s / w) in *. set (r := (W * 2 ^ s) mod w) in *.
  assert (Hqr : W * 2 ^ s = q * w + r).
  { subst q r. pose proof (Z.div_mod (W * 2 ^ s) w ltac:(lia)). lia. }
  assert (Hr : 0 <= r < w) by (subst r; apply Z.mod_pos_bound; lia).
  pose proof (represents_new_location q r w ltac:(lia) ltac:(lia) Hr) as Hrep.
  rewrite <- Hqr in Hrep.
  assert (Hdq : 53 <= Zdigits2 q <= 54).
  { destruct (Z.lt_ge_cases q (2 ^ 53)).
    - rewrite (Zdigits2_unique q 53); cbn; lia.
    - rewrite (Zdigits2_unique q 54); cbn; lia. }
  destruct (round_scaled_rel q (- s) _ _ _ Hrep ltac:(lia) ltac:(lia) ltac:(lia))
    as (f & Hres & Hnorm & Hup & Hdown).
  exists f.
  assert (Hval : W * 2 ^ s * 2 ^ (- s + 1074) = W * 2 ^ 1074).
  { rewrite <- Z.mul_assoc, <- Z.pow_add_r by lia. do 2 f_equal. lia. }
  rewrite Hval in Hup, Hdown.
  assert (Hnorm' : normal_in (-104) 0 f).
  { destruct Hnorm as (m & e & E & Hm & He). exists m, e. split; [exact E | lia]. }
  split; [|split; [exact Hnorm'|split; assumption]].
  unfold Py.int_truediv.
  replace (w =? 0) with false by (symmetry; apply Z.eqb_neq; lia).
  destruct W as [|pW|pW]; try lia. destruct w as [|pw|pw]; try lia.
  cbn [Py.raw_of_int SFdiv]. unfold Py.prec, Py.emax.
  rewrite Hcore. cbn [xorb]. rewrite Hres.
  destruct Hnorm as (m & e & -> & _). reflexivity.
Qed.

Lemma pos_iter_xO p d : Zpos (Pos.iter xO p d) = Zpos p * 2 ^ Zpos d.
Proof.
  revert p. induction d as [|d IH] using Pos.peano_ind; intros p.
  - cbn [Pos.iter]. rewrite Pos2Z.inj_xO, Z.pow_1_r. ring.
  - rewrite Pos.iter_succ, Pos2Z.inj_xO, IH, Pos2Z.inj_succ, Z.pow_succ_r by lia. ring.
Qed.

(** [float(w)] is exact below [2 ^ 53]. *)
Lemma float_of_int_pos w :
  0 < w < 2 ^ 53 ->
  exists f, Py.float_of_int w = Ok f /\ normal_in (-52) 0 f /\
            scaled f = w * 2 ^ 1074.
Proof.
  intros Hw. destruct w as [|p|p]; try lia.
  pose proof (digits2_pos_bounds p) as Hd.
  pose proof (Zdigits2_le (Zpos p) 53 Hw ltac:(lia)) as Hk. cbn [Zdigits2] in Hk.
  set (k := Zpos (digits2_pos p)) in *.
  assert (Hk0 : 0 < k) by (subst k; lia).
  assert (Halign : exists mz, shl_align p 0 (fexp 53 1024 (k + 0)) = (mz, k - 53) /\
                              Zpos mz = Zpos p * 2 ^ (53 - k)).
  { rewrite Z.add_0_r, fexp_normal by lia. unfold shl_align.
    destruct (k - 53 - 0) as [|q|q] eqn:Eq; try lia.
    - exists p. split; [f_equal; lia|].
      replace (53 - k) with 0 by lia. lia.
    - exists (Pos.iter xO p q). split; [reflexivity|].
      rewrite pos_iter_xO. do 2 f_equal. lia. }
  destruct Halign as (mz & Halign & Hmz).
  assert (Hmzb : 2 ^ 52 <= Zpos mz < 2 ^ 53).
  { rewrite Hmz.
    assert (E52 : 2 ^ 52 = 2 ^ (k - 1) * 2 ^ (53 - k)).
    { rewrite <- Z.pow_add_r by lia. f_equal. lia. }
    assert (E53 : 2 ^ 53 = 2 ^ k * 2 ^ (53 - k)).
    { rewrite <- Z.pow_add_r by lia. f_equal. lia. }
    rewrite E52, E53.
    assert (0 < 2 ^ (53 - k)) by (apply Z.pow_pos_nonneg; lia). nia. }
  pose proof (represents_exact (Zpos mz) ltac:(lia)) as Hrep.
  assert (Hdig : Zdigits2 (Zpos mz) = 53) by (apply Zdigits2_unique; cbn; lia).
  destruct (round_scaled (Zpos mz) (k - 53) _ _ _ Hrep ltac:(lia) ltac:(lia) ltac:(lia))
    as (f & rv & Hres & Hnorm & Hsc & Hrv & Hup & Hdown).
  rewrite Hdig in *.
  replace (k - 53 + (53 - 53) + 1074) with (k - 53 + 1074) in * by lia.
  replace (k - 53 + (53 - 53)) with (k - 53) in * by lia.
  exists f.
  assert (Hval : scaled f = Zpos p * 2 ^ 1074).
  { assert (Hu : 0 < 2 ^ (k - 53 + 1074)) by (apply Z.pow_pos_nonneg; lia).
    assert (Hrvm : rv = Zpos mz).
    { rewrite Hsc in Hup, Hdown. set (u := 2 ^ (k - 53 + 1074)) in *. clearbody u. nia. }
    rewrite Hsc, Hrvm, Hmz, <- Z.mul_assoc, <- Z.pow_add_r by lia.
    do 2 f_equal. lia. }
  assert (Hnorm' : normal_in (-52) 0 f).
  { destruct Hnorm as (m & e & E & Hm & He). exists m, e.
    split; [exact E|]. split; [lia|].
    (* the exponent did not move: the value is below 2^53 units *)
    assert (e = k - 53 \/ e = k - 53 + 1) as [-> | ->] by lia; [lia|].
    exfalso. rewrite E in Hval. cbn [scaled] in Hval.
    assert (Ep : 2 ^ 52 * 2 ^ (k - 53 + 1 + 1074) = 2 ^ k * 2 ^ 1074).
    { rewrite <- !Z.pow_add_r by lia. f_equal. lia. }
    assert (0 < 2 ^ 1074) by (apply Z.pow_pos_nonneg; lia).
    assert (0 < 2 ^ (k - 53 + 1 + 1074)) by (apply Z.pow_pos_nonneg; lia).
    nia. }
  split; [|split; assumption].
  unfold Py.float_of_int. cbn [binary_normalize]. unfold binary_round, Py.prec, Py.emax.
  fold k. rewrite Halign, Hres.
  destruct Hnorm as (m & e & -> & _). reflexivity.
Qed.

Lemma scaled_normal lo hi f :
  normal_in lo hi f -> -1074 <= lo -> 0 < scaled f.
Proof.
  intros (m & e & -> & Hm & He) Hlo. cbn [scaled].
  assert (0 < 2 ^ (e + 1074)) by (apply Z.pow_pos_nonneg; lia). nia.
Qed.

(** The product of two positive normal numbers, within a factor
    [1 +- 2^-53] of the exact product. *)
Lemma SFmul_normal_in lo1 hi1 lo2 hi2 a b :
  normal_in lo1 hi1 a -> normal_in lo2 hi2 b ->
  -1074 <= lo1 -> -1074 <= lo2 ->
  -1074 <= lo1 + lo2 -> hi1 + hi2 + 54 <= 971 ->
  exists f, SFmul 53 1024 a b = f /\
    normal_in (lo1 + lo2 + 52) (hi1 + hi2 + 54) f /\
    (2 ^ 53 - 1) * (scaled f * 2 ^ 1074) <= 2 ^ 53 * (scaled a * scaled b) /\
    2 ^ 53 * (scaled a * scaled b) <= (2 ^ 53 + 1) * (scaled f * 2 ^ 1074).
Proof.
  intros (ma & ea & -> & Hma & Hea) (mb & eb & -> & Hmb & Heb) Hlo1 Hlo2 Hlo Hhi.
  cbn [SFmul xorb scaled].
  pose proof (represents_exact (Zpos (ma * mb)) ltac:(lia)) as Hrep.
  assert (Hprod : 2 ^ 104 <= Zpos (ma * mb) < 2 ^ 106).
  { rewrite Pos2Z.inj_mul.
    change (2 ^ 104) with (2 ^ 52 * 2 ^ 52). change (2 ^ 106) with (2 ^ 53 * 2 ^ 53).
    nia. }
  assert (Hdq : 105 <= Zdigits2 (Zpos (ma * mb)) <= 106).
  { destruct (Z.lt_ge_cases (Zpos (ma * mb)) (2 ^ 105)).
    - rewrite (Zdigits2_unique _ 105); cbn; lia.
    - rewrite (Zdigits2_unique _ 106); cbn; lia. }
  destruct (round_scaled_rel _ (ea + eb) _ _ _ Hrep ltac:(lia) ltac:(lia) ltac:(lia))
    as (f & Hres & Hnorm & Hup & Hdown).
  exists f. split; [exact Hres|]. split.
  { destruct Hnorm as (m & e & E & Hm & He). exists m, e. split; [exact E | lia]. }
  assert (Hval : Zpos ma * 2 ^ (ea + 1074) * (Zpos mb * 2 ^ (eb + 1074))
                 = Zpos (ma * mb) * 2 ^ (ea + eb + 1074) * 2 ^ 1074).
  { assert (E : 2 ^ (ea + 1074) * 2 ^ (eb + 1074) = 2 ^ (ea + eb + 1074) * 2 ^ 1074).
    { rewrite <- !Z.pow_add_r by lia. f_equal. lia. }
    rewrite Pos2Z.inj_mul.
    transitivity (Zpos ma * Zpos mb * (2 ^ (ea + 1074) * 2 ^ (eb + 1074)));
      [ring | rewrite E; ring]. }
  rewrite Hval. rewrite Z.mul_1_r in Hup, Hdown.
  assert (0 < 2 ^ 1074) by (apply Z.pow_pos_nonneg; lia).
  split; nia.
Qed.

(** [int(f)] is the integer part of a positive float. *)
Lemma int_of_float_normal lo hi f :
  normal_in lo hi f -> -1074 <= lo ->
  exists t, Py.int_of_float f = Ok t /\
            t * 2 ^ 1074 <= scaled f < (t + 1) * 2 ^ 1074.
Proof.
  intros (m & e & -> & Hm & He) Hlo. cbn [Py.int_of_float scaled cond_Zopp].
  destruct e as [|p|p].
  - exists (Zpos m * 2 ^ 0). split; [reflexivity|].
    rewrite Z.pow_0_r, Z.mul_1_r, Z.add_0_l.
    assert (0 < 2 ^ 1074) by (apply Z.pow_pos_nonneg; lia). nia.
  - exists (Zpos m * 2 ^ Zpos p). split; [reflexivity|].
    rewrite Z.pow_add_r by lia.
    assert (0 < 2 ^ 1074) by (apply Z.pow_pos_nonneg; lia).
    assert (0 < 2 ^ Zpos p) by (apply Z.pow_pos_nonneg; lia). nia.
  - exists (Zpos m / 2 ^ Zpos p). split; [reflexivity|].
    assert (Hp : 0 < 2 ^ Zpos p) by (apply Z.pow_pos_nonneg; lia).
    assert (Hu : 0 < 2 ^ (Zneg p + 1074)) by (apply Z.pow_pos_nonneg; lia).
    assert (E : 2 ^ 1074 = 2 ^ Zpos p * 2 ^ (Zneg p + 1074)).
    { rewrite <- Z.pow_add_r by lia. f_equal. lia. }
    rewrite E.
    pose proof (Z.div_mod (Zpos m) (2 ^ Zpos p) ltac:(lia)) as Hdm.
    pose proof (Z.mod_pos_bound (Zpos m) (2 ^ Zpos p) Hp) as Hrem.
    set (t := Zpos m / 2 ^ Zpos p) in *. clearbody t.
    set (r := Zpos m mod 2 ^ Zpos p) in *. clearbody r.
    set (P := 2 ^ Zpos p) in *. clearbody P.
    set (u := 2 ^ (Zneg p + 1074)) in *. clearbody u.
    split; nia.
Qed.

(** [min] of two positive normal numbers. *)
Lemma min2_normal lo hi a b :
  normal_in lo hi a -> normal_in lo hi b -> -1074 <= lo ->
  normal_in lo hi (Py.min2 a b) /\
  scaled (Py.min2 a b) <= scaled a /\ scaled (Py.min2 a b) <= scaled b.
Proof.
  intros Ha Hb Hlo.
  destruct Ha as (ma & ea & Ea & Hma & Hea), Hb as (mb & eb & Eb & Hmb & Heb).
  assert (Hcmp : forall m1 e1 m2 e2,
             2 ^ 52 <= Zpos m1 < 2 ^ 53 -> 2 ^ 52 <= Zpos m2 < 2 ^ 53 ->
             -1074 <= e1 -> -1074 <= e2 ->
             if SFltb (S754_finite false m1 e1) (S754_finite false m2 e2)
             then Zpos m1 * 2 ^ (e1 + 1074) < Zpos m2 * 2 ^ (e2 + 1074)
             else Zpos m2 * 2 ^ (e2 + 1074) <= Zpos m1 * 2 ^ (e1 + 1074)).
  { intros m1 e1 m2 e2 H1 H2 He1 He2. unfold SFltb. cbn [SFcompare].
    assert (Hstep : forall x y, -1074 <= x -> x < y ->
                       2 * 2 ^ (x + 1074) <= 2 ^ (y + 1074)).
    { intros x y Hx Hxy. rewrite <- Z.pow_succ_r by lia.
      apply Z.pow_le_mono_r; lia. }
    assert (0 < 2 ^ (e1 + 1074)) by (apply Z.pow_pos_nonneg; lia).
    assert (0 < 2 ^ (e2 + 1074)) by (apply Z.pow_pos_nonneg; lia).
    destruct (Z.compare_spec e1 e2) as [-> | Hlt | Hgt].
    - rewrite Pos.compare_cont_spec.
      destruct (Pos.compare_spec m1 m2) as [-> | Hl | Hg];
        cbv beta iota delta [Pos.switch_Eq]; [lia | nia | nia].
    - cbv beta iota. pose proof (Hstep e1 e2 He1 Hlt). nia.
    - cbv beta iota. pose proof (Hstep e2 e1 He2 Hgt). nia. }
  specialize (Hcmp mb eb ma ea Hmb Hma ltac:(lia) ltac:(lia)).
  unfold Py.min2. subst a b. cbn [scaled]. revert Hcmp.
  destruct (SFltb (S754_finite false mb eb) (S754_finite false ma ea)); intros Hcmp.
  - split; [exists mb, eb; auto | cbn [scaled]; lia].
  - split; [exists ma, ea; auto | cbn [scaled]; lia].
Qed.

(** Halving an integer is exact. *)
Lemma int_truediv_half d :
  0 <= d < 2 ^ 52 ->
  exists f, Py.int_truediv d 2 = Ok f /\ Py.int_of_float f = Ok (d / 2).
Proof.
  intros Hd. destruct (Z.eq_dec d 0) as [-> | Hnz].
  { exists (S754_zero false). split; reflexivity. }
  destruct (SFdiv_core_pos d 2 ltac:(lia) ltac:(cbn; lia)) as (Hcore & Hs & Hq).
  pose proof (Zdigits2_le d 52 ltac:(lia) ltac:(lia)) as Hk.
  change (Zdigits2 2) with 2 in *.
  set (s := 53 + 2 - Zdigits2 d) in *.
  assert (Hs3 : 3 <= s) by (subst s; lia). clearbody s.
  assert (E8 : 2 ^ s = 8 * 2 ^ (s - 3)).
  { change 8 with (2 ^ 3). rewrite <- Z.pow_add_r by lia. f_equal. lia. }
  assert (Hc : 0 < 2 ^ (s - 3)) by (apply Z.pow_pos_nonneg; lia).
  set (c := 2 ^ (s - 3)) in *.
  assert (Eq : d * 2 ^ s / 2 = 4 * d * c).
  { rewrite E8. symmetry. apply Z.div_unique with 0; lia. }
  assert (Er : (d * 2 ^ s) mod 2 = 0).
  { rewrite E8. symmetry. apply Z.mod_unique with (4 * d * c); lia. }
  rewrite Eq, Er in Hcore. rewrite Eq in Hq.
  pose proof (represents_new_location (4 * d * c) 0 2 ltac:(lia) ltac:(nia) ltac:(lia)) as Hrep.
  assert (Hdq : 53 <= Zdigits2 (4 * d * c) <= 54).
  { destruct (Z.lt_ge_cases (4 * d * c) (2 ^ 53)).
    - rewrite (Zdigits2_unique _ 53); change (2 ^ (53 - 1)) with (2 ^ 52); lia.
    - rewrite (Zdigits2_unique _ 54); change (2 ^ (54 - 1)) with (2 ^ 53); lia. }
  destruct (round_scaled _ (- s) _ _ _ Hrep ltac:(lia) ltac:(lia) ltac:(lia))
    as (f & rv & Hres & Hnorm & Hsc & Hrv & Hup & Hdown).
  set (n := Zdigits2 (4 * d * c) - 53) in *.
  assert (Hn : n = 0 \/ n = 1) by (subst n; lia). clearbody n.
  assert (HP : 0 < 2 ^ (- s + 1074)) by (apply Z.pow_pos_nonneg; lia).
  assert (EK : 2 ^ 1074 = 8 * c * 2 ^ (- s + 1074)).
  { rewrite <- E8, <- Z.pow_add_r by lia. f_equal. lia. }
  assert (Hval : 2 * scaled f = d * 2 ^ 1074).
  { rewrite EK.
    assert (En : 2 ^ (- s + n + 1074) = 2 ^ n * 2 ^ (- s + 1074)).
    { rewrite <- Z.pow_add_r by lia. f_equal. lia. }
    rewrite En in Hsc, Hup, Hdown.
    set (P := 2 ^ (- s + 1074)) in *.
    clear EK En E8 Eq Er Hcore Hrep Hres Hnorm Hdq Hq.
    clearbody P c.
    destruct Hn as [-> | ->].
    - rewrite Z.pow_0_r in *. rewrite Hsc in *.
      assert (rv = 4 * d * c) by nia. subst rv. ring.
    - rewrite Z.pow_1_r in *. rewrite Hsc in *.
      assert (rv = 2 * d * c) by nia. subst rv. ring. }
  exists f. split.
  - unfold Py.int_truediv. cbn [Z.eqb].
    destruct d as [|pd|pd]; try lia.
    cbn [Py.raw_of_int SFdiv]. unfold Py.prec, Py.emax.
    rewrite Hcore. cbn [xorb]. rewrite Hres.
    destruct Hnorm as (m & e & -> & _). reflexivity.
  - destruct (int_of_float_normal _ _ f Hnorm ltac:(lia)) as (t & Ht & Hlo & Hhi).
    rewrite Ht. f_equal.
    assert (HK : 0 < 2 ^ 1074) by (apply Z.pow_pos_nonneg; lia).
    set (K := 2 ^ 1074) in *. clearbody K.
    assert (Ht2 : 2 * t <= d < 2 * t + 2) by nia.
    clear - Ht2. apply Z.div_unique with (d - 2 * t); lia.
Qed.

(** One scaled dimension: [int(dim * scale)] lies between 0 and the
    paper's extent when [scale] is at most (the float nearest to) their
    ratio. *)
Lemma scaled_dim_within dim extent scale :
  0 < dim < 2 ^ 51 -> 0 < extent < 2 ^ 51 ->
  normal_in (-104) 0 scale ->
  (2 ^ 53 - 1) * (scaled scale * dim) <= 2 ^ 53 * (extent * 2 ^ 1074) ->
  exists f t, Py.int_mul_float dim scale = Ok f /\
              Py.int_of_float f = Ok t /\ 0 <= t <= extent.
Proof.
  intros Hdim Hext Hscale Hbound.
  destruct (float_of_int_pos dim ltac:(lia)) as (fz & Hfz & Hnz & Hvz).
  destruct (SFmul_normal_in _ _ _ _ fz scale Hnz Hscale
              ltac:(lia) ltac:(lia) ltac:(lia) ltac:(lia))
    as (f & Hmul & Hnf & Hup & _).
  destruct (int_of_float_normal _ _ f Hnf ltac:(lia)) as (t & Ht & Hlo & Hhi).
  exists f, t. split; [|split; [exact Ht|]].
  - unfold Py.int_mul_float. rewrite Hfz. cbn [rbind].
    unfold Py.prec, Py.emax. now rewrite Hmul.
  - pose proof (scaled_normal _ _ f Hnf ltac:(lia)) as Hfpos.
    rewrite Hvz in Hup.
    assert (HK : 0 < 2 ^ 1074) by (apply Z.pow_pos_nonneg; lia).
    set (K := 2 ^ 1074) in *. clearbody K.
    set (S := scaled scale) in *. clearbody S.
    set (F := scaled f) in *. clearbody F.
    change (2 ^ 53) with 9007199254740992 in *.
    change (2 ^ 51) with 2251799813685248 in *.
    split; [nia|].
    (* (2^53-1) F <= 2^53 dim S  and  (2^53-1) S dim <= 2^53 extent K *)
    assert (H1 : (9007199254740992 - 1) * F <= 9007199254740992 * (dim * S)) by nia.
    assert (H2 : (9007199254740992 - 1) * ((9007199254740992 - 1) * F)
                 <= 9007199254740992 * (9007199254740992 * (extent * K))) by nia.
    assert (H3 : (9007199254740992 - 1) * ((9007199254740992 - 1) * (t * K))
                 <= 9007199254740992 * (9007199254740992 * (extent * K))) by nia.
    assert (H4 : (9007199254740992 - 1) * ((9007199254740992 - 1) * t)
                 <= 9007199254740992 * (9007199254740992 * extent)) by nia.
    lia.
Qed.

(** ** The page fitter *)

Lemma int_truediv_quotient a b f :
  Py.int_truediv a b = Ok f -> 0 < a -> f = Fit.quotient a b.
Proof.
  unfold Py.int_truediv, Fit.quotient. intros H Ha.
  destruct (b =? 0); [discriminate|].
  destruct a as [|pa|pa]; try lia.
  destruct (SFdiv Py.prec Py.emax (Py.raw_of_int (Z.pos pa)) (Py.raw_of_int b));
    congruence.
Qed.

Lemma int_mul_float_product z f g :
  Py.int_mul_float z f = Ok g -> g = Fit.product z f.
Proof.
  unfold Py.int_mul_float, Py.float_of_int, Fit.product. intros H.
  destruct (binary_normalize Py.prec Py.emax z 0 false); cbn [rbind] in H; congruence.
Qed.

Lemma int_of_float_truncate f t :
  Py.int_of_float f = Ok t -> t = Fit.truncate f.
Proof.
  destruct f as [s|s| |s m [|p|p]]; cbn [Py.int_of_float Fit.truncate]; congruence.
Qed.

(** Within the range, [fit_dib] raises nothing and returns the
    truncating formula, which stays on the paper. *)
Lemma fit_dib_in_range printer dib :
  0 < paper_width printer < 2 ^ 51 -> 0 < paper_height printer < 2 ^ 51 ->
  0 < fst (size dib) < 2 ^ 51 -> 0 < snd (size dib) < 2 ^ 51 ->
  Page.fit_dib printer dib =
    Ok (Fit.truncated (paper_width printer) (paper_height printer)
                      (fst (size dib)) (snd (size dib))) /\
  Fit.within (paper_width printer) (paper_height printer)
             (Fit.truncated (paper_width printer) (paper_height printer)
                            (fst (size dib)) (snd (size dib))).
Proof.
  set (W := paper_width printer). set (H := paper_height printer).
  set (w := fst (size dib)). set (h := snd (size dib)).
  intros HW HH Hw Hh.
  destruct (int_truediv_pos W w ltac:(lia) ltac:(lia)) as (sx & Esx & Nsx & Bsx & _).
  destruct (int_truediv_pos H h ltac:(lia) ltac:(lia)) as (sy & Esy & Nsy & Bsy & _).
  destruct (min2_normal _ _ sx sy Nsx Nsy ltac:(lia)) as (Nmin & Lex & Ley).
  pose proof (int_truediv_quotient _ _ _ Esx ltac:(lia)) as Qx.
  pose proof (int_truediv_quotient _ _ _ Esy ltac:(lia)) as Qy.
  assert (Escale : Py.min2 sx sy = Fit.scale W H w h) by (unfold Fit.scale; congruence).
  set (s := Py.min2 sx sy) in *.
  assert (Bw : (2 ^ 53 - 1) * (scaled s * w) <= 2 ^ 53 * (W * 2 ^ 1074)) by nia.
  assert (Bh : (2 ^ 53 - 1) * (scaled s * h) <= 2 ^ 53 * (H * 2 ^ 1074)) by nia.
  destruct (scaled_dim_within w W s Hw HW Nmin Bw) as (fw & tw & Efw & Etw & Rw).
  destruct (scaled_dim_within h H s Hh HH Nmin Bh) as (fh & th & Efh & Eth & Rh).
  destruct (int_truediv_half (W - tw) ltac:(lia)) as (hx & Ehx & Ex1).
  destruct (int_truediv_half (H - th) ltac:(lia)) as (hy & Ehy & Ey1).
  assert (Tw : tw = Fit.truncate (Fit.product w (Fit.scale W H w h))).
  { rewrite <- Escale, <- (int_mul_float_product _ _ _ Efw).
    now apply int_of_float_truncate. }
  assert (Th : th = Fit.truncate (Fit.product h (Fit.scale W H w h))).
  { rewrite <- Escale, <- (int_mul_float_product _ _ _ Efh).
    now apply int_of_float_truncate. }
  unfold Fit.truncated. rewrite <- Tw, <- Th.
  rewrite !Z.quot_div_nonneg by lia.
  split.
  - unfold Page.fit_dib. fold W H w h.
    rewrite Esx, Esy. cbn [rbind]. fold s.
    rewrite Efw. cbn [rbind]. rewrite Etw. cbn [rbind].
    rewrite Efh. cbn [rbind]. rewrite Eth. cbn [rbind].
    rewrite Ehx. cbn [rbind]. rewrite Ex1. cbn [rbind].
    rewrite Ehy. cbn [rbind]. rewrite Ey1. cbn [rbind].
    reflexivity.
  - unfold Fit.within.
    pose proof (Z.div_pos (W - tw) 2 ltac:(lia) ltac:(lia)).
    pose proof (Z.div_pos (H - th) 2 ltac:(lia) ltac:(lia)).
    pose proof (Z.div_le_upper_bound (W - tw) 2 (W - tw) ltac:(lia) ltac:(lia)).
    pose proof (Z.div_le_upper_bound (H - th) 2 (H - th) ltac:(lia) ltac:(lia)).
    lia.
Qed.

(** C2: for all positive bitmap and paper sizes the program can
    receive (the device reports the paper size as C integers and the
    decoder 32-bit pixel sizes, all of them below [2^51]) the page
    fitter returns a rectangle [(x1,y1,x2,y2)] with
    [0 <= x1 <= x2 <= W] and [0 <= y1 <= y2 <= H]: it lies within the
    paper. *)
Theorem fit_dib_within_paper printer dib :
  0 < paper_width printer < 2 ^ 51 -> 0 < paper_height printer < 2 ^ 51 ->
  0 < fst (size dib) < 2 ^ 51 -> 0 < snd (size dib) < 2 ^ 51 ->
  exists rect,
    Page.fit_dib printer dib = Ok rect /\
    Fit.within (paper_width printer) (paper_height printer) rect.
Proof.
  intros HW HH Hw Hh.
  destruct (fit_dib_in_range printer dib HW HH Hw Hh) as (E & B).
  eexists. split; [exact E | exact B].
Qed.

Lemma fit_dib_within_paper_witness :
  exists rect,
    Page.fit_dib (paper 4961 7016) (bitmap 4843 838) = Ok rect /\
    Fit.within 4961 7016 rect.
Proof.
  apply (fit_dib_within_paper (paper 4961 7016) (bitmap 4843 838));
    cbn; lia.
Defined.

(** Why the sizes are bounded: far beyond anything a device or a
    decoder reports, past the precision of a float, the product that
    gives the width is rounded up; a bitmap as large as a paper of
    [2^60 - 1] by 1 gets a rectangle one unit wider than the paper. *)
Lemma fit_dib_leaves_huge_paper :
  Page.fit_dib (paper (2 ^ 60 - 1) 1) (bitmap (2 ^ 60 - 1) 1) = Ok (0, 0, 2 ^ 60, 1) /\
  ~ Fit.within (2 ^ 60 - 1) 1 (0, 0, 2 ^ 60, 1).
Proof.
  split; [vm_compute; reflexivity|].
  unfold Fit.within. intros (_ & Hx & _). vm_compute in Hx. apply Hx. reflexivity.
Qed.

(** C3 (as amended): for all positive bitmap and paper sizes below
    [2^51] the page fitter computes exactly [scale = min(W/w, H/h)] in
    binary64; [scaled_w = trunc(w*scale)], [scaled_h = trunc(h*scale)],
    each product rounded to binary64 and then truncated toward zero (not
    rounded to the nearest integer); [x1 = trunc((W - scaled_w)/2)],
    [y1 = trunc((H - scaled_h)/2)]; [x2 = x1 + scaled_w],
    [y2 = y1 + scaled_h]; and it raises nothing. *)
Theorem fit_dib_truncates printer dib :
  0 < paper_width printer < 2 ^ 51 -> 0 < paper_height printer < 2 ^ 51 ->
  0 < fst (size dib) < 2 ^ 51 -> 0 < snd (size dib) < 2 ^ 51 ->
  Page.fit_dib printer dib =
    Ok (Fit.truncated (paper_width printer) (paper_height printer)
                      (fst (size dib)) (snd (size dib))).
Proof.
  intros HW HH Hw Hh. apply (fit_dib_in_range printer dib HW HH Hw Hh).
Qed.

Lemma fit_dib_truncates_witness :
  Page.fit_dib (paper 10 12) (bitmap 4 7) = Ok (Fit.truncated 10 12 4 7).
Proof.
  apply (fit_dib_truncates (paper 10 12) (bitmap 4 7)); cbn; lia.
Defined.

(** C3 as stated fails: on a paper of 10 by 12 a bitmap of 4 by 7 has
    [w * scale = 6.857...]; rounding to the nearest integer gives a
    width of 7, the code's truncation 6. *)
Lemma fit_dib_does_not_round :
  Page.fit_dib (paper 10 12) (bitmap 4 7) = Ok (2, 0, 8, 12) /\
  Fit.rounded 10 12 4 7 = (2, 0, 9, 12) /\
  Page.fit_dib (paper 10 12) (bitmap 4 7) <> Ok (Fit.rounded 10 12 4 7).
Proof.
  split; [vm_compute; reflexivity|]. split; [vm_compute; reflexivity|].
  vm_compute. discriminate.
Qed.

(** C6 fails on the code: on A4 paper at 600 dpi (4961 by 7016) a
    bitmap of 4843 by 838 is fitted to a rectangle 4960 wide, because
    the float product [4843 * (4961 / 4843)] falls just below 4961 and
    is truncated; fitting a bitmap of that rectangle's size again gives
    a different rectangle, 4961 wide. *)
Theorem fit_dib_not_idempotent :
  Page.fit_dib (paper 4961 7016) (bitmap 4843 838) = Ok (0, 3079, 4960, 3937) /\
  Fit.refit (paper 4961 7016) (0, 3079, 4960, 3937) = Ok (0, 3079, 4961, 3937).
Proof. split; vm_compute; reflexivity. Qed.

(** ** Print jobs *)

Lemma job_run_app w before st l1 l2 :
  job_run w before st (l1 ++ l2) =
  match job_run w before st l1 with
  | Some st' => job_run w (before ++ l1) st' l2
  | None => None
  end.
Proof.
  revert before st. induction l1 as [|c l1 IH]; intros before st; cbn [job_run app].
  - now rewrite app_nil_r.
  - destruct (job_step st c (raised w before c)) as [st'|]; [|reflexivity].
    rewrite IH, <- app_assoc. reflexivity.
Qed.

(** A block that enters with one call and leaves with another. *)
Lemma with_call_brackets {R A} w c1 c2 (r : R) (body : R -> M A) s :
  with_ (bind (do_call w c1) (fun _ => ret r)) (fun _ => do_call w c2) body s =
  match raises w (trace s) c1 with
  | Some e => (mkState (trace s ++ [c1]) (stdin s), Raise e)
  | None =>
    let '(s2, outcome) := body r (mkState (trace s ++ [c1]) (stdin s)) in
    (mkState (trace s2 ++ [c2]) (stdin s2),
     match raises w (trace s2) c2 with
     | Some e => Raise e
     | None => outcome
     end)
  end.
Proof.
  unfold with_, bind, do_call, ret. cbn [trace stdin].
  destruct (raises w (trace s) c1); [reflexivity|].
  destruct (body r _) as [s2 outcome]. cbn [trace stdin].
  destruct (raises w (trace s2) c2); reflexivity.
Qed.

(** One page: the calls it makes, whatever raises. *)
Lemma page_brackets w doc dib s :
  exists calls,
    trace (fst (with_ (Page.enter w (mkPage doc)) (Page.exit w)
                      (fun page => Page.send w page dib) s)) = trace s ++ calls /\
    Forall page_call calls /\
    job_run w (trace s) DocumentStarted calls = Some DocumentStarted.
Proof.
  unfold with_, Page.enter, Page.exit, Page.send, bind, do_call, ret, lift.
  cbn [trace stdin].
  destruct (raises w (trace s) StartPage) as [e|] eqn:Estart.
  - exists [StartPage]. cbn [fst trace]. repeat split.
    + repeat constructor.
    + cbn [job_run job_step]. unfold raised. now rewrite Estart.
  - cbn [document trace stdin].
    destruct (Page.fit_dib (printer doc) dib) as [rect|e].
    + exists [StartPage; Draw dib (handle (printer doc)) rect; EndPage].
      cbn [trace stdin].
      destruct (raises w (trace s ++ [StartPage]) (Draw dib (handle (printer doc)) rect));
        destruct (raises w ((trace s ++ [StartPage]) ++
                            [Draw dib (handle (printer doc)) rect]) EndPage);
        cbn [fst trace]; rewrite <- !app_assoc; cbn [app];
        (repeat split; [repeat constructor|]);
        cbn [job_run job_step]; unfold raised; rewrite Estart; reflexivity.
    + exists [StartPage; EndPage].
      cbn [trace stdin].
      destruct (raises w (trace s ++ [StartPage]) EndPage);
        cbn [fst trace]; rewrite <- !app_assoc; cbn [app];
        (repeat split; [repeat constructor|]);
        cbn [job_run job_step]; unfold raised; rewrite Estart; reflexivity.
Qed.

(** The pages of a document: only page calls, each started page ended
    before the next call, no page left open. *)
Lemma document_send_brackets w doc items s :
  exists calls,
    trace (fst (Document.send w doc items s)) = trace s ++ calls /\
    Forall page_call calls /\
    job_run w (trace s) DocumentStarted calls = Some DocumentStarted.
Proof.
  unfold Document.send. revert s.
  induction items as [|item items IH]; intros s; cbn [for_each].
  - exists []. cbn. rewrite app_nil_r. repeat split. constructor.
  - unfold bind at 1. unfold bind at 1.
    assert (Hitem : exists r,
               (match item with
                | inl path => lift (Page.get_dib w path)
                | inr dib => ret dib
                end) s = (s, r)).
    { destruct item; eexists; reflexivity. }
    destruct Hitem as (r & ->).
    destruct r as [dib|e].
    + destruct (page_brackets w doc dib s) as (c1 & T1 & F1 & J1).
      destruct (with_ (Page.enter w (mkPage doc)) (Page.exit w)
                      (fun page => Page.send w page dib) s) as [s1 [[]|e]].
      * cbn [fst] in T1.
        destruct (IH s1) as (c2 & T2 & F2 & J2).
        exists (c1 ++ c2). rewrite T2, T1, app_assoc. repeat split.
        -- now apply Forall_app.
        -- rewrite job_run_app, J1, <- T1. exact J2.
      * cbn [fst] in *. exists c1. auto.
    + exists []. cbn. rewrite app_nil_r. repeat split. constructor.
Qed.

(** C1: for every file printed in device mode, whatever raises while
    the pages are decoded and drawn: [StartDoc] is issued once, first;
    unless that very call raises, [EndDoc] is issued once, last, also
    when a page fails; between them there are page calls only, and the
    whole run follows the job protocol (every page that was started is
    ended before anything else happens) and leaves the device idle. *)
Theorem device_print_brackets w self path s :
  let start := StartDoc (Pathlib.name path) in
  exists pages,
    trace (fst (Printer.device_print w self path s)) =
      trace s ++ start :: pages ++
        (if raised w (trace s) start then [] else [EndDoc]) /\
    Forall page_call pages /\
    (raised w (trace s) start = true -> pages = []) /\
    job_run w (trace s) Idle
            (start :: pages ++ (if raised w (trace s) start then [] else [EndDoc]))
      = Some Idle.
Proof.
  cbv zeta.
  unfold Printer.device_print, Document.enter, Document.exit.
  cbn [document_name]. rewrite with_call_brackets. unfold raised.
  destruct (raises w (trace s) (StartDoc (Pathlib.name path))) as [e|] eqn:Estart.
  - exists []. cbn [fst trace app job_run job_step]. unfold raised.
    rewrite Estart. repeat split. constructor.
  - set (s1 := mkState (trace s ++ [StartDoc (Pathlib.name path)]) (stdin s)).
    set (doc := mkDocument self (Pathlib.name path)).
    assert (Hbody : exists calls,
               trace (fst (Printer.device_print_body w path doc s1)) = trace s1 ++ calls /\
               Forall page_call calls /\
               job_run w (trace s1) DocumentStarted calls = Some DocumentStarted).
    { unfold Printer.device_print_body.
      destruct (String.eqb (Pathlib.suffix path) ".pdf").
      - unfold bind, lift.
        destruct (convert_from_path w path) as [pages|e].
        + destruct (dibs_of w pages) as [dibs|e].
          * apply document_send_brackets.
          * exists []. cbn. rewrite app_nil_r. repeat split. constructor.
        + exists []. cbn. rewrite app_nil_r. repeat split. constructor.
      - apply document_send_brackets. }
    destruct Hbody as (calls & T & F & J). exists calls.
    destruct (Printer.device_print_body w path doc s1) as [s2 outcome]. cbn [fst trace] in *.
    rewrite T. subst s1. cbn [trace] in *. rewrite <- !app_assoc. cbn [app].
    repeat split; [assumption | discriminate |].
    cbn [job_run job_step]. unfold raised. rewrite Estart.
    rewrite job_run_app, J. reflexivity.
Qed.

(** The claim's own scenario: a document of three pages on which
    drawing the second one raises.  Both started pages are ended, the
    third is never started, and the document is ended. *)
Example device_print_second_draw_raises :
  let w := with_failing_draw 1 (with_pdf [(100, 200); (100, 200); (100, 200)] quiet) in
  let page k := mkDib (mkImage RGB (100, 200) 0 (["report.pdf"], k)) in
  run (Printer.device_print w (paper 1000 2000) ["report.pdf"]) [] =
  ([StartDoc "report.pdf";
    StartPage; Draw (page 0%nat) 0 (0, 0, 1000, 2000); EndPage;
    StartPage; Draw (page 1%nat) 0 (0, 0, 1000, 2000); EndPage;
    EndDoc],
   Raise (OSError "draw")).
Proof. vm_compute. reflexivity. Qed.

(** ** Bitmaps *)

(** C5: when an image file is converted (it opens, converts to RGB and
    wraps without an exception), a bitmap strictly wider than tall has
    been rotated by a quarter turn exactly once, and a bitmap at least
    as tall as wide has not been rotated at all; either way it is RGB
    and keeps its size. *)
Theorem get_dib_rotates_landscape_once w path opened :
  Image_open w path = Ok opened ->
  convert_raises w opened RGB = None ->
  (forall image, Dib_raises w image = None) ->
  exists dib,
    Page.get_dib w path = Ok dib /\
    im_mode (dib_image dib) = RGB /\
    size dib = im_size opened /\
    (snd (im_size opened) < fst (im_size opened) ->
     im_turns (dib_image dib) = S (im_turns opened)) /\
    (fst (im_size opened) <= snd (im_size opened) ->
     im_turns (dib_image dib) = im_turns opened).
Proof.
  intros Hopen Hconv Hdib.
  unfold Page.get_dib, convert, Dib_new. rewrite Hopen. cbn [rbind].
  rewrite Hconv. cbn [rbind im_size].
  destruct (Z.ltb_spec (snd (im_size opened)) (fst (im_size opened))) as [Hl | Hp];
    rewrite Hdib; eexists; (split; [reflexivity|]);
    cbn [dib_image rotate90 im_mode im_turns im_size size];
    repeat split; try reflexivity; intros; lia.
Qed.

Lemma get_dib_rotates_landscape_once_witness :
  exists dib,
    Page.get_dib (with_image L (200, 100) quiet) ["scan.png"] = Ok dib /\
    im_mode (dib_image dib) = RGB /\
    size dib = (200, 100) /\
    (100 < 200 -> im_turns (dib_image dib) = 1%nat) /\
    (200 <= 100 -> im_turns (dib_image dib) = 0%nat).
Proof.
  apply (get_dib_rotates_landscape_once (with_image L (200, 100) quiet) ["scan.png"]
           (mkImage L (200, 100) 0 (["scan.png"], 0%nat)));
    reflexivity.
Defined.

(** C4 fails on the code: the page of a PDF that rasterizes wider than
    tall (200 by 100) reaches the drawing primitive as it was decoded,
    not rotated, whereas an image file of the same size is rotated
    before it is drawn. *)
Theorem pdf_page_drawn_unrotated :
  let pdf := with_pdf [(200, 100)] quiet in
  let png := with_image RGB (200, 100) quiet in
  run (Printer.device_print pdf (paper 4961 7016) ["wide.pdf"]) [] =
    ([StartDoc "wide.pdf"; StartPage;
      Draw (mkDib (mkImage RGB (200, 100) 0 (["wide.pdf"], 0%nat))) 0 (0, 2268, 4961, 4748);
      EndPage; EndDoc], Ok tt) /\
  run (Printer.device_print png (paper 4961 7016) ["wide.png"]) [] =
    ([StartDoc "wide.png"; StartPage;
      Draw (mkDib (mkImage RGB (200, 100) 1 (["wide.png"], 0%nat))) 0 (0, 2268, 4961, 4748);
      EndPage; EndDoc], Ok tt).
Proof. split; vm_compute; reflexivity. Qed.

(** ** The file selector *)

Module FileSelector.

Import Pathlib.

Lemma mem_In s l : mem s l = true <-> In s l.
Proof.
  unfold mem. rewrite existsb_exists. split.
  - intros (x & Hx & E). apply String.eqb_eq in E. now subst.
  - intros H. exists s. split; [assumption | apply String.eqb_refl].
Qed.

(** What the scan yields inside a directory are the entries located
    below it. *)
Lemma rglob_below_located e :
  forall at_ p,
    In p (rglob_below at_ e) <->
    exists n sub q e',
      e = Dir n sub /\ p = at_ ++ n :: q /\ located sub q e'.
Proof.
  induction e as [n | n sub IH] using entry_induction; intros at_ p.
  - cbn [rglob_below]. split; [intros [] | intros (? & ? & ? & ? & E & _); discriminate].
  - cbn [rglob_below]. rewrite in_app_iff, in_map_iff, in_flat_map. split.
    + intros [(c & <- & Hc) | (c & Hc & Hp)].
      * exists n, sub, [entry_name c], c. repeat split. now constructor.
      * rewrite Forall_forall in IH.
        apply (IH c Hc) in Hp. destruct Hp as (n' & sub' & q & e' & -> & -> & Hloc).
        exists n, sub, (n' :: q), e'. repeat split.
        -- now rewrite <- app_assoc.
        -- now apply located_below with sub'.
    + intros (n0 & sub0 & q & e' & E & -> & Hloc). injection E as <- <-.
      inversion Hloc as [root c Hc | root n' sub' q' c Hd Hl]; subst.
      * left. exists e'. split; [reflexivity | assumption].
      * right. exists (Dir n' sub'). split; [assumption|].
        rewrite Forall_forall in IH. apply (IH _ Hd).
        exists n', sub', q', e'. repeat split; try assumption.
        now rewrite <- app_assoc.
Qed.

Lemma rglob_located root p :
  In p (rglob root) <-> exists e, located root p e.
Proof.
  unfold rglob. rewrite in_app_iff, in_map_iff, in_flat_map. split.
  - intros [(c & <- & Hc) | (c & Hc & Hp)].
    + exists c. now constructor.
    + apply rglob_below_located in Hp.
      destruct Hp as (n & sub & q & e' & -> & -> & Hloc).
      exists e'. cbn [app]. now apply located_below with sub.
  - intros (e & Hloc).
    inversion Hloc as [r c Hc | r n sub q c Hd Hl]; subst.
    + left. exists e. split; [reflexivity | assumption].
    + right. exists (Dir n sub). split; [assumption|].
      apply rglob_below_located. exists n, sub, q, e. repeat split; assumption.
Qed.

(** C8 (as amended): the file selector returns exactly the entries,
    files and directories alike, found by the recursive scan of the
    current directory whose suffix is in the allow-list; nothing
    without an allow-listed suffix is returned. *)
Theorem printable_paths_exact w c p :
  In p (printable_paths w c) <->
  (exists e, located (current_directory w) p e) /\
  In (suffix p) (PRINTABLE_EXTS c).
Proof.
  unfold printable_paths. rewrite filter_In, rglob_located, mem_In. reflexivity.
Qed.

(** The claim's example: [x.pdf], [y.png] and [z/w.pdf]. *)
Example printable_paths_example :
  printable_paths
    (with_directory [File "x.pdf"; File "y.png"; Dir "z" [File "w.pdf"]] quiet)
    shipped
  = [["x.pdf"]; ["z"; "w.pdf"]].
Proof. reflexivity. Qed.

(** C8 as stated fails: a directory whose name ends in [.pdf] is
    returned although it is not a file. *)
Lemma printable_paths_returns_directory :
  let w := with_directory [Dir "d.pdf" []] quiet in
  printable_paths w shipped = [["d.pdf"]] /\
  ~ (forall p, In p (printable_paths w shipped) ->
               exists e, located (current_directory w) p e /\ is_file e).
Proof.
  split; [reflexivity|]. intros H.
  destruct (H ["d.pdf"] ltac:(now left)) as (e & Hloc & Hfile).
  inversion Hloc as [r c Hc | r n sub q c Hd Hl]; subst.
  - destruct Hc as [E | []]. rewrite <- E in Hfile. exact Hfile.
  - destruct Hd as [E | []]. inversion E; subst. inversion Hl.
Qed.

End FileSelector.

(** ** Choosing the printer *)

Lemma menu_lines_printed choices :
  forall no tr inp,
    menu no choices (mkState tr inp) =
    (mkState (tr ++ menu_lines no choices) inp, Ok tt).
Proof.
  induction choices as [|choice rest IH]; intros no tr inp; cbn [menu menu_lines].
  - unfold ret. now rewrite app_nil_r.
  - unfold bind, print. cbn [trace stdin]. rewrite IH, <- app_assoc. reflexivity.
Qed.

Lemma target_installed_test w c :
  truthy (EXPECTED_PRINTER c) &&
  match EXPECTED_PRINTER c with
  | Some expected => mem expected (PRINTERS w)
  | None => false
  end = true <-> target_installed w c.
Proof.
  unfold target_installed, truthy. destruct (EXPECTED_PRINTER c) as [n|].
  - rewrite andb_true_iff, negb_true_iff, String.eqb_neq, FileSelector.mem_In. split.
    + intros (Hn & Hin). now exists n.
    + intros (n' & E & Hn & Hin). injection E as <-. now split.
  - cbn. split; [discriminate | intros (n & E & _); discriminate].
Qed.

(** The configured target, when installed, is returned without a
    prompt. *)
Lemma get_printer_name_installed w c s :
  target_installed w c -> get_printer_name w c s = (s, Ok (EXPECTED_PRINTER c)).
Proof.
  intros H. apply target_installed_test in H.
  unfold get_printer_name. rewrite H. reflexivity.
Qed.

(** Otherwise the menu is printed and one line is read. *)
Lemma get_printer_name_prompts w c tr inp :
  ~ target_installed w c ->
  get_printer_name w c (mkState tr inp) =
  try_except
    (let* line := input EmptyString in
     let* no := lift (Py.int_of_str line) in
     let* chosen := lift (Py.index (PRINTERS w) no) in
     ret (Some chosen))%M
    selection_errors (ret None)
    (mkState (tr ++ prompt_lines w c) inp).
Proof.
  intros H. rewrite <- target_installed_test in H. apply not_true_is_false in H.
  unfold get_printer_name. rewrite H. unfold prompt_lines.
  destruct (truthy (EXPECTED_PRINTER c));
    unfold bind, print, ret; cbn [trace stdin];
    rewrite menu_lines_printed; rewrite <- ?app_assoc; cbn [app]; reflexivity.
Qed.

(** [int] on a line: white space and a sign around the digits; the
    separators U+001C to U+001F are not white space for it; a no-break
    space (U+00A0, the bytes 194 160) is, ARABIC-INDIC DIGIT ONE
    (U+0661, the bytes 217 161) and FULLWIDTH DIGIT TWO (U+FF12, the
    bytes 239 188 146) are digits, SUPERSCRIPT TWO (U+00B2) is not;
    single underscores between digits; at most 4300 digits. *)
Example int_of_str_examples :
  Py.int_of_str " -2" = Ok (-2) /\
  Py.int_of_str "+1_0 " = Ok 10 /\
  Py.int_of_str "1__0" = Raise ValueError /\
  Py.int_of_str "1 2" = Raise ValueError /\
  Py.int_of_str EmptyString = Raise ValueError /\
  Py.int_of_str (String "028" "-1") = Raise ValueError /\
  Py.int_of_str (String "028" "0") = Raise ValueError /\
  Py.int_of_str (String "194" (String "160" "1")) = Ok 1 /\
  Py.int_of_str (String "217" (String "161" EmptyString)) = Ok 1 /\
  Py.int_of_str (String "239" (String "188" (String "146" EmptyString))) = Ok 2 /\
  Py.int_of_str (String "194" (String "178" EmptyString)) = Raise ValueError /\
  Py.int_of_str (string_of_list_ascii (repeat "0"%char 4300)) = Ok 0 /\
  Py.int_of_str (string_of_list_ascii (repeat "0"%char 4301)) = Raise ValueError.
Proof. repeat apply conj; vm_compute; reflexivity. Qed.

Lemma int_of_str_raises line e :
  Py.int_of_str line = Raise e -> e = ValueError.
Proof.
  unfold Py.int_of_str.
  assert (Hbody : forall sign r,
             match r with
             | [] => Raise ValueError
             | c :: _ =>
               if Py.is_digit c
               then match Py.digits 0 false r with
                    | Some v =>
                      if (Py.count_digits r <=? Py.int_max_str_digits)%nat
                      then Ok (sign * v) else Raise ValueError
                    | None => Raise ValueError
                    end
               else Raise ValueError
             end = Raise e -> e = ValueError).
  { intros sign [|c r]; [congruence|].
    destruct (Py.is_digit c); [|congruence].
    destruct (Py.digits 0 false (c :: r)); [|congruence].
    destruct (Py.count_digits (c :: r) <=? Py.int_max_str_digits)%nat; congruence. }
  destruct (Py.strip line) as [|c r]; [congruence|].
  destruct (Ascii.eqb c "-"); [apply Hbody|].
  destruct (Ascii.eqb c "+"); [apply Hbody | apply (Hbody 1 (c :: r))].
Qed.

(** A choice that is not valid selects nothing. *)
Lemma invalid_choice_selects_nothing w c tr read rest :
  ~ target_installed w c -> invalid_choice w read ->
  get_printer_name w c (mkState tr (read :: rest)) =
  (mkState (tr ++ prompt_lines w c ++ [Input EmptyString]) rest, Ok None).
Proof.
  intros Hnot Hinv. rewrite get_printer_name_prompts by assumption.
  unfold try_except, bind, input, lift, ret. cbn [trace stdin].
  rewrite <- app_assoc.
  destruct read as [line|]; [|reflexivity].
  unfold invalid_choice in Hinv.
  destruct (Py.int_of_str line) as [i|e] eqn:Eint.
  - unfold Py.index.
    replace ((0 <=? (if i <? 0 then i + Z.of_nat (List.length (PRINTERS w)) else i)) &&
             ((if i <? 0 then i + Z.of_nat (List.length (PRINTERS w)) else i)
              <? Z.of_nat (List.length (PRINTERS w)))) with false; [reflexivity|].
    symmetry. apply andb_false_iff.
    destruct (Z.ltb_spec i 0); [left; apply Z.leb_gt | right; apply Z.ltb_ge]; lia.
  - apply int_of_str_raises in Eint. subst e. reflexivity.
Qed.

(** An index within the catalog, counted from either end, selects. *)
Lemma valid_choice_selects w c tr line rest i :
  ~ target_installed w c ->
  Py.int_of_str line = Ok i ->
  let n := Z.of_nat (List.length (PRINTERS w)) in
  - n <= i < n ->
  exists chosen,
    nth_error (PRINTERS w) (Z.to_nat (if i <? 0 then i + n else i)) = Some chosen /\
    get_printer_name w c (mkState tr (Some line :: rest)) =
    (mkState (tr ++ prompt_lines w c ++ [Input EmptyString]) rest, Ok (Some chosen)).
Proof.
  intros Hnot Hint n Hi. rewrite get_printer_name_prompts by assumption.
  unfold try_except, bind, input, lift, ret. cbn [trace stdin].
  rewrite <- app_assoc, Hint. unfold Py.index. fold n.
  set (j := if i <? 0 then i + n else i).
  assert (Hj : 0 <= j < n) by (subst j; destruct (Z.ltb_spec i 0); lia).
  replace ((0 <=? j) && (j <? n)) with true
    by (symmetry; apply andb_true_iff; split; [apply Z.leb_le | apply Z.ltb_lt]; lia).
  destruct (nth_error (PRINTERS w) (Z.to_nat j)) as [chosen|] eqn:En.
  - exists chosen. split; reflexivity.
  - exfalso. apply nth_error_None in En. subst n. lia.
Qed.

Lemma index_In {A} (l : list A) i a : Py.index l i = Ok a -> In a l.
Proof.
  unfold Py.index.
  destruct ((0 <=? _) && _); [|discriminate].
  destruct (nth_error l _) as [x|] eqn:E; [|discriminate].
  intros H. injection H as <-. now apply nth_error_In in E.
Qed.

Lemma index_raises {A} (l : list A) i e : Py.index l i = Raise e -> e = IndexError.
Proof.
  unfold Py.index. destruct ((0 <=? _) && _); [|congruence].
  destruct (nth_error l _); congruence.
Qed.

(** Whatever is selected is an installed printer. *)
Lemma selected_printer_installed w c s n :
  snd (get_printer_name w c s) = Ok (Some n) -> In n (PRINTERS w).
Proof.
  destruct s as [tr inp].
  destruct (target_installed_test w c) as [Hto Hfrom].
  destruct (truthy (EXPECTED_PRINTER c) &&
            match EXPECTED_PRINTER c with
            | Some expected => mem expected (PRINTERS w)
            | None => false
            end) eqn:Htest.
  - destruct (Hto eq_refl) as (n' & E & Hn & Hin).
    rewrite get_printer_name_installed by (exists n'; auto).
    cbn [snd]. rewrite E. intros H. injection H as <-. exact Hin.
  - rewrite get_printer_name_prompts by (intros H; apply Hfrom in H; discriminate).
    unfold try_except, bind, input, lift, ret. cbn [trace stdin].
    destruct inp as [|[line|] rest]; cbn [selection_errors exn_eqb orb snd];
      try discriminate.
    destruct (Py.int_of_str line) as [i|e] eqn:Eint.
    + destruct (Py.index (PRINTERS w) i) as [chosen|e] eqn:Eidx.
      * cbn [snd]. intros H. injection H as <-. now apply index_In in Eidx.
      * destruct (selection_errors e); discriminate.
    + destruct (selection_errors e); discriminate.
Qed.

(** With no usable target the menu is printed and one line is read,
    whatever it holds; a printer is selected only by the index typed. *)
Lemma get_printer_name_falls_back w c tr inp :
  ~ target_installed w c ->
  exists chosen,
    get_printer_name w c (mkState tr inp) =
      (mkState (tr ++ prompt_lines w c ++ [Input EmptyString]) (tl inp), Ok chosen) /\
    forall n, chosen = Some n ->
      exists line i, hd_error inp = Some (Some line) /\
                     Py.int_of_str line = Ok i /\ Py.index (PRINTERS w) i = Ok n.
Proof.
  intros Hnot. rewrite get_printer_name_prompts by assumption.
  unfold try_except, bind, input, lift, ret. cbn [trace stdin].
  rewrite <- app_assoc.
  destruct inp as [|[line|] rest]; cbn [selection_errors exn_eqb orb tl hd_error];
    try (exists None; split; [reflexivity | discriminate]).
  destruct (Py.int_of_str line) as [i|e] eqn:Eint.
  - destruct (Py.index (PRINTERS w) i) as [chosen|e] eqn:Eidx.
    + exists (Some chosen). split; [reflexivity|].
      intros n E. injection E as <-. now exists line, i.
    + apply index_raises in Eidx. subst e. cbn [selection_errors exn_eqb orb].
      exists None. split; [reflexivity | discriminate].
  - apply int_of_str_raises in Eint. subst e. cbn [selection_errors exn_eqb orb].
    exists None. split; [reflexivity | discriminate].
Qed.

(** Without a selection [main] reports it, sends nothing and, once the
    closing prompt is answered, returns. *)
Lemma main_without_selection w c tr read closing rest :
  ~ target_installed w c -> invalid_choice w read ->
  main w c (mkState tr (read :: Some closing :: rest)) =
  (mkState (tr ++ prompt_lines w c ++
            [Input EmptyString; Print "NO PRINTER SELECTED";
             Print "WORK COMPLETE"; Input ("PRESS ENTER TO QUIT" ++ newline)])
           rest,
   Ok tt).
Proof.
  intros Hnot Hinv. unfold main. unfold bind at 1.
  rewrite invalid_choice_selects_nothing by assumption.
  cbn [truthy]. unfold bind, print, input, ret. cbn [trace stdin].
  rewrite <- !app_assoc. reflexivity.
Qed.

(** C7 (as amended): printer resolution never returns a name that is
    not in the installed-printer catalog, so the configured target only
    when it is installed; whenever the configured target is absent (not
    given, empty or not installed) it prints the numbered menu and reads
    one line, whatever is on standard input, and selects a printer only
    by the index typed there, never on its own; for every invalid or
    empty input (end of file, not an integer for [int], out of range) no
    printer is selected, after which the run reports NO PRINTER
    SELECTED, makes no call to the printing system and returns normally,
    provided the closing PRESS ENTER TO QUIT prompt can read a line. *)
Theorem no_selection_no_print w c tr read closing rest :
  ~ target_installed w c -> invalid_choice w read ->
  (forall s n, snd (get_printer_name w c s) = Ok (Some n) -> In n (PRINTERS w)) /\
  (forall tr0 inp, exists chosen,
      get_printer_name w c (mkState tr0 inp) =
        (mkState (tr0 ++ prompt_lines w c ++ [Input EmptyString]) (tl inp), Ok chosen) /\
      forall n, chosen = Some n ->
        exists line i, hd_error inp = Some (Some line) /\
                       Py.int_of_str line = Ok i /\ Py.index (PRINTERS w) i = Ok n) /\
  get_printer_name w c (mkState tr (read :: rest)) =
    (mkState (tr ++ prompt_lines w c ++ [Input EmptyString]) rest, Ok None) /\
  main w c (mkState tr (read :: Some closing :: rest)) =
    (mkState (tr ++ prompt_lines w c ++
              [Input EmptyString; Print "NO PRINTER SELECTED";
               Print "WORK COMPLETE"; Input ("PRESS ENTER TO QUIT" ++ newline)])
             rest,
     Ok tt).
Proof.
  intros Hnot Hinv. split; [|split; [|split]].
  - intros s n. apply selected_printer_installed.
  - intros tr0 inp. now apply get_printer_name_falls_back.
  - now apply invalid_choice_selects_nothing.
  - now apply main_without_selection.
Qed.

Lemma target_C_absent : ~ target_installed catalog_AB target_C.
Proof.
  intros (n & E & _ & Hin). injection E as <-.
  cbn in Hin. destruct Hin as [H | [H | []]]; discriminate.
Defined.

Lemma no_selection_no_print_witness :
  (forall s n, snd (get_printer_name catalog_AB target_C s) = Ok (Some n) ->
               In n (PRINTERS catalog_AB)) /\
  (forall tr0 inp, exists chosen,
      get_printer_name catalog_AB target_C (mkState tr0 inp) =
        (mkState (tr0 ++ prompt_lines catalog_AB target_C ++ [Input EmptyString]) (tl inp),
         Ok chosen) /\
      forall n, chosen = Some n ->
        exists line i, hd_error inp = Some (Some line) /\
                       Py.int_of_str line = Ok i /\
                       Py.index (PRINTERS catalog_AB) i = Ok n) /\
  get_printer_name catalog_AB target_C (mkState [] [Some "2"]) =
    (mkState ([Print "EXPECTED PRINTER NOT FOUND (C)"; Print "CHOOSE PRINTER OR QUIT";
               Print "0. A"; Print "1. B"; Print "2. QUIT"] ++ [Input EmptyString]) [],
     Ok None) /\
  main catalog_AB target_C (mkState [] [Some "2"; Some EmptyString]) =
    (mkState ([Print "EXPECTED PRINTER NOT FOUND (C)"; Print "CHOOSE PRINTER OR QUIT";
               Print "0. A"; Print "1. B"; Print "2. QUIT"] ++
              [Input EmptyString; Print "NO PRINTER SELECTED";
               Print "WORK COMPLETE"; Input ("PRESS ENTER TO QUIT" ++ newline)]) [],
     Ok tt).
Proof.
  apply (no_selection_no_print catalog_AB target_C [] (Some "2") EmptyString []).
  - exact target_C_absent.
  - unfold invalid_choice.
    change (Py.int_of_str "2") with (Ok 2 : result Z).
    change (Z.of_nat (List.length (PRINTERS catalog_AB))) with 2.
    right. lia.
Defined.

(** C7 as stated fails when standard input is exhausted: the prompt
    reads an end of file, no printer is selected and the run reports
    it, but the closing prompt then raises [EOFError] out of [main]. *)
Lemma exhausted_input_raises :
  invalid_choice catalog_AB None /\
  run (main catalog_AB target_C) [] =
    ([Print "EXPECTED PRINTER NOT FOUND (C)"; Print "CHOOSE PRINTER OR QUIT";
      Print "0. A"; Print "1. B"; Print "2. QUIT"; Input EmptyString;
      Print "NO PRINTER SELECTED"; Print "WORK COMPLETE";
      Input ("PRESS ENTER TO QUIT" ++ newline)],
     Raise EOFError).
Proof. split; [exact I | vm_compute; reflexivity]. Qed.

Lemma nth_error_last {A} (l : list A) d :
  l <> [] -> nth_error l (List.length l - 1) = Some (last l d).
Proof.
  intros Hl. rewrite (app_removelast_last d Hl) at 1 2.
  rewrite length_app. cbn [List.length].
  rewrite nth_error_app2 by lia.
  replace (List.length (removelast l) + 1 - 1 - List.length (removelast l))%nat
    with 0%nat by lia.
  reflexivity.
Qed.

(** C9: at the interactive prompt, every integer input [i] with
    [-len(catalog) <= i <= -1], however the line spells it for [int],
    selects the installed printer at position [len(catalog) + i]
    instead of being treated as invalid; in particular the input -1
    selects the last printer of a catalog that is not empty. *)
Theorem negative_choice_counts_from_end w c tr line rest i :
  ~ target_installed w c ->
  Py.int_of_str line = Ok i ->
  - Z.of_nat (List.length (PRINTERS w)) <= i <= -1 ->
  (exists chosen,
      nth_error (PRINTERS w) (Z.to_nat (Z.of_nat (List.length (PRINTERS w)) + i))
        = Some chosen /\
      get_printer_name w c (mkState tr (Some line :: rest)) =
        (mkState (tr ++ prompt_lines w c ++ [Input EmptyString]) rest,
         Ok (Some chosen))) /\
  get_printer_name w c (mkState tr (Some "-1" :: rest)) =
    (mkState (tr ++ prompt_lines w c ++ [Input EmptyString]) rest,
     Ok (Some (last (PRINTERS w) EmptyString))).
Proof.
  intros Hnot Hint Hi.
  assert (Hne : PRINTERS w <> []).
  { intros E. rewrite E in Hi. cbn in Hi. lia. }
  split.
  - destruct (valid_choice_selects w c tr line rest i Hnot Hint ltac:(lia))
      as (chosen & Hnth & Hget).
    exists chosen. split; [|exact Hget].
    replace (i <? 0) with true in Hnth by (symmetry; apply Z.ltb_lt; lia).
    now rewrite Z.add_comm.
  - assert (Hlen : (0 < List.length (PRINTERS w))%nat).
    { destruct (PRINTERS w); [congruence | cbn; lia]. }
    destruct (valid_choice_selects w c tr "-1" rest (-1) Hnot eq_refl ltac:(lia))
      as (chosen & Hnth & Hget).
    rewrite Hget. do 3 f_equal.
    change (-1 <? 0) with true in Hnth. cbv iota in Hnth.
    replace (Z.to_nat (-1 + Z.of_nat (List.length (PRINTERS w))))
      with (List.length (PRINTERS w) - 1)%nat in Hnth by lia.
    rewrite (nth_error_last _ EmptyString Hne) in Hnth. congruence.
Qed.

Lemma negative_choice_counts_from_end_witness :
  (exists chosen,
      nth_error (PRINTERS catalog_AB) (Z.to_nat (2 + -2)) = Some chosen /\
      get_printer_name catalog_AB shipped (mkState [] [Some " -2"]) =
        (mkState ([] ++ prompt_lines catalog_AB shipped ++ [Input EmptyString]) [],
         Ok (Some chosen))) /\
  get_printer_name catalog_AB shipped (mkState [] [Some "-1"]) =
    (mkState ([] ++ prompt_lines catalog_AB shipped ++ [Input EmptyString]) [],
     Ok (Some "B")).
Proof.
  apply (negative_choice_counts_from_end catalog_AB shipped [] " -2" [] (-2)).
  - intros (n & E & _). discriminate E.
  - reflexivity.
  - cbn. lia.
Defined.

(** At the prompt of a catalog A, B: a separator before the number
    makes the line invalid, a no-break space does not. *)
Example prompt_whitespace :
  snd (get_printer_name catalog_AB shipped (mkState [] [Some (String "028" "-1")])) =
    Ok None /\
  snd (get_printer_name catalog_AB shipped
         (mkState [] [Some (String "194" (String "160" "1"))])) = Ok (Some "B").
Proof. split; vm_compute; reflexivity. Qed.

(** ** Shell mode *)

(** What [Printer.__init__] calls; it returns only when none of its
    calls raises. *)
Lemma init_calls w printer_name s :
  exists setup,
    trace (fst (Printer.init w printer_name s)) = trace s ++ setup /\
    Forall setup_call setup /\
    match snd (Printer.init w printer_name s) with
    | Ok p =>
      name p = (if String.eqb printer_name EmptyString
                then default_printer w else printer_name) /\
      setup = (if String.eqb printer_name EmptyString then [GetDefaultPrinter] else []) ++
              [CreateDC; CreatePrinterDC (name p);
               GetDeviceCaps Printer.PAPER_WIDTH_IDX;
               GetDeviceCaps Printer.PAPER_HEIGHT_IDX; GetHandleOutput] /\
      raised w ((trace s ++ (if String.eqb printer_name EmptyString
                             then [GetDefaultPrinter] else [])) ++ [CreateDC])
             (CreatePrinterDC (name p)) = false
    | Raise _ => True
    end.
Proof.
  unfold Printer.init, bind, do_call, ret. cbn [trace stdin].
  destruct (String.eqb printer_name EmptyString); cbn [trace stdin app];
    rewrite ?app_nil_r;
    repeat match goal with
           | |- context [match raises w ?b ?c with _ => _ end] =>
             let E := fresh "E" in
             destruct (raises w b c) eqn:E; cbn [trace stdin fst snd]
           end;
    cbn [name]; unfold raised; rewrite ?E1, ?E0;
    rewrite <- ?app_assoc; cbn [app];
    eexists; (split; [reflexivity|]);
    (split; [repeat constructor|]);
    try exact I; repeat split.
Qed.


(** The module-level [send], step by step. *)
Lemma send_steps w paths printer_name msg shell s :
  send w paths printer_name msg shell s =
  match Printer.init w printer_name s with
  | (s1, Raise e) => (s1, Raise e)
  | (s1, Ok p) =>
    let '(s2, outcome) := Printer.send w p paths msg shell s1 in
    (mkState (trace s2 ++ [DeleteDC]) (stdin s2),
     match raises w (trace s2) DeleteDC with
     | Some e => Raise e
     | None => outcome
     end)
  end.
Proof.
  unfold send, with_. unfold bind at 1.
  destruct (Printer.init w printer_name s) as [s1 [p|e]]; [|reflexivity].
  unfold Printer.enter, ret.
  destruct (Printer.send w p paths msg shell s1) as [s2 outcome].
  unfold Printer.exit, do_call.
  destruct (raises w (trace s2) DeleteDC); reflexivity.
Qed.


(** Shell mode on a printer whose device context cannot be created:
    nothing is handed to the print verb. *)
Example shell_send_without_device :
  run (send (with_failing_device quiet) [inl "a.pdf"; inl "b.pdf"] "HP1" EmptyString true) []
  = ([CreateDC; CreatePrinterDC "HP1"], Raise (OSError "CreatePrinterDC")).
Proof. vm_compute. reflexivity. Qed.

(** Shell mode on a working device: the context is opened first and
    closed once, last. *)
Example shell_send_with_device :
  run (send quiet [inl "a.pdf"; inr ["dir"; "b.pdf"]] EmptyString EmptyString true) []
  = ([GetDefaultPrinter; CreateDC; CreatePrinterDC "default";
      GetDeviceCaps 110; GetDeviceCaps 111; GetHandleOutput;
      StartFile ["a.pdf"] "print"; StartFile ["dir"; "b.pdf"] "print";
      DeleteDC], Ok tt).
Proof. vm_compute. reflexivity. Qed.

(** * Further properties of the code *)

(** ** More on the page fitter *)

(** X1: A zero-sized bitmap cannot be fitted: the division by its width
    (or, when the first quotient exists, by its height) raises. *)
Theorem fit_dib_zero_size printer dib :
  fst (size dib) = 0 \/
  (snd (size dib) = 0 /\
   exists sx, Py.int_truediv (paper_width printer) (fst (size dib)) = Ok sx) ->
  Page.fit_dib printer dib = Raise ZeroDivisionError.
Proof.
  unfold Page.fit_dib. intros [Hw | (Hh & sx & Hsx)].
  - rewrite Hw. reflexivity.
  - rewrite Hsx, Hh. reflexivity.
Qed.

Lemma fit_dib_zero_size_witness :
  Page.fit_dib (paper 4961 7016) (bitmap 100 0) = Raise ZeroDivisionError.
Proof.
  apply (fit_dib_zero_size (paper 4961 7016) (bitmap 100 0)).
  right. split; [reflexivity|]. eexists. vm_compute. reflexivity.
Defined.

(** X2: In range, the rectangle is centred: the margins on opposite sides
    differ by at most one unit, the larger one on the far side. *)
Theorem fit_dib_centred printer dib :
  0 < paper_width printer < 2 ^ 51 -> 0 < paper_height printer < 2 ^ 51 ->
  0 < fst (size dib) < 2 ^ 51 -> 0 < snd (size dib) < 2 ^ 51 ->
  exists x1 y1 x2 y2,
    Page.fit_dib printer dib = Ok (x1, y1, x2, y2) /\
    0 <= (paper_width printer - x2) - x1 <= 1 /\
    0 <= (paper_height printer - y2) - y1 <= 1.
Proof.
  intros HW HH Hw Hh.
  destruct (fit_dib_in_range printer dib HW HH Hw Hh) as (E & B).
  unfold Fit.truncated in *. cbv zeta in *.
  set (scale := Fit.scale _ _ _ _) in *.
  set (sw := Fit.truncate (Fit.product (fst (size dib)) scale)) in *.
  set (sh := Fit.truncate (Fit.product (snd (size dib)) scale)) in *.
  clearbody sw sh. unfold Fit.within in B. cbv beta iota zeta in B.
  do 4 eexists. split; [exact E|].
  assert (Hdw : 0 <= paper_width printer - sw).
  { destruct (Z.lt_ge_cases (paper_width printer - sw) 0) as [Hneg|]; [|assumption].
    pose proof (Z.quot_opp_l (paper_width printer - sw) 2 ltac:(lia)) as Ho.
    pose proof (Z.quot_pos (- (paper_width printer - sw)) 2 ltac:(lia) ltac:(lia)).
    lia. }
  assert (Hdh : 0 <= paper_height printer - sh).
  { destruct (Z.lt_ge_cases (paper_height printer - sh) 0) as [Hneg|]; [|assumption].
    pose proof (Z.quot_opp_l (paper_height printer - sh) 2 ltac:(lia)) as Ho.
    pose proof (Z.quot_pos (- (paper_height printer - sh)) 2 ltac:(lia) ltac:(lia)).
    lia. }
  rewrite !Z.quot_div_nonneg by lia.
  pose proof (Z.div_mod (paper_width printer - sw) 2 ltac:(lia)).
  pose proof (Z.mod_pos_bound (paper_width printer - sw) 2 ltac:(lia)).
  pose proof (Z.div_mod (paper_height printer - sh) 2 ltac:(lia)).
  pose proof (Z.mod_pos_bound (paper_height printer - sh) 2 ltac:(lia)).
  lia.
Qed.

Lemma fit_dib_centred_witness :
  exists x1 y1 x2 y2,
    Page.fit_dib (paper 4961 7016) (bitmap 4843 838) = Ok (x1, y1, x2, y2) /\
    0 <= (4961 - x2) - x1 <= 1 /\ 0 <= (7016 - y2) - y1 <= 1.
Proof.
  apply (fit_dib_centred (paper 4961 7016) (bitmap 4843 838)); cbn; lia.
Defined.

(** One scaled dimension falls short of the paper's extent by less
    than two units when [scale] is at least (the float nearest to)
    their ratio. *)
Lemma scaled_dim_near dim extent scale f t :
  0 < dim < 2 ^ 51 -> 0 < extent < 2 ^ 51 ->
  normal_in (-104) 0 scale ->
  2 ^ 53 * (extent * 2 ^ 1074) <= (2 ^ 53 + 1) * (scaled scale * dim) ->
  Py.int_mul_float dim scale = Ok f -> Py.int_of_float f = Ok t ->
  extent - 1 <= t.
Proof.
  intros Hdim Hext Hscale Hbound Ef Et.
  destruct (float_of_int_pos dim ltac:(lia)) as (fz & Hfz & Hnz & Hvz).
  destruct (SFmul_normal_in _ _ _ _ fz scale Hnz Hscale
              ltac:(lia) ltac:(lia) ltac:(lia) ltac:(lia))
    as (g & Hmul & Hng & _ & Hdown).
  assert (Eg : f = g).
  { unfold Py.int_mul_float in Ef. rewrite Hfz in Ef. cbn [rbind] in Ef.
    unfold Py.prec, Py.emax in Ef. congruence. }
  clear Hmul. subst g.
  destruct (int_of_float_normal _ _ f Hng ltac:(lia)) as (t' & Ht' & Hlo & Hhi).
  assert (t' = t) by congruence. subst t'.
  rewrite Hvz in Hdown.
  assert (HK : 0 < 2 ^ 1074) by (apply Z.pow_pos_nonneg; lia).
  set (K := 2 ^ 1074) in *. clearbody K.
  set (S := scaled scale) in *. clearbody S.
  set (F := scaled f) in *. clearbody F.
  change (2 ^ 53) with 9007199254740992 in *.
  change (2 ^ 51) with 2251799813685248 in *.
  assert (H1 : 9007199254740992 * (dim * S) <= (9007199254740992 + 1) * F) by nia.
  assert (H2 : 9007199254740992 * (9007199254740992 * (extent * K))
               <= (9007199254740992 + 1) * ((9007199254740992 + 1) * F)) by nia.
  assert (H3 : 9007199254740992 * (9007199254740992 * (extent * K))
               < (9007199254740992 + 1) * ((9007199254740992 + 1) * ((t + 1) * K))) by nia.
  assert (H4 : 9007199254740992 * (9007199254740992 * extent)
               < (9007199254740992 + 1) * ((9007199254740992 + 1) * (t + 1))) by nia.
  lia.
Qed.

(** X3: In range, the rectangle is as large as the paper allows up to one
    unit: it spans the paper's width or its height, or misses one of
    them by a single unit (the float product may fall just below the
    integer it should reach, and is truncated). *)
Theorem fit_dib_nearly_largest printer dib :
  0 < paper_width printer < 2 ^ 51 -> 0 < paper_height printer < 2 ^ 51 ->
  0 < fst (size dib) < 2 ^ 51 -> 0 < snd (size dib) < 2 ^ 51 ->
  exists x1 y1 x2 y2,
    Page.fit_dib printer dib = Ok (x1, y1, x2, y2) /\
    (paper_width printer - 1 <= x2 - x1 <= paper_width printer /\
     y2 - y1 <= paper_height printer \/
     paper_height printer - 1 <= y2 - y1 <= paper_height printer /\
     x2 - x1 <= paper_width printer).
Proof.
  set (W := paper_width printer). set (H := paper_height printer).
  set (w := fst (size dib)). set (h := snd (size dib)).
  intros HW HH Hw Hh.
  destruct (int_truediv_pos W w ltac:(lia) ltac:(lia)) as (sx & Esx & Nsx & Bsx & Lsx).
  destruct (int_truediv_pos H h ltac:(lia) ltac:(lia)) as (sy & Esy & Nsy & Bsy & Lsy).
  destruct (min2_normal _ _ sx sy Nsx Nsy ltac:(lia)) as (Nmin & Lex & Ley).
  assert (Bw : (2 ^ 53 - 1) * (scaled (Py.min2 sx sy) * w) <= 2 ^ 53 * (W * 2 ^ 1074)) by nia.
  assert (Bh : (2 ^ 53 - 1) * (scaled (Py.min2 sx sy) * h) <= 2 ^ 53 * (H * 2 ^ 1074)) by nia.
  destruct (scaled_dim_within w W _ Hw HW Nmin Bw) as (fw & tw & Efw & Etw & Rw).
  destruct (scaled_dim_within h H _ Hh HH Nmin Bh) as (fh & th & Efh & Eth & Rh).
  destruct (int_truediv_half (W - tw) ltac:(lia)) as (hx & Ehx & Ex1).
  destruct (int_truediv_half (H - th) ltac:(lia)) as (hy & Ehy & Ey1).
  exists ((W - tw) / 2), ((H - th) / 2), ((W - tw) / 2 + tw), ((H - th) / 2 + th).
  split.
  - unfold Page.fit_dib. fold W H w h.
    rewrite Esx, Esy. cbn [rbind].
    rewrite Efw. cbn [rbind]. rewrite Etw. cbn [rbind].
    rewrite Efh. cbn [rbind]. rewrite Eth. cbn [rbind].
    rewrite Ehx. cbn [rbind]. rewrite Ex1. cbn [rbind].
    rewrite Ehy. cbn [rbind]. rewrite Ey1. cbn [rbind].
    reflexivity.
  - assert (Hmin : Py.min2 sx sy = sx \/ Py.min2 sx sy = sy).
    { unfold Py.min2. destruct (SFltb sy sx); auto. }
    destruct Hmin as [Hm | Hm]; rewrite Hm in *.
    + left. pose proof (scaled_dim_near w W sx fw tw Hw HW Nsx Lsx Efw Etw). lia.
    + right. pose proof (scaled_dim_near h H sy fh th Hh HH Nsy Lsy Efh Eth). lia.
Qed.

Lemma fit_dib_nearly_largest_witness :
  exists x1 y1 x2 y2,
    Page.fit_dib (paper 4961 7016) (bitmap 4843 838) = Ok (x1, y1, x2, y2) /\
    (4961 - 1 <= x2 - x1 <= 4961 /\ y2 - y1 <= 7016 \/
     7016 - 1 <= y2 - y1 <= 7016 /\ x2 - x1 <= 4961).
Proof.
  apply (fit_dib_nearly_largest (paper 4961 7016) (bitmap 4843 838)); cbn; lia.
Defined.

(** Two positive normal floats of the same value are the same float. *)
Lemma normal_scaled_inj lo1 hi1 lo2 hi2 a b :
  normal_in lo1 hi1 a -> normal_in lo2 hi2 b ->
  -1074 <= lo1 -> -1074 <= lo2 ->
  scaled a = scaled b -> a = b.
Proof.
  intros (ma & ea & -> & Hma & Hea) (mb & eb & -> & Hmb & Heb) Hl1 Hl2.
  cbn [scaled]. intros E.
  assert (Hstep : forall x y, -1074 <= x -> x < y ->
                     2 * 2 ^ (x + 1074) <= 2 ^ (y + 1074)).
  { intros x y Hx Hxy. rewrite <- Z.pow_succ_r by lia.
    apply Z.pow_le_mono_r; lia. }
  assert (0 < 2 ^ (ea + 1074)) by (apply Z.pow_pos_nonneg; lia).
  assert (0 < 2 ^ (eb + 1074)) by (apply Z.pow_pos_nonneg; lia).
  destruct (Z.lt_trichotomy ea eb) as [Hlt | [Heq | Hgt]].
  - pose proof (Hstep ea eb ltac:(lia) Hlt). nia.
  - subst eb. assert (Zpos ma = Zpos mb) by nia. congruence.
  - pose proof (Hstep eb ea ltac:(lia) Hgt). nia.
Qed.

Lemma min2_of_le lo hi a b :
  normal_in lo hi a -> normal_in lo hi b -> -1074 <= lo ->
  scaled a <= scaled b -> Py.min2 a b = a.
Proof.
  intros Ha Hb Hlo Hle.
  destruct (min2_normal lo hi a b Ha Hb Hlo) as (_ & La & _).
  unfold Py.min2 in *. destruct (SFltb b a); [|reflexivity].
  apply (normal_scaled_inj lo hi lo hi); auto. lia.
Qed.

Lemma min2_of_ge lo hi a b :
  normal_in lo hi a -> normal_in lo hi b -> -1074 <= lo ->
  scaled b <= scaled a -> Py.min2 a b = b.
Proof.
  intros Ha Hb Hlo Hle.
  destruct (min2_normal lo hi a b Ha Hb Hlo) as (_ & _ & Lb).
  unfold Py.min2 in *. destruct (SFltb b a); [reflexivity|].
  apply (normal_scaled_inj lo hi lo hi); auto. lia.
Qed.

(** A float within a factor [1 +- 2^-53] of one is at least one, and
    is one when the bound holds on both sides. *)
Lemma normal_at_least_one lo hi f :
  normal_in lo hi f -> -1074 <= lo ->
  2 ^ 53 * 2 ^ 1074 <= (2 ^ 53 + 1) * scaled f ->
  2 ^ 1074 <= scaled f.
Proof.
  intros (m & e & -> & Hm & He) Hlo. cbn [scaled]. intros Hb.
  destruct (Z.le_gt_cases (-52) e) as [Hge | Hlt].
  - assert (2 ^ 1022 <= 2 ^ (e + 1074)) by (apply Z.pow_le_mono_r; lia).
    change (2 ^ 1074) with (2 ^ 52 * 2 ^ 1022). nia.
  - exfalso.
    assert (2 ^ (e + 1074) <= 2 ^ 1021) by (apply Z.pow_le_mono_r; lia).
    assert (0 < 2 ^ (e + 1074)) by (apply Z.pow_pos_nonneg; lia).
    change (2 ^ 1074) with (2 ^ 53 * 2 ^ 1021) in Hb.
    assert (0 < 2 ^ 1021) by (apply Z.pow_pos_nonneg; lia).
    set (P := 2 ^ 1021) in *. set (U := 2 ^ (e + 1074)) in *. clearbody P U.
    change (2 ^ 53) with 9007199254740992 in *.
    assert (Zpos m * U <= (9007199254740992 - 1) * P) by nia.
    nia.
Qed.

Lemma normal_near_one lo hi f :
  normal_in lo hi f -> -1074 <= lo ->
  (2 ^ 53 - 1) * scaled f <= 2 ^ 53 * 2 ^ 1074 ->
  2 ^ 53 * 2 ^ 1074 <= (2 ^ 53 + 1) * scaled f ->
  f = one.
Proof.
  intros Hn Hlo Hup Hdown.
  pose proof (normal_at_least_one lo hi f Hn Hlo Hdown) as Hge.
  destruct Hn as (m & e & -> & Hm & He). cbn [scaled] in *.
  assert (He52 : e = -52).
  { destruct (Z.lt_trichotomy e (-52)) as [Hlt | [Heq | Hgt]]; [exfalso | assumption | exfalso].
    - assert (2 ^ (e + 1074) <= 2 ^ 1021) by (apply Z.pow_le_mono_r; lia).
      assert (0 < 2 ^ 1021) by (apply Z.pow_pos_nonneg; lia).
      change (2 ^ 1074) with (2 ^ 53 * 2 ^ 1021) in Hge. nia.
    - assert (2 ^ 1023 <= 2 ^ (e + 1074)) by (apply Z.pow_le_mono_r; lia).
      assert (0 < 2 ^ 1023) by (apply Z.pow_pos_nonneg; lia).
      change (2 ^ 1074) with (2 ^ 51 * 2 ^ 1023) in Hup.
      set (P := 2 ^ 1023) in *. set (U := 2 ^ (e + 1074)) in *. clearbody P U.
      change (2 ^ 53) with 9007199254740992 in *.
      change (2 ^ 52) with 4503599627370496 in *.
      change (2 ^ 51) with 2251799813685248 in *.
      assert (4503599627370496 * P <= Zpos m * U) by nia.
      nia. }
  subst e. change (-52 + 1074) with 1022 in *.
  assert (0 < 2 ^ 1022) by (apply Z.pow_pos_nonneg; lia).
  change (2 ^ 1074) with (2 ^ 52 * 2 ^ 1022) in *.
  set (P := 2 ^ 1022) in *. clearbody P.
  change (2 ^ 53) with 9007199254740992 in *.
  change (2 ^ 52) with 4503599627370496 in *.
  assert (Zpos m = 4503599627370496) by nia.
  unfold one. congruence.
Qed.

(** [W / W] is 1.0. *)
Lemma int_truediv_self W :
  0 < W < 2 ^ 52 -> Py.int_truediv W W = Ok one.
Proof.
  intros HW.
  destruct (int_truediv_pos W W HW HW) as (f & E & N & Hup & Hdown).
  rewrite E. f_equal.
  apply (normal_near_one _ _ f N ltac:(lia)).
  - assert (0 < 2 ^ 1074) by (apply Z.pow_pos_nonneg; lia).
    set (K := 2 ^ 1074) in *. clearbody K. nia.
  - assert (0 < 2 ^ 1074) by (apply Z.pow_pos_nonneg; lia).
    set (K := 2 ^ 1074) in *. clearbody K. nia.
Qed.

(** [H / h] is at least 1.0 when [h <= H]. *)
Lemma int_truediv_at_least_one H h :
  0 < h <= H -> H < 2 ^ 52 ->
  exists f, Py.int_truediv H h = Ok f /\ normal_in (-104) 0 f /\
            scaled one <= scaled f.
Proof.
  intros Hh HH.
  destruct (int_truediv_pos H h ltac:(lia) ltac:(lia)) as (f & E & N & _ & Hdown).
  exists f. split; [exact E|]. split; [exact N|].
  change (scaled one) with (2 ^ 1074).
  apply (normal_at_least_one _ _ f N ltac:(lia)).
  assert (0 < 2 ^ 1074) by (apply Z.pow_pos_nonneg; lia).
  pose proof (scaled_normal _ _ f N ltac:(lia)).
  set (K := 2 ^ 1074) in *. clearbody K.
  set (S := scaled f) in *. clearbody S.
  change (2 ^ 53) with 9007199254740992 in *. nia.
Qed.

(** Multiplying by 1.0 changes nothing: [int(dim * 1.0)] is [dim]. *)
Lemma int_mul_float_one dim :
  0 < dim < 2 ^ 53 ->
  exists f, Py.int_mul_float dim one = Ok f /\ Py.int_of_float f = Ok dim.
Proof.
  intros Hdim.
  destruct (float_of_int_pos dim Hdim) as (fz & Hfz & Hnz & Hvz).
  destruct Hnz as (mz & ez & -> & Hmz & Hez).
  pose proof (represents_exact (Zpos (mz * 4503599627370496)) ltac:(lia)) as Hrep.
  assert (Hprod : 2 ^ 104 <= Zpos (mz * 4503599627370496) < 2 ^ 105).
  { rewrite Pos2Z.inj_mul.
    change (2 ^ 104) with (2 ^ 52 * 4503599627370496).
    change (2 ^ 105) with (2 ^ 53 * 4503599627370496). lia. }
  assert (Hdig : Zdigits2 (Zpos (mz * 4503599627370496)) = 105).
  { apply Zdigits2_unique; [lia|]. change (105 - 1) with 104. exact Hprod. }
  destruct (round_scaled _ (ez + -52) _ _ _ Hrep ltac:(lia) ltac:(lia) ltac:(lia))
    as (f & rv & Hres & Hnorm & Hsc & Hrv & Hup & Hdown).
  rewrite Hdig in *.
  replace (ez + -52 + (105 - 53) + 1074) with (ez + 1074) in * by lia.
  assert (HU : 0 < 2 ^ (ez + -52 + 1074)) by (apply Z.pow_pos_nonneg; lia).
  assert (EU : 2 ^ (ez + 1074) = 4503599627370496 * 2 ^ (ez + -52 + 1074)).
  { change 4503599627370496 with (2 ^ 52). rewrite <- Z.pow_add_r by lia.
    f_equal. lia. }
  assert (Hval : scaled f = dim * 2 ^ 1074).
  { rewrite <- Hvz. cbn [scaled]. rewrite Hsc. f_equal.
    rewrite Hsc, Pos2Z.inj_mul, EU in Hup, Hdown.
    set (U := 2 ^ (ez + -52 + 1074)) in *. clearbody U. nia. }
  exists f. split.
  - unfold Py.int_mul_float. rewrite Hfz. cbn [rbind]. unfold one, Py.prec, Py.emax.
    cbn [SFmul xorb]. now rewrite Hres.
  - assert (Hnorm' : normal_in (-104) 53 f).
    { destruct Hnorm as (m & e & E & Hm & He). exists m, e. split; [exact E | lia]. }
    destruct (int_of_float_normal _ _ f Hnorm' ltac:(lia)) as (t & Ht & Hlo & Hhi).
    rewrite Ht. f_equal. rewrite Hval in *.
    assert (HK : 0 < 2 ^ 1074) by (apply Z.pow_pos_nonneg; lia).
    set (K := 2 ^ 1074) in *. clearbody K. nia.
Qed.

(** The scale is exactly 1.0 when the bitmap matches the paper in one
    dimension and does not exceed it in the other. *)
Lemma fit_dib_at_scale_one printer dib :
  0 < paper_width printer < 2 ^ 51 -> 0 < paper_height printer < 2 ^ 51 ->
  0 < fst (size dib) -> 0 < snd (size dib) ->
  (fst (size dib) = paper_width printer /\ snd (size dib) <= paper_height printer) \/
  (snd (size dib) = paper_height printer /\ fst (size dib) <= paper_width printer) ->
  Page.fit_dib printer dib =
  Ok ((paper_width printer - fst (size dib)) / 2,
      (paper_height printer - snd (size dib)) / 2,
      (paper_width printer - fst (size dib)) / 2 + fst (size dib),
      (paper_height printer - snd (size dib)) / 2 + snd (size dib)).
Proof.
  set (W := paper_width printer). set (H := paper_height printer).
  set (w := fst (size dib)). set (h := snd (size dib)).
  intros HW HH Hw Hh Hcase.
  assert (None1 : normal_in (-104) 0 one).
  { exists 4503599627370496%positive, (-52). split; [reflexivity|].
    change (2 ^ 52) with 4503599627370496. change (2 ^ 53) with 9007199254740992. lia. }
  assert (Hscale : exists sx sy,
             Py.int_truediv W w = Ok sx /\ Py.int_truediv H h = Ok sy /\
             Py.min2 sx sy = one).
  { destruct Hcase as [(Ew & Hle) | (Eh & Hle)].
    - rewrite Ew.
      destruct (int_truediv_at_least_one H h ltac:(lia) ltac:(lia)) as (sy & Esy & Nsy & Hge).
      exists one, sy. split; [apply int_truediv_self; lia|]. split; [exact Esy|].
      apply (min2_of_le (-104) 0); auto. lia.
    - rewrite Eh.
      destruct (int_truediv_at_least_one W w ltac:(lia) ltac:(lia)) as (sx & Esx & Nsx & Hge).
      exists sx, one. split; [exact Esx|]. split; [apply int_truediv_self; lia|].
      apply (min2_of_ge (-104) 0); auto. lia. }
  destruct Hscale as (sx & sy & Esx & Esy & Emin).
  destruct (int_mul_float_one w ltac:(destruct Hcase; lia)) as (fw & Efw & Etw).
  destruct (int_mul_float_one h ltac:(destruct Hcase; lia)) as (fh & Efh & Eth).
  destruct (int_truediv_half (W - w) ltac:(destruct Hcase; lia)) as (hx & Ehx & Ex1).
  destruct (int_truediv_half (H - h) ltac:(destruct Hcase; lia)) as (hy & Ehy & Ey1).
  unfold Page.fit_dib. fold W H w h.
  rewrite Esx, Esy. cbn [rbind]. rewrite Emin.
  rewrite Efw. cbn [rbind]. rewrite Etw. cbn [rbind].
  rewrite Efh. cbn [rbind]. rewrite Eth. cbn [rbind].
  rewrite Ehx. cbn [rbind]. rewrite Ex1. cbn [rbind].
  rewrite Ehy. cbn [rbind]. rewrite Ey1. cbn [rbind].
  reflexivity.
Qed.

(** X4: In range, a bitmap that matches the paper in one dimension and
    does not exceed it in the other is not scaled at all: it keeps its
    size and is centred.  In particular a bitmap of the paper's size
    covers the paper. *)
Theorem fit_dib_unscaled printer dib :
  0 < paper_width printer < 2 ^ 51 -> 0 < paper_height printer < 2 ^ 51 ->
  0 < fst (size dib) -> 0 < snd (size dib) ->
  (fst (size dib) = paper_width printer /\ snd (size dib) <= paper_height printer) \/
  (snd (size dib) = paper_height printer /\ fst (size dib) <= paper_width printer) ->
  Page.fit_dib printer dib =
  Ok ((paper_width printer - fst (size dib)) / 2,
      (paper_height printer - snd (size dib)) / 2,
      (paper_width printer - fst (size dib)) / 2 + fst (size dib),
      (paper_height printer - snd (size dib)) / 2 + snd (size dib)).
Proof. exact (fit_dib_at_scale_one printer dib). Qed.

Lemma fit_dib_unscaled_witness :
  Page.fit_dib (paper 4961 7016) (bitmap 4961 858) =
  Ok ((4961 - 4961) / 2, (7016 - 858) / 2,
      (4961 - 4961) / 2 + 4961, (7016 - 858) / 2 + 858).
Proof.
  apply (fit_dib_unscaled (paper 4961 7016) (bitmap 4961 858)); cbn; lia.
Defined.

(** X5: Fitting again is stable once a fit spans the paper in one
    dimension: in range, if the fitted rectangle is as wide or as tall
    as the paper (and not empty), a bitmap of its size is fitted to the
    same rectangle. *)
Theorem refit_stable_when_spanning printer dib x1 y1 x2 y2 :
  0 < paper_width printer < 2 ^ 51 -> 0 < paper_height printer < 2 ^ 51 ->
  0 < fst (size dib) < 2 ^ 51 -> 0 < snd (size dib) < 2 ^ 51 ->
  Page.fit_dib printer dib = Ok (x1, y1, x2, y2) ->
  0 < x2 - x1 -> 0 < y2 - y1 ->
  x2 - x1 = paper_width printer \/ y2 - y1 = paper_height printer ->
  Fit.refit printer (x1, y1, x2, y2) = Ok (x1, y1, x2, y2).
Proof.
  intros HW HH Hw Hh Hfit Hpw Hph Hspan.
  destruct (fit_dib_in_range printer dib HW HH Hw Hh) as (E & B).
  unfold Fit.truncated in *. cbv zeta in *.
  set (scale := Fit.scale _ _ _ _) in *.
  set (sw := Fit.truncate (Fit.product (fst (size dib)) scale)) in *.
  set (sh := Fit.truncate (Fit.product (snd (size dib)) scale)) in *.
  clearbody sw sh. unfold Fit.within in B. cbv beta iota zeta in B.
  rewrite Hfit in E. injection E as Ex1 Ey1 Ex2 Ey2.
  assert (Hsw : x2 - x1 = sw) by lia. assert (Hsh : y2 - y1 = sh) by lia.
  unfold Fit.refit. rewrite Hsw, Hsh.
  assert (Hdw : 0 <= paper_width printer - sw) by lia.
  assert (Hdh : 0 <= paper_height printer - sh) by lia.
  rewrite Z.quot_div_nonneg in Ex1, Ey1, Ex2, Ey2 by lia.
  rewrite (fit_dib_at_scale_one printer
             (mkDib (mkImage RGB (sw, sh) 0 ([], 0%nat)))); cbn [size dib_image im_size fst snd];
    try lia.
  congruence.
Qed.

Lemma refit_stable_when_spanning_witness :
  Fit.refit (paper 4961 7016) (0, 3079, 4961, 3937) = Ok (0, 3079, 4961, 3937).
Proof.
  apply (refit_stable_when_spanning (paper 4961 7016) (bitmap 4960 858));
    try (cbn; lia); try (vm_compute; reflexivity).
Defined.

(** One scaled dimension against the exact product [dim * scale]. *)
Lemma scaled_dim_bracket dim scale f t :
  0 < dim < 2 ^ 51 -> normal_in (-104) 0 scale ->
  Py.int_mul_float dim scale = Ok f -> Py.int_of_float f = Ok t ->
  (2 ^ 53 - 1) * (t * 2 ^ 1074) <= 2 ^ 53 * (dim * scaled scale) /\
  2 ^ 53 * (dim * scaled scale) < (2 ^ 53 + 1) * ((t + 1) * 2 ^ 1074).
Proof.
  intros Hdim Hscale Ef Et.
  destruct (float_of_int_pos dim ltac:(lia)) as (fz & Hfz & Hnz & Hvz).
  destruct (SFmul_normal_in _ _ _ _ fz scale Hnz Hscale
              ltac:(lia) ltac:(lia) ltac:(lia) ltac:(lia))
    as (g & Hmul & Hng & Hup & Hdown).
  assert (Eg : f = g).
  { unfold Py.int_mul_float in Ef. rewrite Hfz in Ef. cbn [rbind] in Ef.
    unfold Py.prec, Py.emax in Ef. congruence. }
  clear Hmul. subst g.
  destruct (int_of_float_normal _ _ f Hng ltac:(lia)) as (t' & Ht' & Hlo & Hhi).
  assert (t' = t) by congruence. subst t'.
  rewrite Hvz in Hup, Hdown.
  assert (HK : 0 < 2 ^ 1074) by (apply Z.pow_pos_nonneg; lia).
  set (K := 2 ^ 1074) in *. clearbody K.
  set (S := scaled scale) in *. clearbody S.
  set (F := scaled f) in *. clearbody F.
  change (2 ^ 53) with 9007199254740992 in *.
  assert (H1 : (9007199254740992 - 1) * F <= 9007199254740992 * (dim * S)) by nia.
  assert (H2 : 9007199254740992 * (dim * S) <= (9007199254740992 + 1) * F) by nia.
  split; nia.
Qed.

Lemma aspect_step tw th w h S K H :
  0 < K -> 0 < w < 2 ^ 26 -> 0 < h -> 0 < H < 2 ^ 26 -> 0 <= S -> 0 <= tw -> 0 <= th ->
  (2 ^ 53 - 1) * (tw * K) <= 2 ^ 53 * (w * S) ->
  2 ^ 53 * (h * S) < (2 ^ 53 + 1) * ((th + 1) * K) ->
  (2 ^ 53 - 1) * (S * h) <= 2 ^ 53 * (H * K) ->
  tw * h <= (th + 1) * w.
Proof.
  intros HK Hw Hh HH HS Htw Hth B1 B2 B3.
  change (2 ^ 53) with 9007199254740992 in *.
  change (2 ^ 26) with 67108864 in *.
  set (A := 9007199254740992) in *.
  assert (HA : A = 9007199254740992) by reflexivity. clearbody A.
  set (P := w * h * S).
  assert (E1 : (A - 1) * (tw * h * K) <= A * P).
  { subst P. replace ((A - 1) * (tw * h * K)) with (((A - 1) * (tw * K)) * h) by ring.
    replace (A * (w * h * S)) with ((A * (w * S)) * h) by ring.
    apply Z.mul_le_mono_nonneg_r; lia. }
  assert (E2 : A * P < (A + 1) * ((th + 1) * w * K)).
  { subst P. replace (A * (w * h * S)) with ((A * (h * S)) * w) by ring.
    replace ((A + 1) * ((th + 1) * w * K)) with (((A + 1) * ((th + 1) * K)) * w) by ring.
    apply Z.mul_lt_mono_pos_r; lia. }
  assert (E3 : (A - 1) * P <= A * (w * H * K)).
  { subst P. replace ((A - 1) * (w * h * S)) with (((A - 1) * (S * h)) * w) by ring.
    replace (A * (w * H * K)) with ((A * (H * K)) * w) by ring.
    apply Z.mul_le_mono_nonneg_r; lia. }
  assert (HwH : w * H <= 67108863 * 67108863) by nia.
  destruct (Z.le_gt_cases (tw * h) ((th + 1) * w)) as [|Hgt]; [assumption|exfalso].
  assert (HX : (th + 1) * w * K + K <= tw * h * K) by nia.
  clearbody P.
  set (X := tw * h * K) in *. set (Y := (th + 1) * w * K) in *.
  set (Z0 := w * H * K) in *.
  assert (HZ : Z0 <= 67108863 * 67108863 * K) by (subst Z0; nia).
  clearbody X Y Z0.
  (* (A-1)(A+1)(A-1) X <= A (A+1)(A-1) P, A(A-1)(A-1)P < (A+1)(A-1)(A-1) Y,
     2A(A-1) P <= 2A A Z0 *)
  subst A. lia.
Qed.

(** X6: In range (sizes below [2^26]), the rectangle keeps the bitmap's
    proportions up to one unit in each dimension: its width is at most
    one unit more than what its height calls for, and its height at most one
    unit more than what its width calls for. *)
Theorem fit_dib_keeps_proportions printer dib :
  0 < paper_width printer < 2 ^ 26 -> 0 < paper_height printer < 2 ^ 26 ->
  0 < fst (size dib) < 2 ^ 26 -> 0 < snd (size dib) < 2 ^ 26 ->
  exists x1 y1 x2 y2,
    Page.fit_dib printer dib = Ok (x1, y1, x2, y2) /\
    (x2 - x1) * snd (size dib) <= (y2 - y1 + 1) * fst (size dib) /\
    (y2 - y1) * fst (size dib) <= (x2 - x1 + 1) * snd (size dib).
Proof.
  set (W := paper_width printer). set (H := paper_height printer).
  set (w := fst (size dib)). set (h := snd (size dib)).
  intros HW HH Hw Hh.
  assert (H26 : 2 ^ 26 < 2 ^ 51) by (vm_compute; reflexivity).
  destruct (int_truediv_pos W w ltac:(lia) ltac:(lia)) as (sx & Esx & Nsx & Bsx & _).
  destruct (int_truediv_pos H h ltac:(lia) ltac:(lia)) as (sy & Esy & Nsy & Bsy & _).
  destruct (min2_normal _ _ sx sy Nsx Nsy ltac:(lia)) as (Nmin & Lex & Ley).
  set (s := Py.min2 sx sy) in *.
  assert (Bw : (2 ^ 53 - 1) * (scaled s * w) <= 2 ^ 53 * (W * 2 ^ 1074)) by nia.
  assert (Bh : (2 ^ 53 - 1) * (scaled s * h) <= 2 ^ 53 * (H * 2 ^ 1074)) by nia.
  destruct (scaled_dim_within w W s ltac:(lia) ltac:(lia) Nmin Bw)
    as (fw & tw & Efw & Etw & Rw).
  destruct (scaled_dim_within h H s ltac:(lia) ltac:(lia) Nmin Bh)
    as (fh & th & Efh & Eth & Rh).
  destruct (scaled_dim_bracket w s fw tw ltac:(lia) Nmin Efw Etw) as (Lw & Uw).
  destruct (scaled_dim_bracket h s fh th ltac:(lia) Nmin Efh Eth) as (Lh & Uh).
  destruct (int_truediv_half (W - tw) ltac:(lia)) as (hx & Ehx & Ex1).
  destruct (int_truediv_half (H - th) ltac:(lia)) as (hy & Ehy & Ey1).
  exists ((W - tw) / 2), ((H - th) / 2), ((W - tw) / 2 + tw), ((H - th) / 2 + th).
  split.
  - unfold Page.fit_dib. fold W H w h.
    rewrite Esx, Esy. cbn [rbind]. fold s.
    rewrite Efw. cbn [rbind]. rewrite Etw. cbn [rbind].
    rewrite Efh. cbn [rbind]. rewrite Eth. cbn [rbind].
    rewrite Ehx. cbn [rbind]. rewrite Ex1. cbn [rbind].
    rewrite Ehy. cbn [rbind]. rewrite Ey1. cbn [rbind].
    reflexivity.
  - assert (HK : 0 < 2 ^ 1074) by (apply Z.pow_pos_nonneg; lia).
    pose proof (scaled_normal _ _ s Nmin ltac:(lia)) as HS.
    replace ((W - tw) / 2 + tw - (W - tw) / 2) with tw by lia.
    replace ((H - th) / 2 + th - (H - th) / 2) with th by lia.
    split.
    + apply (aspect_step tw th w h (scaled s) (2 ^ 1074) H); try lia.
    + apply (aspect_step th tw h w (scaled s) (2 ^ 1074) W); try lia.
Qed.

Lemma fit_dib_keeps_proportions_witness :
  exists x1 y1 x2 y2,
    Page.fit_dib (paper 4961 7016) (bitmap 4843 838) = Ok (x1, y1, x2, y2) /\
    (x2 - x1) * 838 <= (y2 - y1 + 1) * 4843 /\
    (y2 - y1) * 4843 <= (x2 - x1 + 1) * 838.
Proof.
  apply (fit_dib_keeps_proportions (paper 4961 7016) (bitmap 4843 838)); cbn; lia.
Defined.

Lemma sliver_step t dim other extent S K :
  0 < K -> 0 < dim -> 0 < other < 2 ^ 51 -> 0 < extent -> 0 <= S -> 0 <= t ->
  extent * dim < other ->
  (2 ^ 53 - 1) * (t * K) <= 2 ^ 53 * (dim * S) ->
  (2 ^ 53 - 1) * (S * other) <= 2 ^ 53 * (extent * K) ->
  t = 0.
Proof.
  intros HK Hdim Hother Hext HS Ht Hthin B1 B2.
  change (2 ^ 53) with 9007199254740992 in *.
  change (2 ^ 51) with 2251799813685248 in *.
  set (A := 9007199254740992) in *.
  assert (HA : A = 9007199254740992) by reflexivity. clearbody A.
  destruct (Z.eq_dec t 0) as [|Hne]; [assumption|exfalso].
  assert (Ht1 : 1 <= t) by lia.
  set (P := dim * other * S).
  assert (E1 : (A - 1) * (t * other * K) <= A * P).
  { subst P. replace ((A - 1) * (t * other * K)) with (((A - 1) * (t * K)) * other) by ring.
    replace (A * (dim * other * S)) with ((A * (dim * S)) * other) by ring.
    apply Z.mul_le_mono_nonneg_r; lia. }
  assert (E3 : (A - 1) * P <= A * (dim * extent * K)).
  { subst P. replace ((A - 1) * (dim * other * S)) with (((A - 1) * (S * other)) * dim) by ring.
    replace (A * (dim * extent * K)) with ((A * (extent * K)) * dim) by ring.
    apply Z.mul_le_mono_nonneg_r; lia. }
  assert (E4 : dim * extent * K <= (other - 1) * K) by nia.
  assert (E5 : other * K <= t * other * K) by nia.
  assert (E6 : other * K < 2251799813685248 * K) by nia.
  clearbody P.
  set (X := t * other * K) in *. set (Y := dim * extent * K) in *.
  set (O := other * K) in *.
  replace ((other - 1) * K) with (O - K) in E4 by (subst O; ring).
  clearbody X Y O. subst A. lia.
Qed.

(** X7: A bitmap too thin for the paper is fitted to an empty rectangle: in
    range, when the bitmap is more than [H] times as tall as wide the
    rectangle has no width, and when it is more than [W] times as wide
    as tall the rectangle has no height. *)
Theorem fit_dib_sliver printer dib :
  0 < paper_width printer < 2 ^ 51 -> 0 < paper_height printer < 2 ^ 51 ->
  0 < fst (size dib) < 2 ^ 51 -> 0 < snd (size dib) < 2 ^ 51 ->
  exists x1 y1 x2 y2,
    Page.fit_dib printer dib = Ok (x1, y1, x2, y2) /\
    (paper_height printer * fst (size dib) < snd (size dib) -> x2 = x1) /\
    (paper_width printer * snd (size dib) < fst (size dib) -> y2 = y1).
Proof.
  set (W := paper_width printer). set (H := paper_height printer).
  set (w := fst (size dib)). set (h := snd (size dib)).
  intros HW HH Hw Hh.
  destruct (int_truediv_pos W w ltac:(lia) ltac:(lia)) as (sx & Esx & Nsx & Bsx & _).
  destruct (int_truediv_pos H h ltac:(lia) ltac:(lia)) as (sy & Esy & Nsy & Bsy & _).
  destruct (min2_normal _ _ sx sy Nsx Nsy ltac:(lia)) as (Nmin & Lex & Ley).
  set (s := Py.min2 sx sy) in *.
  assert (Bw : (2 ^ 53 - 1) * (scaled s * w) <= 2 ^ 53 * (W * 2 ^ 1074)) by nia.
  assert (Bh : (2 ^ 53 - 1) * (scaled s * h) <= 2 ^ 53 * (H * 2 ^ 1074)) by nia.
  destruct (scaled_dim_within w W s Hw HW Nmin Bw) as (fw & tw & Efw & Etw & Rw).
  destruct (scaled_dim_within h H s Hh HH Nmin Bh) as (fh & th & Efh & Eth & Rh).
  destruct (scaled_dim_bracket w s fw tw Hw Nmin Efw Etw) as (Lw & _).
  destruct (scaled_dim_bracket h s fh th Hh Nmin Efh Eth) as (Lh & _).
  destruct (int_truediv_half (W - tw) ltac:(lia)) as (hx & Ehx & Ex1).
  destruct (int_truediv_half (H - th) ltac:(lia)) as (hy & Ehy & Ey1).
  exists ((W - tw) / 2), ((H - th) / 2), ((W - tw) / 2 + tw), ((H - th) / 2 + th).
  assert (HK : 0 < 2 ^ 1074) by (apply Z.pow_pos_nonneg; lia).
  pose proof (scaled_normal _ _ s Nmin ltac:(lia)) as HS.
  split; [|split].
  - unfold Page.fit_dib. fold W H w h.
    rewrite Esx, Esy. cbn [rbind]. fold s.
    rewrite Efw. cbn [rbind]. rewrite Etw. cbn [rbind].
    rewrite Efh. cbn [rbind]. rewrite Eth. cbn [rbind].
    rewrite Ehx. cbn [rbind]. rewrite Ex1. cbn [rbind].
    rewrite Ehy. cbn [rbind]. rewrite Ey1. cbn [rbind].
    reflexivity.
  - intros Hthin.
    rewrite (sliver_step tw w h H (scaled s) (2 ^ 1074)); try lia.
  - intros Hthin.
    rewrite (sliver_step th h w W (scaled s) (2 ^ 1074)); try lia.
Qed.

Lemma fit_dib_sliver_witness :
  exists x1 y1 x2 y2,
    Page.fit_dib (paper 100 100) (bitmap 1 10000) = Ok (x1, y1, x2, y2) /\
    (100 * 1 < 10000 -> x2 = x1) /\ (100 * 10000 < 1 -> y2 = y1).
Proof.
  apply (fit_dib_sliver (paper 100 100) (bitmap 1 10000)); cbn; lia.
Defined.

(** ** More on pages and documents *)

Lemma dibs_of_all w pages :
  (forall image, Dib_raises w image = None) ->
  dibs_of w pages = Ok (map mkDib pages).
Proof.
  intros Hdib. induction pages as [|page rest IH]; cbn [dibs_of map]; [reflexivity|].
  unfold Dib_new. rewrite Hdib, IH. reflexivity.
Qed.

(** One page when nothing raises. *)
Lemma page_drawn w doc image s :
  calm w ->
  (exists rect, Page.fit_dib (printer doc) (mkDib image) = Ok rect) ->
  with_ (Page.enter w (mkPage doc)) (Page.exit w)
        (fun page => Page.send w page (mkDib image)) s =
  (mkState (trace s ++ drawn_page (printer doc) image) (stdin s), Ok tt).
Proof.
  intros Hcalm (rect & Hfit).
  unfold Page.enter, Page.exit. rewrite with_call_brackets, Hcalm.
  unfold Page.send, bind, lift, do_call. cbn [document trace stdin].
  unfold drawn_page, rect_of. rewrite Hfit, !Hcalm. cbn [trace stdin].
  rewrite <- !app_assoc. reflexivity.
Qed.

Lemma document_send_drawn w doc pages :
  calm w ->
  Forall (fun page => exists rect, Page.fit_dib (printer doc) (mkDib page) = Ok rect) pages ->
  forall s,
    Document.send w doc (map inr (map mkDib pages)) s =
    (mkState (trace s ++ flat_map (drawn_page (printer doc)) pages) (stdin s), Ok tt).
Proof.
  intros Hcalm Hfit. unfold Document.send.
  induction Hfit as [|page rest Hpage Hrest IH]; intros s; cbn [map for_each flat_map].
  - unfold ret. rewrite app_nil_r. now destruct s.
  - unfold bind at 1. unfold bind at 1. unfold ret at 1.
    rewrite page_drawn by assumption. rewrite IH. cbn [trace stdin].
    now rewrite <- app_assoc.
Qed.

(** X8: A bitmap that cannot be fitted is never drawn: its page is started
    and ended with nothing on it, the error of the fitter (or the one
    of [EndPage], if that raises too) comes out of [Document.send] and
    the items after it are not looked at. *)
Theorem unfittable_page_left_blank w doc dib rest e s :
  Page.fit_dib (printer doc) dib = Raise e ->
  raises w (trace s) StartPage = None ->
  Document.send w doc (inr dib :: rest) s =
  (mkState (trace s ++ [StartPage; EndPage]) (stdin s),
   match raises w (trace s ++ [StartPage]) EndPage with
   | Some e' => Raise e'
   | None => Raise e
   end).
Proof.
  intros Hfit Hstart. unfold Document.send. cbn [for_each].
  unfold bind at 1. unfold bind at 1. unfold ret at 1.
  unfold Page.enter, Page.exit. rewrite with_call_brackets, Hstart.
  unfold Page.send, bind, lift. cbn [document trace stdin].
  rewrite Hfit. cbn [trace stdin]. rewrite <- app_assoc. cbn [app].
  destruct (raises w (trace s ++ [StartPage]) EndPage); reflexivity.
Qed.

Lemma unfittable_page_left_blank_witness :
  Document.send quiet (mkDocument (paper 4961 7016) "scan.png")
                [inr (bitmap 0 100); inr (bitmap 100 100)] (mkState [] []) =
  (mkState [StartPage; EndPage] [], Raise ZeroDivisionError).
Proof.
  apply (unfittable_page_left_blank quiet (mkDocument (paper 4961 7016) "scan.png")
           (bitmap 0 100) [inr (bitmap 100 100)] ZeroDivisionError (mkState [] []));
    reflexivity.
Defined.

(** X9: A PDF whose pages all decode and fit, on a device where nothing
    raises: the document is started, every page is started, drawn once
    into its own rectangle and ended, in the order of the pages, and the
    document is ended; nothing else is called. *)
Theorem pdf_pages_in_order w self path pages s :
  calm w ->
  (forall image, Dib_raises w image = None) ->
  Pathlib.suffix path = ".pdf" ->
  convert_from_path w path = Ok pages ->
  Forall (fun page => exists rect, Page.fit_dib self (mkDib page) = Ok rect) pages ->
  Printer.device_print w self path s =
  (mkState (trace s ++ StartDoc (Pathlib.name path) ::
            flat_map (drawn_page self) pages ++ [EndDoc]) (stdin s),
   Ok tt).
Proof.
  intros Hcalm Hdib Hsuffix Hpages Hfit.
  unfold Printer.device_print, Document.enter, Document.exit.
  cbn [document_name]. rewrite with_call_brackets, Hcalm.
  unfold Printer.device_print_body. rewrite Hsuffix. cbn [String.eqb Ascii.eqb Bool.eqb].
  unfold bind, lift. rewrite Hpages, dibs_of_all by assumption.
  rewrite document_send_drawn by assumption.
  cbn [trace stdin printer]. rewrite Hcalm, <- !app_assoc. reflexivity.
Qed.

Lemma pdf_pages_in_order_witness :
  Printer.device_print (with_pdf [(100, 200); (200, 100)] quiet) (paper 1000 2000)
                       ["report.pdf"] (mkState [] []) =
  (mkState ([] ++ StartDoc "report.pdf" ::
            flat_map (drawn_page (paper 1000 2000))
              [mkImage RGB (100, 200) 0 (["report.pdf"], 0%nat);
               mkImage RGB (200, 100) 0 (["report.pdf"], 1%nat)] ++ [EndDoc]) [],
   Ok tt).
Proof.
  apply (pdf_pages_in_order (with_pdf [(100, 200); (200, 100)] quiet) (paper 1000 2000)
           ["report.pdf"]
           [mkImage RGB (100, 200) 0 (["report.pdf"], 0%nat);
            mkImage RGB (200, 100) 0 (["report.pdf"], 1%nat)] (mkState [] [])).
  - intros before c. reflexivity.
  - intros image. reflexivity.
  - reflexivity.
  - reflexivity.
  - repeat constructor; eexists; vm_compute; reflexivity.
Defined.

(** X10: A file that cannot be decoded (the PDF does not rasterize, the image
    does not open) still costs an empty print job: the document is
    started and ended with no page in it, and the decoder's error comes
    out, unless [EndDoc] raises one of its own. *)
Theorem undecodable_file_empty_job w self path e s :
  (if String.eqb (Pathlib.suffix path) ".pdf"
   then convert_from_path w path = Raise e
   else Image_open w path = Raise e) ->
  raises w (trace s) (StartDoc (Pathlib.name path)) = None ->
  Printer.device_print w self path s =
  (mkState (trace s ++ [StartDoc (Pathlib.name path); EndDoc]) (stdin s),
   match raises w (trace s ++ [StartDoc (Pathlib.name path)]) EndDoc with
   | Some e' => Raise e'
   | None => Raise e
   end).
Proof.
  intros Hdecode Hstart.
  unfold Printer.device_print, Document.enter, Document.exit.
  cbn [document_name]. rewrite with_call_brackets, Hstart.
  unfold Printer.device_print_body.
  destruct (String.eqb (Pathlib.suffix path) ".pdf").
  - unfold bind, lift. rewrite Hdecode. cbn [trace stdin].
    rewrite <- app_assoc. reflexivity.
  - unfold Document.send. cbn [for_each]. unfold bind, lift, Page.get_dib.
    rewrite Hdecode. cbn [rbind trace stdin]. rewrite <- app_assoc. reflexivity.
Qed.

Lemma undecodable_file_empty_job_witness :
  Printer.device_print quiet (paper 4961 7016) ["missing.png"] (mkState [] []) =
  (mkState [StartDoc "missing.png"; EndDoc] [], Raise (OSError "no such file")).
Proof.
  apply (undecodable_file_empty_job quiet (paper 4961 7016) ["missing.png"]
           (OSError "no such file") (mkState [] []));
    reflexivity.
Defined.

Lemma dibs_of_bad_page w pages page e0 :
  In page pages -> Dib_raises w page = Some e0 -> exists e, dibs_of w pages = Raise e.
Proof.
  intros Hin Hbad. induction pages as [|p rest IH]; [destruct Hin|].
  cbn [dibs_of]. unfold Dib_new.
  destruct (Dib_raises w p) as [e|] eqn:Ep; [exists e; reflexivity|].
  destruct Hin as [-> | Hin]; [congruence|].
  destruct (IH Hin) as (e & ->). exists e. reflexivity.
Qed.

(** X11: The pages of a PDF are all wrapped before the first of them is
    printed: when one page, wherever it is in the file, cannot be
    wrapped in a bitmap, no page at all is started, and the document is
    started and ended empty. *)
Theorem pdf_bad_page_prints_nothing w self path pages page e0 s :
  Pathlib.suffix path = ".pdf" ->
  convert_from_path w path = Ok pages ->
  In page pages -> Dib_raises w page = Some e0 ->
  raises w (trace s) (StartDoc (Pathlib.name path)) = None ->
  exists e,
    Printer.device_print w self path s =
    (mkState (trace s ++ [StartDoc (Pathlib.name path); EndDoc]) (stdin s), Raise e).
Proof.
  intros Hsuffix Hpages Hin Hbad Hstart.
  destruct (dibs_of_bad_page w pages page e0 Hin Hbad) as (e & Hdibs).
  unfold Printer.device_print, Document.enter, Document.exit.
  cbn [document_name]. rewrite with_call_brackets, Hstart.
  unfold Printer.device_print_body. rewrite Hsuffix. cbn [String.eqb Ascii.eqb Bool.eqb].
  unfold bind, lift. rewrite Hpages, Hdibs. cbn [trace stdin]. rewrite <- app_assoc.
  destruct (raises w (trace s ++ [StartDoc (Pathlib.name path)]) EndDoc) as [e'|];
    eexists; reflexivity.
Qed.

Lemma pdf_bad_page_prints_nothing_witness :
  exists e,
    Printer.device_print (with_failing_dib 1 (with_pdf [(100, 200); (100, 200)] quiet))
                         (paper 1000 2000) ["report.pdf"] (mkState [] []) =
    (mkState ([] ++ [StartDoc "report.pdf"; EndDoc]) [], Raise e).
Proof.
  apply (pdf_bad_page_prints_nothing
           (with_failing_dib 1 (with_pdf [(100, 200); (100, 200)] quiet))
           (paper 1000 2000) ["report.pdf"]
           [mkImage RGB (100, 200) 0 (["report.pdf"], 0%nat);
            mkImage RGB (100, 200) 0 (["report.pdf"], 1%nat)]
           (mkImage RGB (100, 200) 0 (["report.pdf"], 1%nat)) (OSError "Dib")
           (mkState [] []));
    try reflexivity.
  right. left. reflexivity.
Defined.

(** ** Batches of files *)

Lemma for_each_app {A} (l1 l2 : list A) body s :
  for_each (l1 ++ l2) body s =
  match for_each l1 body s with
  | (s1, Ok _) => for_each l2 body s1
  | (s1, Raise e) => (s1, Raise e)
  end.
Proof.
  revert s. induction l1 as [|x l1 IH]; intros s; cbn [for_each app]; [reflexivity|].
  unfold bind. destruct (body x s) as [s1 [[]|e]]; [apply IH | reflexivity].
Qed.

(** What [Printer.send] does with one file. *)
Lemma printer_send_cons w self path rest msg shell s :
  Printer.send w self (path :: rest) msg shell s =
  match (if shell then Printer.shell_print w else Printer.device_print w self)
          (as_path path) s with
  | (s1, Raise e) => (s1, Raise e)
  | (s1, Ok _) =>
    Printer.send w self rest msg shell
      (if String.eqb msg EmptyString then s1
       else mkState (trace s1 ++ [Print (status_line w self msg (as_path path))]) (stdin s1))
  end.
Proof.
  unfold Printer.send. cbn [for_each]. unfold bind at 1. unfold bind at 1.
  fold (as_path path). fold (status_line w self msg (as_path path)).
  destruct ((if shell then Printer.shell_print w else Printer.device_print w self)
              (as_path path) s) as [s1 [[]|e]]; [|reflexivity].
  destruct (String.eqb msg EmptyString); reflexivity.
Qed.

(** X12: The first file that fails ends the batch: once the files before it
    have gone through, its exception comes out of [Printer.send], no
    status line is printed for it and no later file is touched. *)
Theorem send_stops_at_first_failure w self sent path rest msg shell s s1 s2 e :
  Printer.send w self sent msg shell s = (s1, Ok tt) ->
  (if shell then Printer.shell_print w else Printer.device_print w self)
    (as_path path) s1 = (s2, Raise e) ->
  Printer.send w self (sent ++ path :: rest) msg shell s = (s2, Raise e).
Proof.
  intros Hsent Hfail.
  assert (Happ : Printer.send w self (sent ++ path :: rest) msg shell s =
                 Printer.send w self (path :: rest) msg shell s1).
  { unfold Printer.send in *. rewrite for_each_app, Hsent. reflexivity. }
  rewrite Happ, printer_send_cons, Hfail. reflexivity.
Qed.

Lemma send_stops_at_first_failure_witness :
  Printer.send (with_image RGB (100, 200) quiet) (paper 1000 2000)
               ([inl "a.png"] ++ inl "b.pdf" :: [inl "c.png"]) "SENT $path" false
               (mkState [] []) =
  (mkState [StartDoc "a.png"; StartPage;
            Draw (mkDib (mkImage RGB (100, 200) 0 (["a.png"], 0%nat))) 0 (0, 0, 1000, 2000);
            EndPage; EndDoc; Print "SENT $path"; StartDoc "b.pdf"; EndDoc] [],
   Raise (OSError "no such file")).
Proof.
  apply (send_stops_at_first_failure (with_image RGB (100, 200) quiet) (paper 1000 2000)
           [inl "a.png"] (inl "b.pdf") [inl "c.png"] "SENT $path" false (mkState [] [])
           (mkState [StartDoc "a.png"; StartPage;
                     Draw (mkDib (mkImage RGB (100, 200) 0 (["a.png"], 0%nat))) 0
                          (0, 0, 1000, 2000);
                     EndPage; EndDoc; Print "SENT $path"] []));
    vm_compute; reflexivity.
Defined.

(** One file in device mode: job calls only, a whole job. *)
Lemma device_print_calls w self path s :
  exists calls,
    trace (fst (Printer.device_print w self path s)) = trace s ++ calls /\
    Forall job_call calls /\
    job_run w (trace s) Idle calls = Some Idle.
Proof.
  unfold Printer.device_print, Document.enter, Document.exit.
  cbn [document_name]. rewrite with_call_brackets.
  destruct (raises w (trace s) (StartDoc (Pathlib.name path))) as [e|] eqn:Estart.
  - exists [StartDoc (Pathlib.name path)]. cbn [fst trace job_run job_step].
    unfold raised. rewrite Estart. repeat split. repeat constructor.
  - set (s1 := mkState (trace s ++ [StartDoc (Pathlib.name path)]) (stdin s)).
    set (doc := mkDocument self (Pathlib.name path)).
    assert (Hbody : exists calls,
               trace (fst (Printer.device_print_body w path doc s1)) = trace s1 ++ calls /\
               Forall page_call calls /\
               job_run w (trace s1) DocumentStarted calls = Some DocumentStarted).
    { unfold Printer.device_print_body.
      destruct (String.eqb (Pathlib.suffix path) ".pdf").
      - unfold bind, lift.
        destruct (convert_from_path w path) as [pages|e].
        + destruct (dibs_of w pages) as [dibs|e].
          * apply document_send_brackets.
          * exists []. cbn. rewrite app_nil_r. repeat split. constructor.
        + exists []. cbn. rewrite app_nil_r. repeat split. constructor.
      - apply document_send_brackets. }
    destruct Hbody as (calls & T & F & J).
    exists (StartDoc (Pathlib.name path) :: calls ++ [EndDoc]).
    destruct (Printer.device_print_body w path doc s1) as [s2 outcome]. cbn [fst trace] in *.
    rewrite T. subst s1. cbn [trace] in *. rewrite <- !app_assoc. cbn [app].
    repeat split.
    + constructor; [exact I|]. apply Forall_app. split.
      * eapply Forall_impl; [|exact F]. intros [] Hc; try exact I; destruct Hc.
      * repeat constructor.
    + cbn [job_run job_step]. unfold raised. rewrite Estart.
      rewrite job_run_app, J. reflexivity.
Qed.

Lemma session_run_app w before st l1 l2 :
  session_run w before st (l1 ++ l2) =
  match session_run w before st l1 with
  | Some st' => session_run w (before ++ l1) st' l2
  | None => None
  end.
Proof.
  revert before st. induction l1 as [|c l1 IH]; intros before st; cbn [session_run app].
  - now rewrite app_nil_r.
  - destruct (session_step st c (raised w before c)) as [st'|]; [|reflexivity].
    rewrite IH, <- app_assoc. reflexivity.
Qed.

(** A run of the job protocol is a run of the session protocol. *)
Lemma job_run_session w calls :
  forall before st st',
    job_run w before st calls = Some st' -> session_run w before st calls = Some st'.
Proof.
  induction calls as [|c calls IH]; intros before st st'; cbn [job_run session_run];
    [trivial|].
  assert (Hstep : forall st1, job_step st c (raised w before c) = Some st1 ->
                              session_step st c (raised w before c) = Some st1).
  { intros st1. destruct c; cbn [session_step]; trivial. destruct st; discriminate. }
  destruct (job_step st c (raised w before c)) as [st1|]; [|discriminate].
  rewrite (Hstep st1 eq_refl). apply IH.
Qed.

(** The calls of [Printer.send], file by file: if every file only makes
    calls with the property [Q], and so does the status line when there
    is one, then so does the batch. *)
Lemma printer_send_calls (Q : call -> Prop) w self msg (shell : bool) :
  (forall (path : Path) (s : state), exists calls,
      trace (fst ((if shell then Printer.shell_print w else Printer.device_print w self)
                    path s)) = trace s ++ calls /\ Forall Q calls) ->
  (String.eqb msg EmptyString = false -> forall line, Q (Print line)) ->
  forall paths s, exists calls,
      trace (fst (Printer.send w self paths msg shell s)) = trace s ++ calls /\
      Forall Q calls.
Proof.
  intros Hfile Hline paths.
  induction paths as [|path paths IH]; intros s.
  - exists []. cbn. rewrite app_nil_r. split; constructor.
  - rewrite printer_send_cons.
    destruct (Hfile (as_path path) s) as (c1 & T1 & F1).
    destruct ((if shell then Printer.shell_print w else Printer.device_print w self)
                (as_path path) s) as [s1 [[]|e]]; cbn [fst] in T1.
    + destruct (String.eqb msg EmptyString) eqn:Emsg.
      * destruct (IH s1) as (c2 & T2 & F2).
        exists (c1 ++ c2). rewrite T2, T1, app_assoc. split; [reflexivity|].
        now apply Forall_app.
      * destruct (IH (mkState (trace s1 ++ [Print (status_line w self msg (as_path path))])
                              (stdin s1))) as (c2 & T2 & F2).
        exists (c1 ++ Print (status_line w self msg (as_path path)) :: c2).
        rewrite T2. cbn [trace]. rewrite T1, <- !app_assoc. split; [reflexivity|].
        apply Forall_app. split; [exact F1|]. constructor; [now apply Hline | exact F2].
    + exists c1. cbn [fst]. split; assumption.
Qed.

Lemma shell_print_calls (Q : call -> Prop) w path s :
  (forall p v, Q (StartFile p v)) ->
  exists calls,
    trace (fst (Printer.shell_print w path s)) = trace s ++ calls /\ Forall Q calls.
Proof.
  intros HQ. exists [StartFile path "print"]. split; [reflexivity|].
  constructor; [apply HQ | constructor].
Qed.

Lemma print_document_calls (Q : call -> Prop) w self (shell : bool) path s :
  (forall c, job_call c -> Q c) -> (forall p v, Q (StartFile p v)) ->
  exists calls,
    trace (fst ((if shell then Printer.shell_print w else Printer.device_print w self)
                  path s)) = trace s ++ calls /\ Forall Q calls.
Proof.
  intros Hjob Hfile. destruct shell.
  - now apply shell_print_calls.
  - destruct (device_print_calls w self path s) as (calls & T & F & _).
    exists calls. split; [exact T|]. eapply Forall_impl; [|exact F]. exact Hjob.
Qed.

(** X13: Without a message nothing is printed on the console, in either
    mode and whatever raises. *)
Theorem no_message_no_status w self paths shell s :
  exists calls,
    trace (fst (Printer.send w self paths EmptyString shell s)) = trace s ++ calls /\
    Forall not_print calls.
Proof.
  apply printer_send_calls.
  - intros path s'. apply print_document_calls.
    + intros [] Hc; try exact I; destruct Hc.
    + intros p v. exact I.
  - discriminate.
Qed.

(** X14: Device mode over a whole batch, whatever raises: the calls follow
    the job protocol from file to file (a document is started only
    while the device is idle, every started page is ended before the
    next call to the device, every started document is ended before the
    next one starts) and the device is idle when [Printer.send] returns
    or raises. *)
Theorem device_batch_follows_protocol w self paths msg s :
  exists calls,
    trace (fst (Printer.send w self paths msg false s)) = trace s ++ calls /\
    session_run w (trace s) Idle calls = Some Idle.
Proof.
  revert s. induction paths as [|path paths IH]; intros s.
  - exists []. cbn. rewrite app_nil_r. split; reflexivity.
  - rewrite printer_send_cons.
    destruct (device_print_calls w self (as_path path) s) as (c1 & T1 & _ & J1).
    apply job_run_session in J1.
    destruct (Printer.device_print w self (as_path path) s) as [s1 [[]|e]]; cbn [fst] in T1.
    + destruct (String.eqb msg EmptyString).
      * destruct (IH s1) as (c2 & T2 & J2).
        exists (c1 ++ c2). rewrite T2, T1, app_assoc. split; [reflexivity|].
        rewrite session_run_app, J1, <- T1. exact J2.
      * destruct (IH (mkState (trace s1 ++ [Print (status_line w self msg (as_path path))])
                              (stdin s1))) as (c2 & T2 & J2).
        exists (c1 ++ Print (status_line w self msg (as_path path)) :: c2).
        rewrite T2. cbn [trace] in *. rewrite T1, <- !app_assoc. split; [reflexivity|].
        rewrite session_run_app, J1. cbn [session_run session_step].
        rewrite T1 in J2. exact J2.
    + exists c1. cbn [fst]. split; assumption.
Qed.

(** X15: Shell mode when nothing raises: every file is handed to the print
    verb, in the order given, each followed by its status line when a
    message is set; nothing else is called. *)
Theorem shell_batch_in_order w self paths msg s :
  calm w ->
  Printer.send w self paths msg true s =
  (mkState (trace s ++
            flat_map (fun path =>
                        StartFile (as_path path) "print" ::
                        (if String.eqb msg EmptyString then []
                         else [Print (status_line w self msg (as_path path))]))
                     paths)
           (stdin s),
   Ok tt).
Proof.
  intros Hcalm. revert s. induction paths as [|path paths IH]; intros s.
  - cbn. rewrite app_nil_r. now destruct s.
  - rewrite printer_send_cons. unfold Printer.shell_print, do_call. rewrite Hcalm.
    rewrite IH. cbn [flat_map].
    destruct (String.eqb msg EmptyString); cbn [trace stdin app];
      rewrite <- !app_assoc; reflexivity.
Qed.

Lemma shell_batch_in_order_witness :
  Printer.send quiet (paper 4961 7016) [inl "a.pdf"; inr ["dir"; "b.pdf"]] "SENT" true
               (mkState [] []) =
  (mkState [StartFile ["a.pdf"] "print"; Print "SENT";
            StartFile ["dir"; "b.pdf"] "print"; Print "SENT"] [],
   Ok tt).
Proof.
  apply (shell_batch_in_order quiet (paper 4961 7016) [inl "a.pdf"; inr ["dir"; "b.pdf"]]
           "SENT" (mkState [] [])).
  intros before c. reflexivity.
Defined.

(** X16: The module-level [send], in either mode and whatever raises: when
    the device context cannot be opened the error comes out and nothing
    else is called; once it is open, the batch makes no setup call and
    never closes it, and [DeleteDC] is called exactly once, last. *)
Theorem send_closes_device_once w paths printer_name msg shell s :
  exists setup,
    trace (fst (Printer.init w printer_name s)) = trace s ++ setup /\
    Forall setup_call setup /\
    match snd (Printer.init w printer_name s) with
    | Ok p =>
      exists calls,
        trace (fst (send w paths printer_name msg shell s)) =
          trace s ++ setup ++ calls ++ [DeleteDC] /\
        Forall batch_call calls
    | Raise e =>
      send w paths printer_name msg shell s = (fst (Printer.init w printer_name s), Raise e)
    end.
Proof.
  destruct (init_calls w printer_name s) as (setup & T & F & _).
  exists setup. split; [exact T|]. split; [exact F|].
  rewrite !send_steps.
  destruct (Printer.init w printer_name s) as [s1 [p|e]]; cbn [fst snd] in *;
    [|reflexivity].
  destruct (printer_send_calls batch_call w p msg shell) with (paths := paths) (s := s1)
    as (calls & Tc & Fc).
  - intros path s'. apply print_document_calls.
    + intros [] Hc; try exact I; destruct Hc.
    + intros q v. exact I.
  - intros _ line. exact I.
  - exists calls. split; [|exact Fc].
    destruct (Printer.send w p paths msg shell s1) as [s2 outcome].
    cbn [fst trace] in *. rewrite Tc, T, <- !app_assoc. reflexivity.
Qed.

(** ** More on choosing the printer *)

Lemma digit_is_ascii c : Py.is_digit c = true -> (N_of_ascii c <? 128)%N = true.
Proof.
  destruct c as [[] [] [] [] [] [] [] []]; vm_compute; congruence.
Qed.

Lemma digit_not_space c : Py.is_digit c = true -> Py.is_space c = false.
Proof.
  destruct c as [[] [] [] [] [] [] [] []]; vm_compute; congruence.
Qed.

(** A line of ASCII digits is parsed as it is. *)
Lemma ascii_form_digits l :
  Forall (fun c => Py.is_digit c = true) l -> Py.ascii_form l = l.
Proof.
  induction 1 as [|c r Hc _ IH]; cbn [Py.ascii_form]; [reflexivity|].
  now rewrite (digit_is_ascii c Hc), IH.
Qed.

Lemma lstrip_digits l :
  Forall (fun c => Py.is_digit c = true) l -> Py.lstrip l = l.
Proof.
  intros [|c r Hc _]; cbn [Py.lstrip]; [reflexivity|].
  now rewrite (digit_not_space c Hc).
Qed.

Lemma string_of_uint_digits d :
  Forall (fun c => Py.is_digit c = true)
         (list_ascii_of_string (NilEmpty.string_of_uint d)).
Proof.
  induction d; cbn [NilEmpty.string_of_uint list_ascii_of_string];
    constructor; (reflexivity || assumption).
Qed.

Lemma count_digits_all l :
  Forall (fun c => Py.is_digit c = true) l -> Py.count_digits l = List.length l.
Proof.
  unfold Py.count_digits.
  induction 1 as [|c r Hc _ IH]; cbn [filter List.length]; [reflexivity|].
  rewrite Hc. cbn [List.length]. now rewrite IH.
Qed.

Lemma string_of_uint_length d :
  List.length (list_ascii_of_string (NilEmpty.string_of_uint d)) = Decimal.nb_digits d.
Proof.
  induction d; cbn [NilEmpty.string_of_uint list_ascii_of_string List.length
                    Decimal.nb_digits]; congruence.
Qed.

Lemma digits_of_uint d :
  forall acc b, (d = Decimal.Nil -> b = true) ->
    Py.digits (Z.of_nat acc) b (list_ascii_of_string (NilEmpty.string_of_uint d)) =
    Some (Z.of_nat (Nat.of_uint_acc d acc)).
Proof.
  induction d as [|d IH|d IH|d IH|d IH|d IH|d IH|d IH|d IH|d IH|d IH]; intros acc b Hb;
    cbn [NilEmpty.string_of_uint list_ascii_of_string Py.digits Nat.of_uint_acc];
    [rewrite Hb by reflexivity; reflexivity| ..];
    match goal with
    | |- context [Py.is_digit ?c] => change (Py.is_digit c) with true; cbv iota
    end;
    rewrite <- (IH _ true) by reflexivity; f_equal;
    rewrite Nat.tail_mul_spec; unfold Py.digit_value;
    match goal with
    | |- context [nat_of_ascii ?c] =>
      let v := eval vm_compute in (nat_of_ascii c) in change (nat_of_ascii c) with v
    end; lia.
Qed.

(** The value of a decimal numeral, digit by digit. *)
Lemma of_uint_acc_value d :
  forall acc,
    Z.of_nat (Nat.of_uint_acc d acc) =
    Z.of_nat acc * 10 ^ Z.of_nat (Decimal.nb_digits d) + Z.of_nat (Nat.of_uint_acc d 0).
Proof.
  induction d as [|d IH|d IH|d IH|d IH|d IH|d IH|d IH|d IH|d IH|d IH]; intros acc;
    cbn [Nat.of_uint_acc Decimal.nb_digits];
    [change (Z.of_nat 0) with 0; lia| ..];
    rewrite !Nat.tail_mul_spec;
    match goal with
    | |- Z.of_nat (Nat.of_uint_acc d ?a) = _ + Z.of_nat (Nat.of_uint_acc d ?b) =>
      rewrite (IH a), (IH b)
    end;
    rewrite (Nat2Z.inj_succ (Decimal.nb_digits d)), Z.pow_succ_r by lia;
    set (p := 10 ^ Z.of_nat (Decimal.nb_digits d));
    set (v := Z.of_nat (Nat.of_uint_acc d 0)); clearbody p v; nia.
Qed.

(** A numeral without leading zeros is at least the power of ten of
    its length. *)
Lemma nzhead_value d :
  Decimal.nzhead d <> Decimal.Nil ->
  10 ^ (Z.of_nat (Decimal.nb_digits (Decimal.nzhead d)) - 1) <=
  Z.of_nat (Nat.of_uint_acc (Decimal.nzhead d) 0).
Proof.
  induction d as [|d IH|d IH|d IH|d IH|d IH|d IH|d IH|d IH|d IH|d IH];
    cbn [Decimal.nzhead]; intros Hne; [congruence | now apply IH | ..];
    cbn [Nat.of_uint_acc Decimal.nb_digits];
    rewrite of_uint_acc_value, Nat2Z.inj_succ;
    replace (Z.succ (Z.of_nat (Decimal.nb_digits d)) - 1)
      with (Z.of_nat (Decimal.nb_digits d)) by lia;
    assert (0 < 10 ^ Z.of_nat (Decimal.nb_digits d)) by (apply Z.pow_pos_nonneg; lia);
    set (p := 10 ^ Z.of_nat (Decimal.nb_digits d)) in *;
    rewrite !Nat.tail_mul_spec; nia.
Qed.

(** [str(n)] has at most [m] digits when [n < 10 ^ m]. *)
Lemma to_uint_nb_digits n m :
  0 < m -> Z.of_nat n < 10 ^ m -> Z.of_nat (Decimal.nb_digits (Nat.to_uint n)) <= m.
Proof.
  intros Hm Hn.
  pose proof (DecimalNat.Unsigned.to_of (Nat.to_uint n)) as Hnorm.
  rewrite DecimalNat.Unsigned.of_to in Hnorm.
  pose proof (DecimalNat.Unsigned.of_to n) as Hval. unfold Nat.of_uint in Hval.
  rewrite Hnorm in Hval |- *. unfold Decimal.unorm in *.
  pose proof (nzhead_value (Nat.to_uint n)) as Hlow.
  destruct (Decimal.nzhead (Nat.to_uint n)) eqn:Ehead;
    [cbn [Decimal.nb_digits]; lia| ..];
    specialize (Hlow ltac:(discriminate)); rewrite Hval in Hlow;
    match goal with
    | |- Z.of_nat ?k <= m =>
      destruct (Z.le_gt_cases (Z.of_nat k) m) as [|Hgt]; [assumption|exfalso];
      assert (10 ^ m <= 10 ^ (Z.of_nat k - 1)) by (apply Z.pow_le_mono_r; lia)
    end; lia.
Qed.

(** [int(str(n)) == n], as long as [str(n)] is within the limit on
    the number of digits. *)
Lemma int_of_str_of_nat n :
  Z.of_nat n < 10 ^ Z.of_nat Py.int_max_str_digits ->
  Py.int_of_str (Py.str_of_nat n) = Ok (Z.of_nat n).
Proof.
  intros Hlimit.
  unfold Py.int_of_str, Py.str_of_nat, Py.strip.
  pose proof (string_of_uint_digits (Nat.to_uint n)) as Hd.
  rewrite (ascii_form_digits _ Hd).
  rewrite (lstrip_digits _ Hd).
  rewrite lstrip_digits by (apply Forall_rev; exact Hd).
  rewrite rev_involutive.
  pose proof (digits_of_uint (Nat.to_uint n) 0 false) as Hv.
  pose proof (DecimalNat.Unsigned.of_to n) as Hn. unfold Nat.of_uint in Hn.
  rewrite Hn in Hv.
  pose proof (count_digits_all _ Hd) as Hcount.
  rewrite string_of_uint_length in Hcount.
  pose proof (to_uint_nb_digits n (Z.of_nat Py.int_max_str_digits)
                ltac:(unfold Py.int_max_str_digits; lia) Hlimit) as Hlen.
  destruct (list_ascii_of_string (NilEmpty.string_of_uint (Nat.to_uint n)))
    as [|c r] eqn:El.
  - exfalso. destruct (Nat.to_uint n) eqn:Eu; try discriminate El.
    unfold Nat.to_uint in Eu. destruct n; [discriminate Eu|].
    pose proof (DecimalNat.Unsigned.of_to (S n)) as Hn'. unfold Nat.to_uint in Hn'.
    rewrite Eu in Hn'. discriminate Hn'.
  - assert (Hc : Py.is_digit c = true) by (now inversion Hd).
    assert (Hminus : Ascii.eqb c "-" = false).
    { apply Ascii.eqb_neq. intros ->. discriminate Hc. }
    assert (Hplus : Ascii.eqb c "+" = false).
    { apply Ascii.eqb_neq. intros ->. discriminate Hc. }
    change (Z.of_nat 0) with 0 in Hv.
    rewrite Hminus, Hplus, Hc, Hv.
    + rewrite Hcount.
      replace (Decimal.nb_digits (Nat.to_uint n) <=? Py.int_max_str_digits)%nat
        with true by (symmetry; apply Nat.leb_le; lia).
      now rewrite Z.mul_1_l.
    + intros E. rewrite E in El. discriminate El.
Qed.

(** X17: Resolving the printer never raises, whatever is installed,
    configured and typed: the three exceptions the selection can raise
    are the three it catches.  It reads at most one line. *)
Theorem get_printer_name_never_raises w c s :
  exists s' chosen,
    get_printer_name w c s = (s', Ok chosen) /\
    (stdin s' = stdin s \/ stdin s' = tl (stdin s)).
Proof.
  destruct s as [tr inp].
  destruct (target_installed_test w c) as [Hto Hfrom].
  destruct (truthy (EXPECTED_PRINTER c) &&
            match EXPECTED_PRINTER c with
            | Some expected => mem expected (PRINTERS w)
            | None => false
            end) eqn:Htest.
  - rewrite get_printer_name_installed by (apply Hto; reflexivity).
    do 2 eexists. split; [reflexivity | now left].
  - rewrite get_printer_name_prompts by (intros H; apply Hfrom in H; discriminate).
    unfold try_except, bind, input, lift, ret. cbn [trace stdin].
    destruct inp as [|[line|] rest]; cbn [selection_errors exn_eqb orb tl];
      try (do 2 eexists; split; [reflexivity | auto]).
    destruct (Py.int_of_str line) as [i|e] eqn:Eint.
    + destruct (Py.index (PRINTERS w) i) as [chosen|e] eqn:Eidx.
      * do 2 eexists. split; [reflexivity | now right].
      * apply index_raises in Eidx. subst e. cbn [selection_errors exn_eqb orb].
        do 2 eexists. split; [reflexivity | now right].
    + apply int_of_str_raises in Eint. subst e. cbn [selection_errors exn_eqb orb].
      do 2 eexists. split; [reflexivity | now right].
Qed.

Lemma menu_lines_nth choices :
  forall no k x,
    nth_error choices k = Some x ->
    nth_error (menu_lines no choices) k =
    Some (Print (Py.str_of_nat (no + k) ++ ". " ++ x)).
Proof.
  induction choices as [|choice rest IH]; intros no [|k] x H; cbn in H; try discriminate.
  - injection H as <-. cbn [menu_lines nth_error]. now rewrite Nat.add_0_r.
  - cbn [menu_lines nth_error]. rewrite (IH (S no) k x H).
    now rewrite Nat.add_succ_r.
Qed.

(** X18: The menu and the selection agree: the printer at position [k] of
    the catalog is shown on line [k] of the menu as "k. name", and
    typing that number selects it.  The menu numbers are taken to stay
    within the interpreter's limit on the digits of an integer (fewer
    than [10^4300] printers), beyond which neither [str] nor [int]
    converts them. *)
Theorem menu_number_selects w c tr rest k chosen :
  ~ target_installed w c ->
  Z.of_nat (List.length (PRINTERS w)) < 10 ^ Z.of_nat Py.int_max_str_digits ->
  nth_error (PRINTERS w) k = Some chosen ->
  nth_error (menu_lines 0 (PRINTERS w ++ ["QUIT"])) k =
    Some (Print (Py.str_of_nat k ++ ". " ++ chosen)) /\
  get_printer_name w c (mkState tr (Some (Py.str_of_nat k) :: rest)) =
    (mkState (tr ++ prompt_lines w c ++ [Input EmptyString]) rest, Ok (Some chosen)).
Proof.
  intros Hnot Hlimit Hnth. split.
  - apply (menu_lines_nth _ 0%nat). rewrite nth_error_app1; [exact Hnth|].
    apply nth_error_Some. congruence.
  - assert (Hk : (k < List.length (PRINTERS w))%nat)
      by (apply nth_error_Some; congruence).
    destruct (valid_choice_selects w c tr (Py.str_of_nat k) rest (Z.of_nat k) Hnot
                (int_of_str_of_nat k ltac:(lia)) ltac:(lia)) as (chosen' & Hnth' & Hget).
    replace (Z.of_nat k <? 0) with false in Hnth' by (symmetry; apply Z.ltb_ge; lia).
    rewrite Nat2Z.id in Hnth'. rewrite Hget. congruence.
Qed.

Lemma menu_number_selects_witness :
  nth_error (menu_lines 0 (PRINTERS catalog_AB ++ ["QUIT"])) 1 = Some (Print "1. B") /\
  get_printer_name catalog_AB shipped (mkState [] [Some "1"]) =
    (mkState ([] ++ prompt_lines catalog_AB shipped ++ [Input EmptyString]) [],
     Ok (Some "B")).
Proof.
  apply (menu_number_selects catalog_AB shipped [] [] 1 "B").
  - intros (n & E & _). discriminate E.
  - vm_compute. reflexivity.
  - reflexivity.
Defined.

Lemma menu_lines_app l1 :
  forall no l2,
    menu_lines no (l1 ++ l2) = menu_lines no l1 ++ menu_lines (no + List.length l1) l2.
Proof.
  induction l1 as [|x l1 IH]; intros no l2; cbn [menu_lines app List.length].
  - now rewrite Nat.add_0_r.
  - rewrite IH, Nat.add_succ_r. reflexivity.
Qed.

(** X19: QUIT is the last line of the menu, numbered with the size of the
    catalog, and typing that number selects no printer: it is the first
    index past the end of the catalog.  The menu numbers are taken to
    stay within the interpreter's limit on the digits of an integer. *)
Theorem quit_number_selects_nothing w c tr rest :
  ~ target_installed w c ->
  Z.of_nat (List.length (PRINTERS w)) < 10 ^ Z.of_nat Py.int_max_str_digits ->
  let quit := Py.str_of_nat (List.length (PRINTERS w)) in
  last (prompt_lines w c) (Print EmptyString) = Print (quit ++ ". QUIT") /\
  get_printer_name w c (mkState tr (Some quit :: rest)) =
    (mkState (tr ++ prompt_lines w c ++ [Input EmptyString]) rest, Ok None).
Proof.
  intros Hnot Hlimit quit. split.
  - unfold prompt_lines. rewrite menu_lines_app. cbn [menu_lines Nat.add].
    change (Print "CHOOSE PRINTER OR QUIT" :: ?l ++ [?x])
      with ((Print "CHOOSE PRINTER OR QUIT" :: l) ++ [x]).
    rewrite app_assoc, last_last. reflexivity.
  - apply invalid_choice_selects_nothing; [exact Hnot|].
    unfold invalid_choice, quit. rewrite int_of_str_of_nat by exact Hlimit. right. lia.
Qed.

Lemma quit_number_selects_nothing_witness :
  last (prompt_lines catalog_AB shipped) (Print EmptyString) = Print "2. QUIT" /\
  get_printer_name catalog_AB shipped (mkState [] [Some "2"]) =
    (mkState ([] ++ prompt_lines catalog_AB shipped ++ [Input EmptyString]) [], Ok None).
Proof.
  apply (quit_number_selects_nothing catalog_AB shipped [] []).
  - intros (n & E & _). discriminate E.
  - vm_compute. reflexivity.
Defined.

(** X20: Once a printer is selected, [main] sends exactly the printable
    paths to it in device mode with the configured message; when that
    raises, the exception leaves [main] at once (neither WORK COMPLETE
    nor the closing prompt appears); otherwise WORK COMPLETE is printed
    and the closing prompt reads one line. *)
Theorem main_sends_selection w c s s0 chosen :
  get_printer_name w c s = (s0, Ok (Some chosen)) ->
  chosen <> EmptyString ->
  main w c s =
  match send w (map inr (printable_paths w c)) chosen (MSG c) false s0 with
  | (s1, Raise e) => (s1, Raise e)
  | (s1, Ok _) =>
    (mkState (trace s1 ++ [Print "WORK COMPLETE";
                           Input ("PRESS ENTER TO QUIT" ++ newline)])
             (tl (stdin s1)),
     match stdin s1 with
     | Some _ :: _ => Ok tt
     | _ => Raise EOFError
     end)
  end.
Proof.
  intros Hget Hname. unfold main. unfold bind at 1. rewrite Hget.
  cbn [truthy]. apply String.eqb_neq in Hname. rewrite Hname. cbn [negb].
  unfold bind at 1.
  destruct (send w (map inr (printable_paths w c)) chosen (MSG c) false s0)
    as [s1 [[]|e]]; [|reflexivity].
  unfold bind, print, input, ret. cbn [trace stdin]. rewrite <- app_assoc. cbn [app].
  destruct (stdin s1) as [|[line|] rest]; reflexivity.
Qed.

Lemma main_sends_selection_witness :
  main (with_directory [Pathlib.File "a.pdf"] (with_pdf [(100, 200)] catalog_AB)) shipped
       (mkState [] [Some "1"; Some EmptyString]) =
  (mkState [Print "CHOOSE PRINTER OR QUIT"; Print "0. A"; Print "1. B"; Print "2. QUIT";
            Input EmptyString;
            CreateDC; CreatePrinterDC "B"; GetDeviceCaps 110; GetDeviceCaps 111;
            GetHandleOutput;
            StartDoc "a.pdf"; StartPage;
            Draw (mkDib (mkImage RGB (100, 200) 0 (["a.pdf"], 0%nat))) 0 (0, 0, 0, 0);
            EndPage; EndDoc; Print "SENT $path TO $printer"; DeleteDC;
            Print "WORK COMPLETE"; Input ("PRESS ENTER TO QUIT" ++ newline)] [],
   Ok tt).
Proof.
  apply (main_sends_selection
           (with_directory [Pathlib.File "a.pdf"] (with_pdf [(100, 200)] catalog_AB)) shipped
           (mkState [] [Some "1"; Some EmptyString])
           (mkState [Print "CHOOSE PRINTER OR QUIT"; Print "0. A"; Print "1. B";
                     Print "2. QUIT"; Input EmptyString] [Some EmptyString]) "B").
  - vm_compute. reflexivity.
  - discriminate.
Defined.
